(** * Edit-activity analytics of [wikipedia_mcp/wikipedia_client.py]

    A shallow embedding of [analyze_edit_activity],
    [get_significant_revisions] and the private scoring helpers of
    [WikipediaClient], together with the properties of the specification
    that concern them.

    Modelling conventions.
    - Python [int] is [Z]; list indices and [range] bounds are [Z] as well,
      so that the negative indices the source tests for can be written.
    - Python [float] is idealised: the scorer only adds, multiplies, divides
      and compares, so its floats are exact rationals [Q]; the spike detector
      takes a square root ([statistics.stdev]) and is stated over [R].
    - A revision is a Python [dict]; it is embedded as a record whose fields
      are the keys the analysed code reads, each optional because each is
      read with [dict.get] or guarded by [try].
    - An exception is the [Raise] case of [result]; the [try/except] blocks
      of the source are the places where a [Raise] is turned into a value. *)

From Stdlib Require Import ZArith QArith Qminmax Qabs Qround Reals Psatz.
From Stdlib Require Import List String Ascii Bool Lia Permutation Sorted.
Import ListNotations.

Local Open Scope Z_scope.

(** ** Python values and control *)

Module Py.

(** Exceptions that the analysed code can raise. *)
Inductive exn :=
| TypeError (msg : string)
| KeyError (key : string).

Inductive result (A : Type) :=
| Ok (a : A)
| Raise (e : exn).
Arguments Ok {A} a.
Arguments Raise {A} e.

Definition bind {A B} (m : result A) (k : A -> result B) : result B :=
  match m with
  | Ok a => k a
  | Raise e => Raise e
  end.

(** [str(e)] for the exceptions above. *)
Definition str (e : exn) : string :=
  match e with
  | TypeError msg => msg
  | KeyError key => ("'" ++ key ++ "'")%string
  end.

(** [for x in l: acc = f acc x], stopping at the first exception. *)
Fixpoint for_each {A S} (f : S -> A -> result S) (l : list A) (s : S)
  : result S :=
  match l with
  | [] => Ok s
  | x :: l' => bind (f s x) (for_each f l')
  end.

(** [range(lo, hi)], given with the number of elements still to produce. *)
Fixpoint range_from (lo : Z) (n : nat) : list Z :=
  match n with
  | O => []
  | S n' => lo :: range_from (lo + 1) n'
  end.

Definition range (lo hi : Z) : list Z := range_from lo (Z.to_nat (hi - lo)).

(** [l[i]] for an index already known to satisfy [0 <= i < len(l)]. *)
Definition get {A} (l : list A) (i : Z) : option A := nth_error l (Z.to_nat i).

Definition len {A} (l : list A) : Z := Z.of_nat (List.length l).

(** [l[:k]]: a negative [k] counts from the end of the list. *)
Definition slice_to {A} (l : list A) (k : Z) : list A :=
  if k <? 0 then firstn (Z.to_nat (len l + k)) l
  else firstn (Z.to_nat k) l.

(** [round(x)] to the nearest integer, ties to the even neighbour. *)
Definition round_half_even (x : Q) : Z :=
  let f := Qfloor x in
  let r := (x - inject_Z f)%Q in
  match (r ?= 1 # 2)%Q with
  | Lt => f
  | Gt => f + 1
  | Eq => if Z.even f then f else f + 1
  end.

(** [round(x, ndigits)] for a non-negative number of digits. *)
Definition round (x : Q) (ndigits : nat) : Q :=
  let p := Z.pow 10 (Z.of_nat ndigits) in
  (inject_Z (round_half_even (x * inject_Z p)) / inject_Z p)%Q.

(** [s.lower()] on the ASCII letters. *)
Definition lower_ascii (c : ascii) : ascii :=
  let n := nat_of_ascii c in
  if andb (Nat.leb 65 n) (Nat.leb n 90) then ascii_of_nat (n + 32) else c.

Fixpoint lower (s : string) : string :=
  match s with
  | EmptyString => EmptyString
  | String c s' => String (lower_ascii c) (lower s')
  end.

(** [pat in s] for strings. *)
Fixpoint contains (pat s : string) : bool :=
  if String.prefix pat s then true
  else match s with
       | EmptyString => false
       | String _ s' => contains pat s'
       end.

End Py.

Notation "x <- m ;; k" := (Py.bind m (fun x => k))
  (at level 61, m at next level, right associativity).

(** ** [datetime]

    The part of Python's [datetime] the analysed code uses.  Instants are
    the UTC instants the MediaWiki API emits (suffix [Z], turned into
    [+00:00] before parsing), so a [datetime] is its UTC calendar fields. *)

Module Datetime.

Record datetime := mk_datetime {
  year : Z; month : Z; day : Z;
  hour : Z; minute : Z; second : Z; microsecond : Z
}.

Definition is_leap (y : Z) : bool :=
  andb (y mod 4 =? 0) (orb (negb (y mod 100 =? 0)) (y mod 400 =? 0)).

Definition days_in_month_table (m : Z) : Z :=
  match m with
  | 1 => 31 | 2 => 28 | 3 => 31 | 4 => 30 | 5 => 31 | 6 => 30
  | 7 => 31 | 8 => 31 | 9 => 30 | 10 => 31 | 11 => 30 | 12 => 31
  | _ => -1
  end.

Definition days_before_month_table (m : Z) : Z :=
  match m with
  | 1 => 0 | 2 => 31 | 3 => 59 | 4 => 90 | 5 => 120 | 6 => 151
  | 7 => 181 | 8 => 212 | 9 => 243 | 10 => 273 | 11 => 304 | 12 => 334
  | _ => -1
  end.

Definition days_before_year (y : Z) : Z :=
  let y1 := y - 1 in
  y1 * 365 + y1 / 4 - y1 / 100 + y1 / 400.

Definition days_before_month (y m : Z) : Z :=
  days_before_month_table m
  + (if andb (2 <? m) (is_leap y) then 1 else 0).

Definition ymd2ord (y m d : Z) : Z :=
  days_before_year y + days_before_month y m + d.

Definition DI400Y : Z := 146097.
Definition DI100Y : Z := 36524.
Definition DI4Y : Z := 1461.

(** [_ord2ymd] of the standard library: ordinal 1 is 0001-01-01. *)
Definition ord2ymd (n : Z) : Z * Z * Z :=
  let n := n - 1 in
  let n400 := n / DI400Y in
  let n := n mod DI400Y in
  let y := n400 * 400 + 1 in
  let n100 := n / DI100Y in
  let n := n mod DI100Y in
  let n4 := n / DI4Y in
  let n := n mod DI4Y in
  let n1 := n / 365 in
  let n := n mod 365 in
  let y := y + n100 * 100 + n4 * 4 + n1 in
  if orb (n1 =? 4) (n100 =? 4) then (y - 1, 12, 31)
  else
    let leapyear :=
      andb (n1 =? 3) (orb (negb (n4 =? 24)) (n100 =? 3)) in
    let m := Z.shiftr (n + 50) 5 in
    let preceding :=
      days_before_month_table m
      + (if andb (2 <? m) leapyear then 1 else 0) in
    if n <? preceding then
      let m := m - 1 in
      let preceding :=
        preceding
        - (days_in_month_table m
           + (if andb (m =? 2) leapyear then 1 else 0)) in
      (y, m, n - preceding + 1)
    else (y, m, n - preceding + 1).

Definition toordinal (t : datetime) : Z :=
  ymd2ord (year t) (month t) (day t).

(** [t.weekday()]: Monday is 0. *)
Definition weekday (t : datetime) : Z := (toordinal t + 6) mod 7.

(** [t - timedelta(days=k)]. *)
Definition sub_days (t : datetime) (k : Z) : datetime :=
  let '(y, m, d) := ord2ymd (toordinal t - k) in
  mk_datetime y m d (hour t) (minute t) (second t) (microsecond t).

(** Microseconds since the start of ordinal day 0. *)
Definition to_micros (t : datetime) : Z :=
  (((toordinal t * 24 + hour t) * 60 + minute t) * 60 + second t) * 1000000
  + microsecond t.

(** [(a - b).total_seconds()]. *)
Definition total_seconds_between (a b : datetime) : Q :=
  (inject_Z (to_micros a - to_micros b) / inject_Z 1000000)%Q.

(** [a < b] and [a > b] on instants. *)
Definition ltb (a b : datetime) : bool := to_micros a <? to_micros b.
Definition gtb (a b : datetime) : bool := to_micros b <? to_micros a.

(** Decimal digits for [strftime]. *)
Definition digit (n : Z) : ascii :=
  ascii_of_nat (48 + Z.to_nat (n mod 10)).

Definition pad2 (n : Z) : string :=
  String (digit (n / 10)) (String (digit n) EmptyString).

Definition pad4 (n : Z) : string :=
  String (digit (n / 1000)) (String (digit (n / 100)) (pad2 n)).

(** [t.strftime('%Y-%m-%d')] and [t.strftime('%Y-%m')], for the four-digit
    years of the revisions of a wiki. *)
Definition strftime_Ymd (t : datetime) : string :=
  (pad4 (year t) ++ "-" ++ pad2 (month t) ++ "-" ++ pad2 (day t))%string.

Definition strftime_Ym (t : datetime) : string :=
  (pad4 (year t) ++ "-" ++ pad2 (month t))%string.

End Datetime.

Import Datetime.

(** ** Revisions

    The keys of a revision [dict] that the analysed code reads.  [None] in an
    optional field is an absent key.
    - [timestamp] holds what [datetime.fromisoformat] makes of [rev['timestamp']]:
      [None] when the key is missing or the string is rejected (both raise
      inside the [try] of the filter loop).
    - [sizediff] keeps apart an absent key and the value [None], which
      [get_page_revisions] stores for the oldest revision of a batch.
    - [parsed_timestamp] is the key the filter loop adds. *)

Inductive json_int :=
| Missing
| Null
| Int (z : Z).

Record Revision := mk_revision {
  revid : option Z;
  timestamp : option datetime;
  user : option string;
  comment : option string;
  size : option Z;
  sizediff : json_int;
  parsed_timestamp : option datetime
}.

(** [rev['parsed_timestamp'] = t]. *)
Definition set_parsed_timestamp (rev : Revision) (t : datetime) : Revision :=
  mk_revision (revid rev) (timestamp rev) (user rev) (comment rev)
              (size rev) (sizediff rev) (Some t).

(** [rev.get(key, default)]. *)
Definition get_or {A} (field : option A) (default : A) : A :=
  match field with
  | Some a => a
  | None => default
  end.

(** What [get_page_revisions] hands over: the page is missing (with the error
    text, if any) or it exists with its revisions, newest first. *)
Inductive revisions_result :=
| NoPage (error : option string)
| Page (revisions : list Revision).

(** ** Date-range filter

    The loop that opens both operations.  A bound is the argument string:
    absent or empty ([Unbounded]), rejected by [fromisoformat]
    ([Unparseable]), or an instant. *)

Inductive bound :=
| Unbounded
| Unparseable
| At (t : datetime).

(** The body of the [try]: the parsed instant when the revision is kept,
    [None] when it is skipped by [continue] or by the [except] clause. *)
Definition in_range (start_datetime end_datetime : bound) (rev : Revision)
  : option datetime :=
  match timestamp rev with
  | None => None
  | Some rev_time =>
      let after_start :=
        match start_datetime with
        | Unbounded => true
        | Unparseable => false
        | At start_time => negb (Datetime.ltb rev_time start_time)
        end in
      if after_start then
        match end_datetime with
        | Unbounded => Some rev_time
        | Unparseable => None
        | At end_time =>
            if Datetime.gtb rev_time end_time then None else Some rev_time
        end
      else None
  end.

(** The filter loop as state passing: the first component is the list
    [all_revisions] as the loop leaves it (the records are annotated in place),
    the second the list [filtered_revisions]. *)
Fixpoint filter_revisions (start_datetime end_datetime : bound)
  (all_revisions : list Revision) : list Revision * list Revision :=
  match all_revisions with
  | [] => ([], [])
  | rev :: rest =>
      let '(store, filtered) :=
        filter_revisions start_datetime end_datetime rest in
      match in_range start_datetime end_datetime rev with
      | Some rev_time =>
          let rev' := set_parsed_timestamp rev rev_time in
          (rev' :: store, rev' :: filtered)
      | None => (rev :: store, filtered)
      end
  end.

(** [l.sort(key=..., reverse=True)]: the stable sort into descending order,
    [geb a b] telling that the key of [a] is at least the key of [b]. *)
Section Sort.
Context {A : Type} (geb : A -> A -> bool).

Fixpoint insert_desc (x : A) (l : list A) : list A :=
  match l with
  | [] => [x]
  | y :: l' => if geb x y then x :: l else y :: insert_desc x l'
  end.

Fixpoint sort_desc (l : list A) : list A :=
  match l with
  | [] => []
  | x :: l' => insert_desc x (sort_desc l')
  end.
(** A list in descending order: each element is at least every later
    one. *)
Definition descending : list A -> Prop :=
  StronglySorted (fun a b => geb a b = true).
End Sort.

(** ** Activity analysis: time windows *)

Module Activity.

(** An entry of [grouped_activity]. *)
Record window := mk_window {
  edit_count : Z;
  editors : list string;
  revisions : list Revision
}.

(** The [defaultdict] factory. *)
Definition empty_window : window := mk_window 0 [] [].

(** [set.add]. *)
Fixpoint set_add (x : string) (s : list string) : list string :=
  match s with
  | [] => [x]
  | y :: s' => if String.eqb y x then s else y :: set_add x s'
  end.

Definition window_key (window_size : string) (timestamp : datetime) : string :=
  if String.eqb window_size "day" then strftime_Ymd timestamp
  else if String.eqb window_size "week" then
    let monday := sub_days timestamp (weekday timestamp) in
    (strftime_Ymd monday ++ "-week")%string
  else if String.eqb window_size "month" then strftime_Ym timestamp
  else strftime_Ymd timestamp.

(** The three updates of the loop body on the entry of one key. *)
Definition record_edit (rev : Revision) (w : window) : window :=
  mk_window (edit_count w + 1)
            (set_add (get_or (user rev) "Unknown"%string) (editors w))
            (revisions w ++ [rev]).

(** [grouped_activity[key]] updated by [f]; a key not yet present is
    created from the factory at the end of the dictionary. *)
Fixpoint update (key : string) (f : window -> window)
  (grouped : list (string * window)) : list (string * window) :=
  match grouped with
  | [] => [(key, f empty_window)]
  | (k, w) :: rest =>
      if String.eqb k key then (k, f w) :: rest
      else (k, w) :: update key f rest
  end.

Definition group_step (window_size : string)
  (grouped : list (string * window)) (rev : Revision)
  : Py.result (list (string * window)) :=
  match parsed_timestamp rev with
  | None => Py.Raise (Py.KeyError "parsed_timestamp")
  | Some timestamp =>
      Py.Ok (update (window_key window_size timestamp) (record_edit rev)
                    grouped)
  end.

Definition group_revisions (window_size : string)
  (filtered_revisions : list Revision)
  : Py.result (list (string * window)) :=
  Py.for_each (group_step window_size) filtered_revisions [].

(** *** Statistics and spikes *)

Local Open Scope R_scope.

Definition total (data : list Z) : Z := fold_right Z.add 0%Z data.

(** [statistics.mean]. *)
Definition mean (data : list Z) : R :=
  IZR (total data) / IZR (Py.len data).

Definition squared_deviations (m : R) (data : list Z) : R :=
  fold_right (fun x acc => (IZR x - m) * (IZR x - m) + acc) 0 data.

(** [statistics.stdev]: the sample standard deviation. *)
Definition stdev (data : list Z) : R :=
  sqrt (squared_deviations (mean data) data / (IZR (Py.len data) - 1)).

(** [statistics.stdev(data) if len(data) > 1 else 0]. *)
Definition guarded_stdev (data : list Z) : R :=
  if (1 <? Py.len data)%Z then stdev data else 0.

(** [(count - mean) / stdev if stdev > 0 else 0]. *)
Definition z_score (count : Z) (m sd : R) : R :=
  if Rlt_dec 0 sd then (IZR count - m) / sd else 0.

Definition Rgeb (a b : R) : bool := if Rle_dec b a then true else false.

(** [round(x, ndigits)] on the idealised floats of the detector. *)
Definition round_half_even (x : R) : Z :=
  let f := Int_part x in
  let r := x - IZR f in
  if Rlt_dec r (1 / 2) then f
  else if Rlt_dec (1 / 2) r then (f + 1)%Z
  else if Z.even f then f else (f + 1)%Z.

Definition round (x : R) (ndigits : nat) : R :=
  let p := IZR (Z.pow 10 (Z.of_nat ndigits)) in
  IZR (round_half_even (x * p)) / p.

Inductive level := high | moderate.

Record spike := mk_spike {
  spike_window : string;
  spike_edit_count : Z;
  editor_count : Z;
  edit_z_score : R;
  editor_z_score : R;
  significance : level;
  spike_editors : list string;
  sample_revisions : list Revision
}.

Record statistics := mk_statistics {
  stat_mean : R;
  stat_stdev : R;
  stat_min : Z;
  stat_max : Z
}.

Definition minimum (data : list Z) : Z :=
  match data with
  | [] => 0%Z
  | x :: rest => fold_left Z.min rest x
  end.

Definition maximum (data : list Z) : Z :=
  match data with
  | [] => 0%Z
  | x :: rest => fold_left Z.max rest x
  end.

Definition describe (data : list Z) (m sd : R) : statistics :=
  mk_statistics (round m 2) (round sd 2) (minimum data) (maximum data).

Definition editor_count_of (w : window) : Z := Py.len (editors w).

(** The test of the spike loop for one window. *)
Definition is_spike (z_threshold edit_mean edit_stdev editor_mean
  editor_stdev : R) (w : window) : bool :=
  let edit_z_score := z_score (edit_count w) edit_mean edit_stdev in
  let editor_z_score :=
    z_score (editor_count_of w) editor_mean editor_stdev in
  orb (Rgeb edit_z_score z_threshold) (Rgeb editor_z_score z_threshold).

Definition make_spike (edit_mean edit_stdev editor_mean editor_stdev : R)
  (entry : string * window) : spike :=
  let '(window_key, data) := entry in
  let edit_z_score := z_score (edit_count data) edit_mean edit_stdev in
  let editor_z_score :=
    z_score (editor_count_of data) editor_mean editor_stdev in
  mk_spike window_key (edit_count data) (editor_count_of data)
           (round edit_z_score 2) (round editor_z_score 2)
           (if Rgeb (Rmax edit_z_score editor_z_score) 3
            then high else moderate)
           (editors data)
           (firstn 5 (revisions data)).

(** The spike loop: the flagged windows in dictionary order. *)
Definition detect_spikes (z_threshold edit_mean edit_stdev editor_mean
  editor_stdev : R) (grouped_activity : list (string * window))
  : list spike :=
  map (make_spike edit_mean edit_stdev editor_mean editor_stdev)
      (List.filter
         (fun entry =>
            is_spike z_threshold edit_mean edit_stdev editor_mean
                     editor_stdev (snd entry))
         grouped_activity).

Definition spike_geb (a b : spike) : bool :=
  Rgeb (Rmax (edit_z_score a) (editor_z_score a))
       (Rmax (edit_z_score b) (editor_z_score b)).

(** The dictionaries the operation returns.  [AnalysisError] is the shape
    with [exists: False] and an [error] text; [AnalysisInsufficient] the
    shape with the text "Insufficient data for statistical analysis (need
    at least 3 time windows)". *)
Inductive analysis :=
| AnalysisError (error : string)
| AnalysisInsufficient (total_windows : Z)
| AnalysisReport (total_windows total_revisions_analyzed : Z)
                 (edit_statistics editor_statistics : statistics)
                 (spikes : list spike).

(** The part of the operation after the grouping loop. *)
Definition analyze_grouped (filtered_revisions : list Revision)
  (grouped_activity : list (string * window)) (z_threshold : R)
  : analysis :=
  let edit_counts := map (fun entry => edit_count (snd entry))
                         grouped_activity in
  let editor_counts := map (fun entry => editor_count_of (snd entry))
                           grouped_activity in
  if (Py.len edit_counts <? 3)%Z
  then AnalysisInsufficient (Py.len grouped_activity)
  else
    let edit_mean := mean edit_counts in
    let edit_stdev := guarded_stdev edit_counts in
    let editor_mean := mean editor_counts in
    let editor_stdev := guarded_stdev editor_counts in
    let spikes :=
      detect_spikes z_threshold edit_mean edit_stdev editor_mean
                    editor_stdev grouped_activity in
    AnalysisReport (Py.len grouped_activity) (Py.len filtered_revisions)
                   (describe edit_counts edit_mean edit_stdev)
                   (describe editor_counts editor_mean editor_stdev)
                   (sort_desc spike_geb spikes).

(** The operation: the returned dictionary, and the list of revision
    records as the call leaves it. *)
Definition analyze_edit_activity (source : revisions_result)
  (start_datetime end_datetime : bound) (window_size : string)
  (z_threshold : R) : analysis * list Revision :=
  match source with
  | NoPage error =>
      (AnalysisError (get_or error "Page does not exist"%string), [])
  | Page all_revisions =>
      let '(all_revisions', filtered_revisions) :=
        filter_revisions start_datetime end_datetime all_revisions in
      match group_revisions window_size filtered_revisions with
      | Py.Ok grouped_activity =>
          (analyze_grouped filtered_revisions grouped_activity z_threshold,
           all_revisions')
      | Py.Raise e => (AnalysisError (Py.str e), all_revisions')
      end
  end.

End Activity.

(** ** Significance scoring *)

Module Significance.

Local Open Scope Q_scope.

Definition Qltb (a b : Q) : bool := negb (Qle_bool b a).

(** The dictionary [user_edit_counts], in insertion order. *)
Fixpoint lookup (key : string) (d : list (string * Z)) : option Z :=
  match d with
  | [] => None
  | (k, v) :: d' => if String.eqb k key then Some v else lookup key d'
  end.

(** [d[key] = v]. *)
Fixpoint store (key : string) (v : Z) (d : list (string * Z))
  : list (string * Z) :=
  match d with
  | [] => [(key, v)]
  | (k, v') :: d' =>
      if String.eqb k key then (k, v) :: d' else (k, v') :: store key v d'
  end.

(** The loop that fills [user_edit_counts]: a missing or empty user is
    falsy and is not counted. *)
Definition count_user (counts : list (string * Z)) (rev : Revision)
  : list (string * Z) :=
  match user rev with
  | None => counts
  | Some u =>
      if String.eqb u EmptyString then counts
      else store u (get_or (lookup u counts) 0%Z + 1)%Z counts
  end.

Definition count_user_edits (filtered_revisions : list Revision)
  : list (string * Z) :=
  fold_left count_user filtered_revisions [].

(** *** [_calculate_revert_score] *)

(** The body of the scan for one candidate: the score returned from inside
    the loop, or [None] when the loop goes on. *)
Definition revert_candidate (revision next_rev : Revision) : option Q :=
  let rev_size := get_or (size revision) 0%Z in
  let next_size := get_or (size next_rev) 0%Z in
  match parsed_timestamp next_rev, parsed_timestamp revision with
  | Some next_time, Some rev_time =>
      let time_diff := Qabs (total_seconds_between next_time rev_time) in
      let size_diff := Z.abs (next_size - rev_size) in
      if andb (Qltb time_diff 3600) (size_diff <? 50)%Z
      then Some (Qmax 0 (1 - time_diff / 3600))
      else None
  | _, _ => None
  end.

Fixpoint revert_scan (revision : Revision) (all_revisions : list Revision)
  (indices : list Z) : Q :=
  match indices with
  | [] => 0
  | i :: rest =>
      if orb (i <? 0)%Z (Py.len all_revisions <=? i)%Z
      then revert_scan revision all_revisions rest
      else
        match Py.get all_revisions i with
        | None => revert_scan revision all_revisions rest
        | Some next_rev =>
            match revert_candidate revision next_rev with
            | Some revert_score => revert_score
            | None => revert_scan revision all_revisions rest
            end
        end
  end.

Definition _calculate_revert_score (revision : Revision)
  (all_revisions : list Revision) (index : Z) : Q :=
  revert_scan revision all_revisions (Py.range (index - 5) index).

(** *** [_calculate_edit_war_score] *)

Definition rapid_edit (rev_time : datetime) (rapid_edits : Z)
  (other_rev : Revision) : Z :=
  match parsed_timestamp other_rev with
  | None => rapid_edits
  | Some other_time =>
      let time_diff := Qabs (total_seconds_between other_time rev_time) in
      if Qle_bool time_diff 86400 then (rapid_edits + 1)%Z else rapid_edits
  end.

Definition _calculate_edit_war_score (revision : Revision)
  (all_revisions : list Revision) (index : Z) : Q :=
  match parsed_timestamp revision with
  | None => 0
  | Some rev_time =>
      let rapid_edits := fold_left (rapid_edit rev_time) all_revisions 0%Z in
      Qmin (inject_Z rapid_edits / 20) 1
  end.

(** *** [_calculate_significance_score] *)

(** [abs(revision.get('sizediff', 0))]: the default covers an absent key
    only; [abs(None)] raises. *)
Definition size_change_of (revision : Revision) : Py.result Z :=
  match sizediff revision with
  | Missing => Py.Ok 0%Z
  | Null => Py.Raise (Py.TypeError "bad operand type for abs(): 'NoneType'")
  | Int z => Py.Ok (Z.abs z)
  end.

Definition normalized_size_change (size_change article_size : Z) : Q :=
  Qmin (inject_Z size_change / Qmax (inject_Z article_size * (1 # 10)) 100) 1.

Definition user_edits_of (revision : Revision)
  (user_edit_counts : list (string * Z)) : Z :=
  get_or (lookup (get_or (user revision) EmptyString) user_edit_counts) 1%Z.

Definition experience_factor (revision : Revision)
  (user_edit_counts : list (string * Z)) : Q :=
  Qmin 1 (5 / inject_Z (Z.max (user_edits_of revision user_edit_counts) 1)).

Definition discussion_patterns : list string :=
  ["talk page"; "discuss"; "see talk"; "talk:"; "consensus";
   "dispute"; "controversial"; "revert"; "vandalism"; "rv"]%string.

Definition discussion_score (revision : Revision) : Q :=
  let comment := Py.lower (get_or (comment revision) EmptyString) in
  let matched :=
    List.filter (fun pattern => Py.contains pattern comment)
                discussion_patterns in
  Qmin (inject_Z (Py.len matched) * (2 # 10)) 1.

(** The sum before the final cap. *)
Definition weighted_sum (size_part revert_part experience_part
  discussion_part edit_war_part : Q) : Q :=
  0 + (30 # 100) * size_part + (25 # 100) * revert_part
    + (20 # 100) * experience_part + (15 # 100) * discussion_part
    + (10 # 100) * edit_war_part.

Definition _calculate_significance_score (revision : Revision)
  (all_revisions : list Revision) (index : Z) (article_size : Z)
  (user_edit_counts : list (string * Z)) : Py.result Q :=
  size_change <- size_change_of revision ;;
  let score :=
    weighted_sum
      (normalized_size_change size_change article_size)
      (_calculate_revert_score revision all_revisions index)
      (experience_factor revision user_edit_counts)
      (discussion_score revision)
      (_calculate_edit_war_score revision all_revisions index) in
  Py.Ok (Qmin score 1).

(** *** [_get_significance_factors] *)

Record factors := mk_factors {
  size_change_bytes : Z;
  normalized_size_impact : Q;
  user_experience_level : Z;
  has_discussion_keywords : bool;
  edit_comment : string;
  factor_timestamp : option datetime;
  factor_user : string
}.

Definition _get_significance_factors (revision : Revision)
  (all_revisions : list Revision) (index : Z) (article_size : Z)
  (user_edit_counts : list (string * Z)) : Py.result factors :=
  size_change <- size_change_of revision ;;
  let comment := get_or (comment revision) EmptyString in
  Py.Ok (mk_factors
           (match sizediff revision with Int z => z | _ => 0%Z end)
           (normalized_size_change size_change article_size)
           (user_edits_of revision user_edit_counts)
           (existsb (fun keyword => Py.contains keyword (Py.lower comment))
                    ["talk"; "discuss"; "revert"; "dispute"]%string)
           comment
           (timestamp revision)
           (get_or (user revision) EmptyString)).

(** *** [get_significant_revisions] *)

(** An entry of [scored_revisions]: a copy of the revision with the two
    keys the ranking adds. *)
Record scored := mk_scored {
  revision_of : Revision;
  significance_score : Q;
  significance_factors : factors
}.

(** The dictionaries the operation returns.  [RankingError] is the shape
    with [exists: False] and an [error] text, returned for a missing page
    and by the outermost [except]; [RankingInsufficient] is the shape with
    the text "Insufficient revision data for significance analysis". *)
Inductive ranking :=
| RankingError (error : string)
| RankingInsufficient
| RankingReport (total_revisions_analyzed : Z)
                (significant_revisions_found : Z)
                (min_significance_threshold : Q)
                (top_revisions : list scored).

Definition enumerate {A} (l : list A) : list (Z * A) :=
  combine (Py.range 0 (Py.len l)) l.

Definition score_step (filtered_revisions : list Revision)
  (current_size : Z) (user_edit_counts : list (string * Z))
  (min_significance : Q)
  (scored_revisions : list scored) (entry : Z * Revision)
  : Py.result (list scored) :=
  let '(i, rev) := entry in
  significance_score <-
    _calculate_significance_score rev filtered_revisions i current_size
                                  user_edit_counts ;;
  if Qle_bool min_significance significance_score then
    factors <- _get_significance_factors rev filtered_revisions i
                                         current_size user_edit_counts ;;
    Py.Ok (scored_revisions
             ++ [mk_scored rev (Py.round significance_score 3) factors])
  else Py.Ok scored_revisions.

Definition score_geb (a b : scored) : bool :=
  Qle_bool (significance_score b) (significance_score a).

(** The part of the operation after the filter loop. *)
Definition rank_filtered (filtered_revisions : list Revision)
  (limit : Z) (min_significance : Q) : Py.result ranking :=
  if (Py.len filtered_revisions <? 2)%Z then Py.Ok RankingInsufficient
  else
    let current_size :=
      match filtered_revisions with
      | first :: _ => get_or (size first) 1000%Z
      | [] => 1000%Z
      end in
    let user_edit_counts := count_user_edits filtered_revisions in
    scored_revisions <-
      Py.for_each (score_step filtered_revisions current_size
                              user_edit_counts min_significance)
                  (enumerate filtered_revisions) [] ;;
    let sorted := sort_desc score_geb scored_revisions in
    let top_revisions := Py.slice_to sorted limit in
    Py.Ok (RankingReport (Py.len filtered_revisions)
                         (Py.len scored_revisions)
                         min_significance top_revisions).

(** The operation: the returned dictionary, and the list of revision
    records as the call leaves it. *)
Definition get_significant_revisions (source : revisions_result)
  (start_datetime end_datetime : bound) (limit : Z) (min_significance : Q)
  : ranking * list Revision :=
  match source with
  | NoPage error => (RankingError (get_or error "Page does not exist"%string), [])
  | Page all_revisions =>
      let '(all_revisions', filtered_revisions) :=
        filter_revisions start_datetime end_datetime all_revisions in
      match rank_filtered filtered_revisions limit min_significance with
      | Py.Ok result => (result, all_revisions')
      | Py.Raise e => (RankingError (Py.str e), all_revisions')
      end
  end.

End Significance.

(** ** The revision source: [get_page_revisions]

    The part of [get_page_revisions] that follows the HTTP request: from the
    dictionary [data['query']['pages']] of the decoded response to the
    returned dictionary.  The request itself is not modelled. *)

Module Source.

(** An entry of [pages]: the keys the code reads. *)
Record page_data := mk_page_data {
  page_title : option string;
  page_pageid : option Z;
  page_revisions : option (list Revision)
}.

(** [rev['sizediff'] = d]. *)
Definition set_sizediff (rev : Revision) (d : json_int) : Revision :=
  mk_revision (revid rev) (timestamp rev) (user rev) (comment rev)
              (size rev) d (parsed_timestamp rev).

(** [rev['size']], which raises on an absent key. *)
Definition size_of (rev : Revision) : Py.result Z :=
  match size rev with
  | Some s => Py.Ok s
  | None => Py.Raise (Py.KeyError "size")
  end.

(** The loop that adds the size change to each revision: the difference to
    the next, older, revision of the batch, and [None] for the last one. *)
Fixpoint add_sizediff (revisions : list Revision)
  : Py.result (list Revision) :=
  match revisions with
  | [] => Py.Ok []
  | rev :: rest =>
      match rest with
      | [] => Py.Ok [set_sizediff rev Null]
      | next :: _ =>
          s <- size_of rev ;;
          s' <- size_of next ;;
          rest' <- add_sizediff rest ;;
          Py.Ok (set_sizediff rev (Int (s - s')) :: rest')
      end
  end.

(** The dictionaries the function returns: the shape with [exists: False]
    and an [error] text, and the shape with the revisions. *)
Inductive revisions_dict :=
| RevisionsError (title : string) (error : string)
| RevisionsFound (title : string) (pageid : option Z)
                 (revisions : list Revision).

Definition get_page_revisions (title : string)
  (pages : list (string * page_data)) : revisions_dict :=
  match pages with
  | [] => RevisionsError title "Page does not exist"
  | (page_id, page) :: _ =>
      if orb (String.eqb page_id EmptyString) (String.eqb page_id "-1")
      then RevisionsError title "Page does not exist"
      else
        match add_sizediff (get_or (page_revisions page) []) with
        | Py.Ok revisions =>
            RevisionsFound (get_or (page_title page) title)
                           (page_pageid page) revisions
        | Py.Raise e => RevisionsError title (Py.str e)
        end
  end.

(** What the two analyses read of the returned dictionary: the keys
    [exists], [error] and [revisions]. *)
Definition as_source (d : revisions_dict) : revisions_result :=
  match d with
  | RevisionsError _ error => NoPage (Some error)
  | RevisionsFound _ _ revisions => Page revisions
  end.

End Source.

(** ** Language and country codes

    The tables of [WikipediaClient] and the functions that read them.
    Strings are taken as ASCII text: [upper], [title] and [strip] act on the
    ASCII letters and the ASCII white space, as Python does on such text. *)

Module Locale.

Definition LANGUAGE_VARIANTS : list (string * string) :=
  [("zh-hans", "zh"); ("zh-hant", "zh"); ("zh-tw", "zh"); ("zh-hk", "zh");
   ("zh-mo", "zh"); ("zh-cn", "zh"); ("zh-sg", "zh"); ("zh-my", "zh");
   ("sr-latn", "sr"); ("sr-cyrl", "sr"); ("no", "nb"); ("ku-latn", "ku");
   ("ku-arab", "ku")]%string.

Definition COUNTRY_TO_LANGUAGE : list (string * string) :=
  [("US", "en"); ("USA", "en"); ("United States", "en"); ("UK", "en");
   ("GB", "en"); ("United Kingdom", "en"); ("CA", "en"); ("Canada", "en");
   ("AU", "en"); ("Australia", "en"); ("NZ", "en"); ("New Zealand", "en");
   ("IE", "en"); ("Ireland", "en"); ("ZA", "en"); ("South Africa", "en");
   ("CN", "zh-hans"); ("China", "zh-hans"); ("TW", "zh-tw");
   ("Taiwan", "zh-tw"); ("HK", "zh-hk"); ("Hong Kong", "zh-hk");
   ("MO", "zh-mo"); ("Macau", "zh-mo"); ("SG", "zh-sg");
   ("Singapore", "zh-sg"); ("MY", "zh-my"); ("Malaysia", "zh-my");
   ("DE", "de"); ("Germany", "de"); ("FR", "fr"); ("France", "fr");
   ("ES", "es"); ("Spain", "es"); ("IT", "it"); ("Italy", "it");
   ("PT", "pt"); ("Portugal", "pt"); ("NL", "nl"); ("Netherlands", "nl");
   ("PL", "pl"); ("Poland", "pl"); ("RU", "ru"); ("Russia", "ru");
   ("UA", "uk"); ("Ukraine", "uk"); ("TR", "tr"); ("Turkey", "tr");
   ("GR", "el"); ("Greece", "el"); ("SE", "sv"); ("Sweden", "sv");
   ("NO", "no"); ("Norway", "no"); ("DK", "da"); ("Denmark", "da");
   ("FI", "fi"); ("Finland", "fi"); ("IS", "is"); ("Iceland", "is");
   ("CZ", "cs"); ("Czech Republic", "cs"); ("SK", "sk"); ("Slovakia", "sk");
   ("HU", "hu"); ("Hungary", "hu"); ("RO", "ro"); ("Romania", "ro");
   ("BG", "bg"); ("Bulgaria", "bg"); ("HR", "hr"); ("Croatia", "hr");
   ("SI", "sl"); ("Slovenia", "sl"); ("RS", "sr"); ("Serbia", "sr");
   ("BA", "bs"); ("Bosnia and Herzegovina", "bs"); ("MK", "mk");
   ("Macedonia", "mk"); ("AL", "sq"); ("Albania", "sq"); ("MT", "mt");
   ("Malta", "mt"); ("JP", "ja"); ("Japan", "ja"); ("KR", "ko");
   ("South Korea", "ko"); ("IN", "hi"); ("India", "hi"); ("TH", "th");
   ("Thailand", "th"); ("VN", "vi"); ("Vietnam", "vi"); ("ID", "id");
   ("Indonesia", "id"); ("PH", "tl"); ("Philippines", "tl"); ("BD", "bn");
   ("Bangladesh", "bn"); ("PK", "ur"); ("Pakistan", "ur"); ("LK", "si");
   ("Sri Lanka", "si"); ("MM", "my"); ("Myanmar", "my"); ("KH", "km");
   ("Cambodia", "km"); ("LA", "lo"); ("Laos", "lo"); ("MN", "mn");
   ("Mongolia", "mn"); ("KZ", "kk"); ("Kazakhstan", "kk"); ("UZ", "uz");
   ("Uzbekistan", "uz"); ("AF", "fa"); ("Afghanistan", "fa"); ("IR", "fa");
   ("Iran", "fa"); ("SA", "ar"); ("Saudi Arabia", "ar"); ("AE", "ar");
   ("UAE", "ar"); ("EG", "ar"); ("Egypt", "ar"); ("IQ", "ar");
   ("Iraq", "ar"); ("SY", "ar"); ("Syria", "ar"); ("JO", "ar");
   ("Jordan", "ar"); ("LB", "ar"); ("Lebanon", "ar"); ("IL", "he");
   ("Israel", "he"); ("MA", "ar"); ("Morocco", "ar"); ("DZ", "ar");
   ("Algeria", "ar"); ("TN", "ar"); ("Tunisia", "ar"); ("LY", "ar");
   ("Libya", "ar"); ("SD", "ar"); ("Sudan", "ar"); ("ET", "am");
   ("Ethiopia", "am"); ("KE", "sw"); ("Kenya", "sw"); ("TZ", "sw");
   ("Tanzania", "sw"); ("NG", "ha"); ("Nigeria", "ha"); ("GH", "en");
   ("Ghana", "en"); ("MX", "es"); ("Mexico", "es"); ("AR", "es");
   ("Argentina", "es"); ("CO", "es"); ("Colombia", "es"); ("VE", "es");
   ("Venezuela", "es"); ("PE", "es"); ("Peru", "es"); ("CL", "es");
   ("Chile", "es"); ("EC", "es"); ("Ecuador", "es"); ("BO", "es");
   ("Bolivia", "es"); ("PY", "es"); ("Paraguay", "es"); ("UY", "es");
   ("Uruguay", "es"); ("CR", "es"); ("Costa Rica", "es"); ("PA", "es");
   ("Panama", "es"); ("GT", "es"); ("Guatemala", "es"); ("HN", "es");
   ("Honduras", "es"); ("SV", "es"); ("El Salvador", "es"); ("NI", "es");
   ("Nicaragua", "es"); ("CU", "es"); ("Cuba", "es"); ("DO", "es");
   ("Dominican Republic", "es"); ("BR", "pt"); ("Brazil", "pt");
   ("BY", "be"); ("Belarus", "be"); ("EE", "et"); ("Estonia", "et");
   ("LV", "lv"); ("Latvia", "lv"); ("LT", "lt"); ("Lithuania", "lt");
   ("GE", "ka"); ("Georgia", "ka"); ("AM", "hy"); ("Armenia", "hy");
   ("AZ", "az"); ("Azerbaijan", "az")]%string.

(** [d.get(key)] and [key in d]. *)
Fixpoint dict_get (key : string) (d : list (string * string))
  : option string :=
  match d with
  | [] => None
  | (k, v) :: d' => if String.eqb k key then Some v else dict_get key d'
  end.

Definition is_lower (c : ascii) : bool :=
  let n := nat_of_ascii c in andb (Nat.leb 97 n) (Nat.leb n 122).

Definition is_upper (c : ascii) : bool :=
  let n := nat_of_ascii c in andb (Nat.leb 65 n) (Nat.leb n 90).

Definition upper_ascii (c : ascii) : ascii :=
  if is_lower c then ascii_of_nat (nat_of_ascii c - 32) else c.

(** [s.upper()]. *)
Fixpoint upper (s : string) : string :=
  match s with
  | EmptyString => EmptyString
  | String c s' => String (upper_ascii c) (upper s')
  end.

(** [s.title()]: a letter that follows a letter is put in lower case, any
    other letter in upper case. *)
Fixpoint title_from (previous_is_cased : bool) (s : string) : string :=
  match s with
  | EmptyString => EmptyString
  | String c s' =>
      if orb (is_lower c) (is_upper c) then
        String (if previous_is_cased then Py.lower_ascii c else upper_ascii c)
               (title_from true s')
      else String c (title_from false s')
  end.

Definition title (s : string) : string := title_from false s.

(** The ASCII characters [str.strip] removes. *)
Definition is_space (c : ascii) : bool :=
  let n := nat_of_ascii c in
  orb (andb (Nat.leb 9 n) (Nat.leb n 13))
      (orb (andb (Nat.leb 28 n) (Nat.leb n 31)) (Nat.eqb n 32)).

Fixpoint lstrip (s : string) : string :=
  match s with
  | EmptyString => EmptyString
  | String c s' => if is_space c then lstrip s' else s
  end.

Fixpoint rstrip (s : string) : string :=
  match s with
  | EmptyString => EmptyString
  | String c s' =>
      match rstrip s' with
      | EmptyString => if is_space c then EmptyString else String c EmptyString
      | rest => String c rest
      end
  end.

(** [s.strip()]. *)
Definition strip (s : string) : string := rstrip (lstrip s).

(** The outcome of [_resolve_country_to_language]: the language code, or the
    message of the [ValueError] it raises. *)
Inductive resolution :=
| Resolved (language : string)
| ValueError (message : string).

(** The country codes named in the error message. *)
Definition country_codes : list string :=
  firstn 10 (List.filter (fun c => Nat.leb (String.length c) 3)
                         (map fst COUNTRY_TO_LANGUAGE)).

Definition _resolve_country_to_language (country : string) : resolution :=
  let country_upper := strip (upper country) in
  let country_title := strip (title country) in
  match dict_get country_upper COUNTRY_TO_LANGUAGE with
  | Some language => Resolved language
  | None =>
      match dict_get country_title COUNTRY_TO_LANGUAGE with
      | Some language => Resolved language
      | None =>
          match dict_get country COUNTRY_TO_LANGUAGE with
          | Some language => Resolved language
          | None =>
              ValueError
                ("Unsupported country/locale: '" ++ country ++ "'. "
                 ++ "Supported country codes include: "
                 ++ String.concat ", " country_codes ++ ". "
                 ++ "Use --language parameter for direct language codes "
                 ++ "instead.")
          end
      end
  end.

Definition _parse_language_variant (language : string)
  : string * option string :=
  match dict_get language LANGUAGE_VARIANTS with
  | Some base_language => (base_language, Some language)
  | None => (language, None)
  end.

(** The attributes [__init__] sets from its arguments. *)
Record client := mk_client {
  original_input : string;
  input_type : string;
  resolved_language : string;
  base_language : string;
  language_variant : option string;
  api_url : string
}.

(** [WikipediaClient(language, country)]: the client, or the message of the
    [ValueError] raised for an unsupported country.  An absent or empty
    [country] is falsy. *)
Definition init (language : string) (country : option string)
  : client + string :=
  let build (original kind resolved : string) :=
    let '(base, variant) := _parse_language_variant resolved in
    mk_client original kind resolved base variant
              ("https://" ++ base ++ ".wikipedia.org/w/api.php")%string in
  match country with
  | Some c =>
      if String.eqb c EmptyString
      then inl (build language "language"%string language)
      else match _resolve_country_to_language c with
           | Resolved resolved => inl (build c "country"%string resolved)
           | ValueError message => inr message
           end
  | None => inl (build language "language"%string language)
  end.

End Locale.

(** ** Article text

    The functions of [WikipediaClient] that work on a page object of the
    [wikipediaapi] library, from the page object on: the call that fetches
    the page and the [except] clauses around it are not modelled.  Strings
    are taken as ASCII text. *)

Module Text.

(** A section of a page: its title, its text and its subsections. *)
#[local] Set Warnings "-register-all".

Inductive wiki_section :=
| WikiSection (title text : string) (sections : list wiki_section).

(** The attributes of a page object the code reads. *)
Record wiki_page := mk_wiki_page {
  page_exists : bool;
  page_summary : string;
  page_text : string;
  page_fullurl : string;
  page_sections : list wiki_section;
  page_categories : list string;
  page_links : list string
}.

(** *** Strings *)

Definition len (s : string) : Z := Z.of_nat (String.length s).

(** An index of a slice, brought into [0 .. n]. *)
Definition clamp (n i : Z) : Z :=
  if i <? 0 then Z.max (i + n) 0 else Z.min i n.

(** [s[lo:hi]], an absent bound being [None]. *)
Definition slice (s : string) (lo hi : option Z) : string :=
  let n := len s in
  let lo' := match lo with Some i => clamp n i | None => 0 end in
  let hi' := match hi with Some i => clamp n i | None => n end in
  String.substring (Z.to_nat lo') (Z.to_nat (hi' - lo')) s.

(** [s.find(sub)], [None] standing for -1. *)
Fixpoint find (sub s : string) : option Z :=
  if String.prefix sub s then Some 0
  else match s with
       | EmptyString => None
       | String _ s' => option_map Z.succ (find sub s')
       end.

(** [s.split(sep)] for a separator of one character. *)
Fixpoint split (sep : ascii) (s : string) : list string :=
  match s with
  | EmptyString => [EmptyString]
  | String c s' =>
      if Ascii.eqb c sep then EmptyString :: split sep s'
      else match split sep s' with
           | piece :: pieces => String c piece :: pieces
           | [] => [String c EmptyString]
           end
  end.

(** A string is truthy when it is not empty. *)
Definition truthy (s : string) : bool := negb (String.eqb s EmptyString).

(** *** [_extract_sections] *)

Inductive section_data :=
| SectionData (title : string) (level : Z) (text : string)
              (sections : list section_data).

Fixpoint extract_section (level : Z) (section : wiki_section)
  : section_data :=
  match section with
  | WikiSection title text sections =>
      SectionData title level text
                  (map (extract_section (level + 1)) sections)
  end.

Definition _extract_sections (sections : list wiki_section) (level : Z)
  : list section_data :=
  map (extract_section level) sections.

(** [get_sections]. *)
Definition get_sections (page : wiki_page) : list section_data :=
  if page_exists page then _extract_sections (page_sections page) 0 else [].

(** *** [extract_facts] *)

(** The first value a loop returns: [None] when it runs to its end. *)
Fixpoint first_return {A} (outcomes : list (option A)) : option A :=
  match outcomes with
  | [] => None
  | Some a :: _ => Some a
  | None :: rest => first_return rest
  end.

(** The body of the loop of [find_section_text_recursive] for one section:
    the value returned from inside the loop, or [None] when the loop goes
    on.  A text found in a subsection is returned only when it is truthy. *)
Fixpoint find_section_text_in (target_title : string) (sec : wiki_section)
  : option string :=
  match sec with
  | WikiSection title text sections =>
      if String.eqb (Py.lower title) (Py.lower target_title) then Some text
      else
        match first_return
                (map (find_section_text_in target_title) sections) with
        | Some found => if truthy found then Some found else None
        | None => None
        end
  end.

Definition find_section_text_recursive (sections_list : list wiki_section)
  (target_title : string) : option string :=
  first_return (map (find_section_text_in target_title) sections_list).

Definition extract_facts (title : string)
  (topic_within_article : option string) (count : Z) (page : wiki_page)
  : list string :=
  if negb (page_exists page)
  then [("No Wikipedia article found for '" ++ title ++ "'.")%string]
  else
    let text_to_process :=
      match topic_within_article with
      | Some topic =>
          if truthy topic then
            match find_section_text_recursive (page_sections page) topic with
            | Some section_text =>
                if truthy section_text then section_text
                else page_summary page
            | None => page_summary page
            end
          else page_summary page
      | None => page_summary page
      end in
    if negb (truthy text_to_process)
    then ["No content found to extract facts from."%string]
    else
      let sentences :=
        List.filter truthy (map Locale.strip (split "." text_to_process)) in
      let facts :=
        map (fun sentence => (sentence ++ ".")%string)
            (List.filter truthy (Py.slice_to sentences count)) in
      match facts with
      | [] => ["Could not extract facts from the provided text."%string]
      | _ => facts
      end.

(** *** [summarize_for_query] *)

Definition with_ellipsis (cut : bool) (s : string) : string :=
  if cut then (s ++ "...")%string else s.

Definition summarize_for_query (title query : string) (max_length : Z)
  (page : wiki_page) : string :=
  if negb (page_exists page)
  then ("No Wikipedia article found for '" ++ title ++ "'.")%string
  else
    let text_content := page_text page in
    let query_lower := Py.lower query in
    let text_lower := Py.lower text_content in
    match find query_lower text_lower with
    | None =>
        let summary_part := slice (page_summary page) None (Some max_length) in
        let summary_part :=
          if truthy summary_part then summary_part
          else slice text_content None (Some max_length) in
        with_ellipsis (max_length <=? len summary_part) summary_part
    | Some start_index =>
        let context_start := Z.max 0 (start_index - max_length / 2) in
        let context_end :=
          Z.min (len text_content)
                (start_index + len query + max_length / 2) in
        let snippet :=
          slice text_content (Some context_start) (Some context_end) in
        let snippet :=
          if max_length <? len snippet
          then slice snippet None (Some max_length) else snippet in
        with_ellipsis (orb (max_length <=? len snippet)
                           (context_end <? len text_content))
                      snippet
    end.

(** *** [get_related_topics] *)

Inductive related_topic :=
| RelatedLink (title summary url : string)
| RelatedCategory (title : string).

(** [s.replace(old, new)] for an [old] that is not empty. *)
Fixpoint drop (n : nat) (s : string) : string :=
  match n, s with
  | S n', String _ s' => drop n' s'
  | _, _ => s
  end.

Fixpoint replace_from (fuel : nat) (old new s : string) : string :=
  match fuel with
  | O => s
  | S fuel' =>
      if String.prefix old s
      then (new
            ++ replace_from fuel' old new (drop (String.length old) s))%string
      else match s with
           | EmptyString => EmptyString
           | String c s' => String c (replace_from fuel' old new s')
           end
  end.

Definition replace (old new s : string) : string :=
  replace_from (S (String.length s)) old new s.

Section Related.
(** [self.wiki.page]: the page object of a title. *)
Variable wiki : string -> wiki_page.

Definition link_entry (link : string) (link_page : wiki_page)
  : related_topic :=
  RelatedLink link
    (if 200 <? len (page_summary link_page)
     then (slice (page_summary link_page) None (Some 200) ++ "...")%string
     else page_summary link_page)
    (page_fullurl link_page).

(** The loop over the links, with its [break]. *)
Fixpoint add_links (limit : Z) (links : list string)
  (related : list related_topic) : list related_topic :=
  match links with
  | [] => related
  | link :: rest =>
      let link_page := wiki link in
      let related :=
        if page_exists link_page
        then related ++ [link_entry link link_page] else related in
      if limit <=? Py.len related then related
      else add_links limit rest related
  end.

Definition get_related_topics (limit : Z) (page : wiki_page)
  : list related_topic :=
  if negb (page_exists page) then []
  else
    let links := page_links page in
    let categories := page_categories page in
    let related := add_links limit (Py.slice_to links limit) [] in
    let remaining := limit - Py.len related in
    if 0 <? remaining then
      related
      ++ map (fun category =>
                RelatedCategory (replace "Category:" EmptyString category))
             (Py.slice_to categories remaining)
    else related.
End Related.

End Text.

(** * Vocabulary of the properties *)

(** A revision that went through the filter loop carries its parsed
    instant. *)
Definition has_parsed (rev : Revision) : Prop :=
  exists t, parsed_timestamp rev = Some t.

Section WindowVocabulary.
Import Activity.
Variable window_size : string.

(** The label of the window a revision falls into. *)
Definition label_of (rev : Revision) : option string :=
  option_map (window_key window_size) (parsed_timestamp rev).

(** The revision falls into the window labelled [key]. *)
Definition in_window (key : string) (rev : Revision) : bool :=
  match label_of rev with
  | Some k => String.eqb k key
  | None => false
  end.

(** The author name the aggregator files a revision under. *)
Definition author_of (rev : Revision) : string :=
  get_or (user rev) "Unknown"%string.

(** The set built by adding the names of a list one after the other. *)
Definition distinct (names : list string) : list string :=
  fold_left (fun s x => set_add x s) names [].

(** The revisions of all windows, window after window. *)
Definition members (grouped : list (string * window)) : list Revision :=
  List.concat (map (fun entry => revisions (snd entry)) grouped).

(** What an entry of the dictionary holds once [processed] has been
    grouped. *)
Record window_ok (processed : list Revision) (key : string) (w : window)
  : Prop := {
  ok_revisions : revisions w = List.filter (in_window key) processed;
  ok_count : edit_count w = Py.len (revisions w);
  ok_editors : editors w = distinct (map author_of (revisions w));
  ok_inhabited : revisions w <> []
}.

(** What the dictionary holds once [processed] has been grouped. *)
Record grouped_ok (processed : list Revision)
  (grouped : list (string * window)) : Prop := {
  ok_keys : NoDup (map fst grouped);
  ok_windows : forall key w, In (key, w) grouped -> window_ok processed key w;
  ok_covered : forall rev key,
      In rev processed -> label_of rev = Some key -> In key (map fst grouped);
  ok_members : Permutation (members grouped) processed
}.

End WindowVocabulary.

(** The last character of a label. *)
Fixpoint last_char (s : string) : option ascii :=
  match s with
  | EmptyString => None
  | String c EmptyString => Some c
  | String _ s' => last_char s'
  end.

(** A record as the filter loop leaves it. *)
Definition annotated (start_datetime end_datetime : bound) (rev : Revision)
  : Revision :=
  match in_range start_datetime end_datetime rev with
  | Some rev_time => set_parsed_timestamp rev rev_time
  | None => rev
  end.

(** Agreement on the keys supplied by the revision source. *)
Definition same_source_fields (a b : Revision) : Prop :=
  revid a = revid b /\ timestamp a = timestamp b /\ user a = user b
  /\ comment a = comment b /\ size a = size b /\ sizediff a = sizediff b.

Section RevertVocabulary.
Import Significance.
Local Open Scope Q_scope.

(** The candidates of the scan in scan order: the revisions at the indices
    [index-5 .. index-1] that exist, as the slice
    [all_revisions[max(0, index-5) : index]]. *)
Definition candidates (all_revisions : list Revision) (index : Z)
  : list Revision :=
  let lo := Z.max 0 (index - 5) in
  firstn (Z.to_nat (index - lo)) (skipn (Z.to_nat lo) all_revisions).

(** Seconds between two revisions. *)
Definition time_gap (revision next_rev : Revision) : option Q :=
  match parsed_timestamp next_rev, parsed_timestamp revision with
  | Some next_time, Some rev_time =>
      Some (Qabs (total_seconds_between next_time rev_time))
  | _, _ => None
  end.

(** Bytes between the sizes of two revisions. *)
Definition size_gap (revision next_rev : Revision) : Z :=
  Z.abs (get_or (size next_rev) 0%Z - get_or (size revision) 0%Z).

(** The test of the code: both comparisons strict. *)
Definition qualifies (revision next_rev : Revision) : bool :=
  match time_gap revision next_rev with
  | Some gap => andb (Qltb gap 3600) (size_gap revision next_rev <? 50)%Z
  | None => false
  end.

(** The test in the words of the specification: both comparisons large. *)
Definition qualifies_as_specified (revision next_rev : Revision) : bool :=
  match time_gap revision next_rev with
  | Some gap =>
      andb (Qle_bool gap 3600) (size_gap revision next_rev <=? 50)%Z
  | None => false
  end.

(** [max(0, 1.0 - time_diff / 3600)] for a candidate. *)
Definition proximity (revision next_rev : Revision) : Q :=
  match time_gap revision next_rev with
  | Some gap => Qmax 0 (1 - gap / 3600)
  | None => 0
  end.

(** The score of the first candidate that passes [test]. *)
Definition first_match_score (test : Revision -> Revision -> bool)
  (revision : Revision) (all_revisions : list Revision) (index : Z) : Q :=
  match List.find (test revision) (candidates all_revisions index) with
  | Some next_rev => proximity revision next_rev
  | None => 0
  end.

(** The revisions the scan looks at, for a list of indices. *)
Definition pick (all_revisions : list Revision) (i : Z) : list Revision :=
  if orb (i <? 0)%Z (Py.len all_revisions <=? i)%Z then []
  else match Py.get all_revisions i with
       | Some next_rev => [next_rev]
       | None => []
       end.

End RevertVocabulary.

(** A revision stamped within 86400 seconds of [rev_time], before or
    after. *)
Definition within_24h (rev_time : datetime) (other_rev : Revision) : bool :=
  match parsed_timestamp other_rev with
  | Some other_time =>
      (Z.abs (to_micros other_time - to_micros rev_time)
       <=? 86400 * 1000000)%Z
  | None => false
  end.

Section RankingVocabulary.
Import Significance.
Local Open Scope Q_scope.

Variable filtered_revisions : list Revision.
Variable current_size : Z.
Variable user_edit_counts : list (string * Z).
Variable min_significance : Q.

(** The revision at a position passes the threshold. *)
Definition passing (entry : Z * Revision) : bool :=
  match _calculate_significance_score (snd entry) filtered_revisions
          (fst entry) current_size user_edit_counts with
  | Py.Ok score => Qle_bool min_significance score
  | Py.Raise _ => false
  end.

(** [sc] is the entry the ranking makes for the revision at a position:
    a copy of the revision with its score, which is at least the
    threshold, rounded to 3 decimals, and its factor breakdown. *)
Definition scores (entry : Z * Revision) (sc : scored) : Prop :=
  revision_of sc = snd entry
  /\ exists score,
      _calculate_significance_score (snd entry) filtered_revisions
        (fst entry) current_size user_edit_counts = Py.Ok score
      /\ min_significance <= score
      /\ significance_score sc = Py.round score 3
      /\ _get_significance_factors (snd entry) filtered_revisions
           (fst entry) current_size user_edit_counts
         = Py.Ok (significance_factors sc).

End RankingVocabulary.

(** The entries that tie with the reported score [k]. *)
Definition ties (k : Q) (sc : Significance.scored) : bool :=
  Qeq_bool (Significance.significance_score sc) k.

(** A list of entries in descending order of reported score. *)
Definition by_reported_score : list Significance.scored -> Prop :=
  StronglySorted
    (fun a b => (Significance.significance_score b
                 <= Significance.significance_score a)%Q).

(** The reported scores of a ranking, with the revision identifiers. *)
Definition reported (r : Significance.ranking) : list (option Z * Q) :=
  match r with
  | Significance.RankingReport _ _ _ top_revisions =>
      map (fun sc => (revid (Significance.revision_of sc),
                      Significance.significance_score sc)) top_revisions
  | _ => []
  end.

Section SpikeVocabulary.
Import Activity.
Local Open Scope R_scope.

Definition edit_counts_of (grouped : list (string * window)) : list Z :=
  map (fun entry => edit_count (snd entry)) grouped.

Definition editor_counts_of (grouped : list (string * window)) : list Z :=
  map (fun entry => editor_count_of (snd entry)) grouped.

(** The z-scores of a window within a dictionary of windows. *)
Definition edit_z (grouped : list (string * window)) (w : window) : R :=
  z_score (edit_count w) (mean (edit_counts_of grouped))
          (guarded_stdev (edit_counts_of grouped)).

Definition editor_z (grouped : list (string * window)) (w : window) : R :=
  z_score (editor_count_of w) (mean (editor_counts_of grouped))
          (guarded_stdev (editor_counts_of grouped)).

(** The spike list of the report for a dictionary of windows. *)
Definition spikes_of (z_threshold : R) (grouped : list (string * window))
  : list spike :=
  sort_desc spike_geb
    (detect_spikes z_threshold
       (mean (edit_counts_of grouped))
       (guarded_stdev (edit_counts_of grouped))
       (mean (editor_counts_of grouped))
       (guarded_stdev (editor_counts_of grouped)) grouped).

End SpikeVocabulary.

(** ** Revisions used in the examples *)

Definition authorless (d h : Z) : Revision :=
  mk_revision None (Some (mk_datetime 2024 1 d h 0 0 0)) None None
              (Some 1000) (Int 5) None.

Definition fresh_revision : Revision :=
  mk_revision (Some 123) (Some (mk_datetime 2024 1 1 10 0 0 0))
              (Some "User1"%string) None (Some 1000) (Int 50) None.

Definition sized (h m s sz : Z) : Revision :=
  let t := mk_datetime 2024 1 1 h m s 0 in
  mk_revision None (Some t) (Some "User1"%string) None (Some sz) (Int 0)
              (Some t).

Definition plain (d h : Z) : Revision :=
  mk_revision None (Some (mk_datetime 2024 1 d h 0 0 0))
              (Some "User1"%string) None (Some 1000) (Int 5) None.

(** A batch as [get_page_revisions] builds it: the size delta of the oldest
    revision is [None]. *)
Definition batch_newer : Revision :=
  mk_revision (Some 124) (Some (mk_datetime 2024 1 2 10 0 0 0))
              (Some "WikiUser1"%string) (Some "Updated references"%string)
              (Some 25000) (Int 50) None.

Definition batch_oldest : Revision :=
  mk_revision (Some 123) (Some (mk_datetime 2024 1 1 10 0 0 0))
              (Some "WikiUser2"%string) (Some "Created page"%string)
              (Some 24950) Null None.

(** The revisions of the ranking test of the repository. *)
Definition commented (rid h : Z) (name text : string) (sz delta : Z)
  : Revision :=
  mk_revision (Some rid) (Some (mk_datetime 2024 1 3 h 0 0 0)) (Some name)
              (Some text) (Some sz) (Int delta) None.

Definition ranking_test : list Revision :=
  [commented 123456789 15 "NewUser1"
             "Major update - see talk page for discussion" 5000 2000;
   commented 123456788 14 "ExperiencedUser" "Updated references" 3000 500;
   commented 123456787 13 "RevertUser" "Reverted vandalism" 2500 (-1000);
   commented 123456786 12 "RegularUser" "Fixed typo" 3500 50]%string.

Definition ranked (rid : Z) (h : Z) (name : string) (sz : Z) (delta : json_int)
  : Revision :=
  mk_revision (Some rid) (Some (mk_datetime 2024 1 1 h 0 0 0)) (Some name)
              None (Some sz) delta None.

(** Three days with 3, 2 and 1 edits by as many editors, newest first. *)
Definition by_user (d h : Z) (name : string) : Revision :=
  mk_revision None (Some (mk_datetime 2024 1 d h 0 0 0)) (Some name) None
              (Some 1000) (Int 5) None.

Definition three_days : list Revision :=
  [by_user 3 12 "C"; by_user 3 11 "B"; by_user 3 10 "A";
   by_user 2 11 "B"; by_user 2 10 "A";
   by_user 1 10 "A"]%string.

Definition three_days_grouped : list (string * Activity.window) :=
  Eval vm_compute in
    match Activity.group_revisions
            "day" (snd (filter_revisions Unbounded Unbounded three_days)) with
    | Py.Ok grouped => grouped
    | Py.Raise _ => []
    end.

(** ** Vocabulary of the further properties *)

(** The instant lies within a bound, the bound included. *)
Definition after_start (start_datetime : bound) (t : datetime) : Prop :=
  match start_datetime with
  | Unbounded => True
  | Unparseable => False
  | At start_time => to_micros start_time <= to_micros t
  end.


(** The filter keeps the revision. *)
Definition kept (start_datetime end_datetime : bound) (rev : Revision)
  : bool :=
  match in_range start_datetime end_datetime rev with
  | Some _ => true
  | None => false
  end.

(** Agreement on every key but [sizediff]. *)
Definition same_but_sizediff (a b : Revision) : Prop :=
  revid a = revid b /\ timestamp a = timestamp b /\ user a = user b
  /\ comment a = comment b /\ size a = size b
  /\ parsed_timestamp a = parsed_timestamp b.

(** The size changes of a batch that are numbers, added up. *)
Fixpoint total_sizediff (revisions : list Revision) : Z :=
  match revisions with
  | [] => 0
  | rev :: rest =>
      match sizediff rev with
      | Int d => d + total_sizediff rest
      | _ => total_sizediff rest
      end
  end.

Definition raw (rid sz : Z) (h : Z) : Revision :=
  mk_revision (Some rid) (Some (mk_datetime 2024 1 1 h 0 0 0))
              (Some "WikiUser"%string) None (Some sz) Missing None.

Definition sizeless (rid h : Z) : Revision :=
  mk_revision (Some rid) (Some (mk_datetime 2024 1 1 h 0 0 0))
              (Some "WikiUser"%string) None None Missing None.

Definition quiet_days : list Revision :=
  [by_user 3 10 "A"; by_user 2 10 "A"; by_user 1 10 "A"]%string.

Definition quiet_days_grouped : list (string * Activity.window) :=
  Eval vm_compute in
    match Activity.group_revisions
            "day" (snd (filter_revisions Unbounded Unbounded quiet_days)) with
    | Py.Ok grouped => grouped
    | Py.Raise _ => []
    end.

(** The entry of the spike list made for a window. *)
Definition spike_of_window (grouped : list (string * Activity.window))
  (key : string) (w : Activity.window) (sp : Activity.spike) : Prop :=
  Activity.spike_window sp = key
  /\ Activity.spike_edit_count sp = Activity.edit_count w
  /\ Activity.editor_count sp = Activity.editor_count_of w
  /\ Activity.spike_editors sp = Activity.editors w
  /\ Activity.sample_revisions sp = firstn 5 (Activity.revisions w)
  /\ Activity.edit_z_score sp = Activity.round (edit_z grouped w) 2
  /\ Activity.editor_z_score sp = Activity.round (editor_z grouped w) 2
  /\ (Activity.significance sp = Activity.high
      <-> (3 <= Rmax (edit_z grouped w) (editor_z grouped w))%R).

(** The revisions of a list made by the author [u]. *)
Definition made_by (u : string) (rev : Revision) : bool :=
  match user rev with
  | Some v => String.eqb v u
  | None => false
  end.

Definition edits_by (u : string) (revisions : list Revision) : Z :=
  Py.len (List.filter (made_by u) revisions).

(** The calendar fields of a [datetime] object are in these ranges. *)
Definition calendar_date (t : datetime) : Prop :=
  1 <= year t <= 9999 /\ 1 <= month t <= 12 /\ 1 <= day t <= 31.

(** The first two look-ups of the resolution find the language of a key. *)
Definition found_by_case (entry : string * string) : bool :=
  let '(k, v) := entry in
  match Locale.dict_get (Locale.strip (Locale.upper k))
                        Locale.COUNTRY_TO_LANGUAGE with
  | Some language => String.eqb language v
  | None =>
      match Locale.dict_get (Locale.strip (Locale.title k))
                            Locale.COUNTRY_TO_LANGUAGE with
      | Some language => String.eqb language v
      | None => false
      end
  end.

Definition found_as_written (entry : string * string) : bool :=
  let '(k, v) := entry in
  match Locale._resolve_country_to_language k with
  | Locale.Resolved language => String.eqb language v
  | Locale.ValueError _ => false
  end.

(** *** Article text *)

(** The section tree behind a list of section entries, their levels left
    out. *)
Fixpoint forget (d : Text.section_data) : Text.wiki_section :=
  match d with
  | Text.SectionData title _ text sections =>
      Text.WikiSection title text (map forget sections)
  end.

(** The entries of a tree carry their depth, counted from [level]. *)
Fixpoint levelled (level : Z) (d : Text.section_data) : bool :=
  match d with
  | Text.SectionData _ l _ sections =>
      andb (l =? level) (forallb (levelled (level + 1)) sections)
  end.

Fixpoint has_char (c : ascii) (s : string) : bool :=
  match s with
  | EmptyString => false
  | String d s' => orb (Ascii.eqb d c) (has_char c s')
  end.

(** A sentence as [extract_facts] cuts it: not empty, without a full stop
    and without white space at either end. *)
Definition sentence (s : string) : Prop :=
  s <> EmptyString /\ has_char "." s = false /\ Locale.strip s = s.




(** The links [get_related_topics] reports: those of the first [limit]
    links whose page exists. *)
Definition live_links (wiki : string -> Text.wiki_page) (limit : Z)
  (links : list string) : list string :=
  List.filter (fun link => Text.page_exists (wiki link))
              (firstn (Z.to_nat limit) links).

Definition category_entry (category : string) : Text.related_topic :=
  Text.RelatedCategory (Text.replace "Category:" EmptyString category).

Definition is_link (topic : Text.related_topic) : bool :=
  match topic with
  | Text.RelatedLink _ _ _ => true
  | Text.RelatedCategory _ => false
  end.

(** A page of two sentences, with its links and categories. *)
Definition python_page : Text.wiki_page :=
  Text.mk_wiki_page
    true
    "Python is a language. It was created by Guido van Rossum."
    "Python is a language. It was created by Guido van Rossum. It is free."
    "https://en.wikipedia.org/wiki/Python"
    [Text.WikiSection "History" "Python was conceived in the late 1980s."
       [Text.WikiSection "Naming" "From Monty Python." []]]
    ["Category:Programming languages"; "Category:Python"]%string
    ["Guido van Rossum"; "Nowhere"; "ABC"]%string.

(** A wiki on which only the page of Guido van Rossum exists. *)
Definition small_wiki (link : string) : Text.wiki_page :=
  if String.eqb link "Guido van Rossum"
  then Text.mk_wiki_page true "Dutch programmer." "Dutch programmer."
         "https://en.wikipedia.org/wiki/Guido_van_Rossum" [] [] []
  else Text.mk_wiki_page false EmptyString EmptyString EmptyString [] [] [].

(** * Properties *)

(** ** The loop combinator and the sort *)

Lemma for_each_app {A S} (f : S -> A -> Py.result S) (l1 l2 : list A) (s : S) :
  Py.for_each f (l1 ++ l2) s = Py.bind (Py.for_each f l1 s) (Py.for_each f l2).
Proof.
  revert s; induction l1 as [|x l1 IH]; intros s; simpl; [reflexivity|].
  destruct (f s x) as [s'|e]; simpl; [apply IH | reflexivity].
Qed.

Lemma len_app {A} (l1 l2 : list A) : Py.len (l1 ++ l2) = Py.len l1 + Py.len l2.
Proof. unfold Py.len; rewrite length_app; lia. Qed.

Lemma len_nonneg {A} (l : list A) : 0 <= Py.len l.
Proof. unfold Py.len; lia. Qed.

Section SortFacts.
Context {A : Type} (geb : A -> A -> bool).

Lemma insert_desc_perm (x : A) (l : list A) :
  Permutation (x :: l) (insert_desc geb x l).
Proof.
  induction l as [|y l IH]; simpl; [reflexivity|].
  destruct (geb x y); [reflexivity|].
  rewrite perm_swap; constructor; exact IH.
Qed.

Lemma sort_desc_perm (l : list A) : Permutation l (sort_desc geb l).
Proof.
  induction l as [|x l IH]; simpl; [constructor|].
  rewrite <- insert_desc_perm; constructor; exact IH.
Qed.

Lemma sort_desc_length (l : list A) :
  List.length (sort_desc geb l) = List.length l.
Proof. symmetry; apply Permutation_length, sort_desc_perm. Qed.

Lemma sort_desc_in (x : A) (l : list A) : In x (sort_desc geb l) <-> In x l.
Proof.
  split; apply Permutation_in;
    [symmetry|]; apply sort_desc_perm.
Qed.

(** With a total and transitive comparison, the result is in descending
    order: each element is at least every later one. *)
Hypothesis geb_total : forall a b, geb a b = true \/ geb b a = true.
Hypothesis geb_trans :
  forall a b c, geb a b = true -> geb b c = true -> geb a c = true.

Lemma insert_desc_descending (x : A) (l : list A) :
  descending geb l -> descending geb (insert_desc geb x l).
Proof.
  induction l as [|y l IH]; intros Hs; simpl.
  - constructor; constructor.
  - destruct (geb x y) eqn:Hxy.
    + constructor; [exact Hs|].
      constructor; [exact Hxy|].
      inversion Hs as [|? ? _ Hy]; subst.
      rewrite Forall_forall in Hy. apply Forall_forall; intros z Hz.
      apply geb_trans with y; auto.
    + inversion Hs as [|? ? Hl Hy]; subst.
      constructor; [apply IH; exact Hl|].
      rewrite Forall_forall in Hy. apply Forall_forall; intros z Hz.
      apply (Permutation_in _ (Permutation_sym (insert_desc_perm x l))) in Hz.
      destruct Hz as [<-|Hz]; [|auto].
      destruct (geb_total x y) as [H|H]; congruence.
Qed.

Lemma sort_desc_descending (l : list A) : descending geb (sort_desc geb l).
Proof.
  induction l as [|x l IH]; simpl.
  - constructor.
  - apply insert_desc_descending, IH.
Qed.

(** Stability: the elements that tie with a given one keep their order.
    [same] picks a class of elements with equal keys. *)
Lemma insert_desc_stable (same : A -> bool) (x : A) (l : list A) :
  (forall y, In y l -> same x = true -> same y = true -> geb x y = true) ->
  List.filter same (insert_desc geb x l) = List.filter same (x :: l).
Proof.
  induction l as [|y l IH]; intros Htie; [reflexivity|].
  simpl insert_desc. destruct (geb x y) eqn:Hxy; [reflexivity|].
  simpl. rewrite IH by (intros; apply Htie; simpl; auto).
  simpl. destruct (same x) eqn:Hx; [|reflexivity].
  destruct (same y) eqn:Hy; [|reflexivity].
  rewrite (Htie y (or_introl eq_refl) eq_refl Hy) in Hxy; discriminate.
Qed.

Lemma sort_desc_stable (same : A -> bool) (l : list A) :
  (forall x y, same x = true -> same y = true -> geb x y = true) ->
  List.filter same (sort_desc geb l) = List.filter same l.
Proof.
  intros Htie; induction l as [|x l IH]; [reflexivity|].
  simpl sort_desc. rewrite insert_desc_stable by auto.
  simpl. rewrite IH. reflexivity.
Qed.
End SortFacts.

(** ** The date-range filter *)

Lemma filter_revisions_parsed (s e : bound) (all_revisions : list Revision) :
  Forall has_parsed (snd (filter_revisions s e all_revisions)).
Proof.
  induction all_revisions as [|rev rest IH]; simpl; [constructor|].
  destruct (filter_revisions s e rest) as [store filtered]; simpl in *.
  destruct (in_range s e rev) as [t|]; simpl; [|exact IH].
  constructor; [exists t; reflexivity | exact IH].
Qed.

(** ** Time windows *)

Section Grouping.
Import Activity.
Variable window_size : string.

Lemma update_keys key f grouped k :
  In k (map fst (update key f grouped)) <-> k = key \/ In k (map fst grouped).
Proof.
  induction grouped as [|[k' w'] rest IH]; simpl.
  - intuition.
  - destruct (String.eqb_spec k' key) as [->|Hne]; simpl; [intuition|].
    rewrite IH; intuition.
Qed.

Lemma update_nodup key f grouped :
  NoDup (map fst grouped) -> NoDup (map fst (update key f grouped)).
Proof.
  induction grouped as [|[k' w'] rest IH]; simpl; intros Hnd.
  - constructor; [intros []|constructor].
  - inversion Hnd as [|? ? Hnotin Hrest]; subst.
    destruct (String.eqb_spec k' key) as [->|Hne]; simpl.
    + constructor; assumption.
    + constructor; [|auto].
      rewrite update_keys; intros [->|Hin]; [congruence | contradiction].
Qed.

(** An entry after the update is an old entry of another key, the updated
    entry of this key, or the entry created from the factory. *)
Lemma update_in key f grouped k w :
  NoDup (map fst grouped) ->
  In (k, w) (update key f grouped) ->
  (k <> key /\ In (k, w) grouped)
  \/ (k = key /\ exists w0, In (key, w0) grouped /\ w = f w0)
  \/ (k = key /\ ~ In key (map fst grouped) /\ w = f empty_window).
Proof.
  induction grouped as [|[k' w'] rest IH]; simpl; intros Hnd.
  - intros [H|[]]; inversion H; subst. right; right; auto.
  - inversion Hnd as [|? ? Hnotin Hrest]; subst.
    destruct (String.eqb_spec k' key) as [->|Hne]; simpl.
    + intros [H|H].
      * inversion H; subst. right; left; eauto.
      * left; split; [|auto].
        intros ->. apply Hnotin. apply (in_map fst) in H. exact H.
    + intros [H|H].
      * inversion H; subst. left; auto.
      * destruct (IH Hrest H) as [[Hk Hin]|[[-> (w0 & Hin & ->)]|[-> [Hn ->]]]].
        -- left; auto.
        -- right; left; eauto.
        -- right; right. repeat split; auto. intros [?|?]; auto.
Qed.

Lemma update_members key rev grouped :
  Permutation (members (update key (record_edit rev) grouped))
              (members grouped ++ [rev]).
Proof.
  unfold members.
  induction grouped as [|[k' w'] rest IH]; simpl; [reflexivity|].
  destruct (String.eqb_spec k' key) as [->|Hne]; simpl.
  - rewrite <- !app_assoc. apply Permutation_app_head, Permutation_app_comm.
  - rewrite <- app_assoc. apply Permutation_app_head, IH.
Qed.

Lemma distinct_snoc names x : distinct (names ++ [x]) = set_add x (distinct names).
Proof. unfold distinct; rewrite fold_left_app; reflexivity. Qed.

Lemma in_window_label rev key :
  in_window window_size key rev = true <-> label_of window_size rev = Some key.
Proof.
  unfold in_window. destruct (label_of window_size rev) as [k|]; [|split; discriminate].
  destruct (String.eqb_spec k key); split; congruence.
Qed.

(** One turn of the grouping loop keeps the dictionary right. *)
Lemma group_step_ok processed grouped rev key :
  grouped_ok window_size processed grouped ->
  label_of window_size rev = Some key ->
  grouped_ok window_size (processed ++ [rev]) (update key (record_edit rev) grouped).
Proof.
  intros [Hnd Hwin Hcov Hmem] Hlabel.
  assert (Hin_rev : in_window window_size key rev = true) by (apply in_window_label; auto).
  split.
  - apply update_nodup, Hnd.
  - intros k w Hin.
    destruct (update_in _ _ _ _ _ Hnd Hin)
      as [[Hk Hold]|[[-> (w0 & Hold & ->)]|[-> [Hnew ->]]]].
    + destruct (Hwin _ _ Hold) as [Hr Hc He Hi].
      assert (Hout : in_window window_size k rev = false).
      { destruct (in_window window_size k rev) eqn:E; [|reflexivity].
        apply in_window_label in E. congruence. }
      split; auto.
      rewrite filter_app; simpl; rewrite Hout, app_nil_r; exact Hr.
    + destruct (Hwin _ _ Hold) as [Hr Hc He Hi].
      split; unfold record_edit; cbn [editors revisions edit_count].
      * rewrite filter_app; simpl; rewrite Hin_rev, Hr; reflexivity.
      * rewrite len_app, Hc; reflexivity.
      * rewrite map_app; cbn [map]; rewrite distinct_snoc, He; reflexivity.
      * intros E; apply app_eq_nil in E; destruct E; discriminate.
    + assert (Hnone : List.filter (in_window window_size key) processed = []).
      { destruct (List.filter (in_window window_size key) processed) as [|r l] eqn:E;
          [reflexivity|].
        assert (Hr : In r (List.filter (in_window window_size key) processed))
          by (rewrite E; left; reflexivity).
        apply filter_In in Hr; destruct Hr as [Hr1 Hr2].
        apply in_window_label in Hr2.
        elim Hnew; eapply Hcov; eauto. }
      split; simpl.
      * rewrite filter_app; simpl; rewrite Hin_rev, Hnone; reflexivity.
      * reflexivity.
      * reflexivity.
      * discriminate.
  - intros r k Hr Hk. apply update_keys.
    apply in_app_or in Hr; destruct Hr as [Hr|[<-|[]]].
    + right; eapply Hcov; eauto.
    + left; congruence.
  - rewrite update_members. apply Permutation_app_tail, Hmem.
Qed.

(** The grouping loop never raises on revisions that went through the
    filter, and leaves a dictionary that is right for all of them. *)
Lemma group_revisions_ok (filtered_revisions : list Revision) :
  Forall has_parsed filtered_revisions ->
  exists grouped,
    group_revisions window_size filtered_revisions = Py.Ok grouped
    /\ grouped_ok window_size filtered_revisions grouped.
Proof.
  unfold group_revisions.
  induction filtered_revisions as [|rev l IH] using rev_ind; intros Hall.
  - exists []; split; [reflexivity|].
    split; simpl; [constructor | intros ? ? [] | intros ? ? [] | constructor].
  - apply Forall_app in Hall; destruct Hall as [Hl Hrev].
    destruct (IH Hl) as (grouped & Hrun & Hok).
    inversion Hrev as [|? ? [t Ht] _]; subst.
    exists (update (window_key window_size t) (record_edit rev) grouped).
    split.
    + rewrite for_each_app, Hrun; simpl.
      unfold group_step; rewrite Ht; reflexivity.
    + apply group_step_ok; [exact Hok|].
      unfold label_of; rewrite Ht; reflexivity.
Qed.

Lemma total_edit_counts processed grouped :
  grouped_ok window_size processed grouped ->
  total (map (fun entry => edit_count (snd entry)) grouped)
  = Py.len processed.
Proof.
  intros [_ Hwin _ Hmem].
  unfold Py.len; rewrite <- (Permutation_length Hmem); clear Hmem.
  unfold members.
  induction grouped as [|[k w] rest IH]; [reflexivity|].
  simpl. rewrite length_app, Nat2Z.inj_add, <- IH.
  - destruct (Hwin k w (or_introl eq_refl)) as [_ Hc _ _].
    simpl; rewrite Hc; reflexivity.
  - intros key w' Hin; apply Hwin; right; exact Hin.
Qed.

End Grouping.

Lemma keys_functional {V} (grouped : list (string * V)) key (v v' : V) :
  NoDup (map fst grouped) -> In (key, v) grouped -> In (key, v') grouped ->
  v = v'.
Proof.
  induction grouped as [|[k w] rest IH]; simpl; intros Hnd H1 H2; [contradiction|].
  inversion Hnd as [|? ? Hnotin Hrest]; subst.
  destruct H1 as [H1|H1], H2 as [H2|H2].
  - congruence.
  - inversion H1; subst. elim Hnotin. apply (in_map fst) in H2; exact H2.
  - inversion H2; subst. elim Hnotin. apply (in_map fst) in H1; exact H1.
  - auto.
Qed.

(** C6. Aggregation partitions the filtered revisions: the grouping loop
    ends with a dictionary of distinct labels whose windows hold, together,
    exactly the filtered revisions; every filtered revision lies in one
    window and in no other; the window of a label holds the revisions with
    that label, counts them in [edit_count], and is never empty; and the
    edit counts add up to the number of filtered revisions. *)
Theorem C6_windows_partition (all_revisions : list Revision)
  (start_datetime end_datetime : bound) (window_size : string) :
  let filtered :=
    snd (filter_revisions start_datetime end_datetime all_revisions) in
  exists grouped,
    Activity.group_revisions window_size filtered = Py.Ok grouped
    /\ NoDup (map fst grouped)
    /\ Permutation (members grouped) filtered
    /\ (forall rev, In rev filtered ->
        exists key w,
          In (key, w) grouped /\ In rev (Activity.revisions w)
          /\ forall key' w',
              In (key', w') grouped -> In rev (Activity.revisions w') ->
              key' = key /\ w' = w)
    /\ (forall key w, In (key, w) grouped ->
        Activity.revisions w = List.filter (in_window window_size key) filtered
        /\ Activity.edit_count w = Py.len (Activity.revisions w)
        /\ 1 <= Activity.edit_count w)
    /\ Activity.total (map (fun entry => Activity.edit_count (snd entry)) grouped)
       = Py.len filtered.
Proof.
  intros filtered.
  destruct (group_revisions_ok window_size filtered) as (grouped & Hrun & Hok).
  { apply filter_revisions_parsed. }
  exists grouped. split; [exact Hrun|].
  pose proof Hok as [Hnd Hwin Hcov Hmem].
  split; [exact Hnd|]. split; [exact Hmem|]. split; [|split].
  - intros rev Hrev.
    assert (Hp : has_parsed rev).
    { pose proof (filter_revisions_parsed start_datetime end_datetime
                    all_revisions) as Hall.
      rewrite Forall_forall in Hall; apply Hall, Hrev. }
    destruct Hp as [t Ht].
    set (key := Activity.window_key window_size t).
    assert (Hlabel : label_of window_size rev = Some key)
      by (unfold label_of; rewrite Ht; reflexivity).
    assert (Hkey : In key (map fst grouped)) by (eapply Hcov; eauto).
    apply in_map_iff in Hkey; destruct Hkey as ([k w] & Hk & Hin).
    simpl in Hk; subst k.
    exists key, w. split; [exact Hin|]. split.
    + destruct (Hwin _ _ Hin) as [Hr _ _ _]. rewrite Hr.
      apply filter_In; split; [exact Hrev|].
      apply in_window_label; exact Hlabel.
    + intros key' w' Hin' Hmem'.
      destruct (Hwin _ _ Hin') as [Hr _ _ _]. rewrite Hr in Hmem'.
      apply filter_In in Hmem'; destruct Hmem' as [_ Hw].
      apply in_window_label in Hw.
      assert (key' = key) by congruence; subst key'.
      split; [reflexivity|]. eapply keys_functional; eauto.
  - intros key w Hin. destruct (Hwin _ _ Hin) as [Hr Hc _ Hi].
    split; [exact Hr|]. split; [exact Hc|].
    rewrite Hc. unfold Py.len.
    destruct (Activity.revisions w); [congruence | simpl; lia].
  - eapply total_edit_counts; eauto.
Qed.

(** ** Window labels *)

Lemma last_char_app (s1 s2 : string) :
  s2 <> EmptyString -> last_char (s1 ++ s2) = last_char s2.
Proof.
  intros Hne; induction s1 as [|c s1 IH]; [reflexivity|].
  simpl. destruct (s1 ++ s2)%string eqn:E; [|exact IH].
  destruct s1; simpl in E; [contradiction | discriminate].
Qed.

Lemma digit_not_k (n : Z) : digit n <> "k"%char.
Proof.
  unfold digit.
  assert (H : (Z.to_nat (n mod 10) < 10)%nat).
  { pose proof (Z.mod_pos_bound n 10 eq_refl). lia. }
  revert H; generalize (Z.to_nat (n mod 10)); intros r Hr.
  do 10 (destruct r as [|r]; [discriminate|]). lia.
Qed.

Lemma day_label_last (t : datetime) :
  last_char (strftime_Ymd t) = Some (digit (day t)).
Proof.
  unfold strftime_Ymd.
  rewrite !last_char_app; try discriminate; reflexivity.
Qed.

Lemma week_label_last (t : datetime) :
  last_char (Activity.window_key "week" t) = Some "k"%char.
Proof.
  change (Activity.window_key "week" t)
    with (strftime_Ymd (sub_days t (weekday t)) ++ "-week")%string.
  rewrite last_char_app; [reflexivity | discriminate].
Qed.

Lemma default_window_key (window_size : string) (t : datetime) :
  window_size <> "day"%string -> window_size <> "week"%string ->
  window_size <> "month"%string ->
  Activity.window_key window_size t = Activity.window_key "day" t.
Proof.
  intros Hd Hw Hm. unfold Activity.window_key.
  destruct (String.eqb_spec window_size "day"); [contradiction|].
  destruct (String.eqb_spec window_size "week"); [contradiction|].
  destruct (String.eqb_spec window_size "month"); [contradiction|].
  reflexivity.
Qed.

(** C9. A window size other than day, week and month gives every instant
    its day label, so that the aggregator builds the same dictionary as for
    day; and the week label of an instant differs from the day label of any
    instant, the Monday of a week included. *)
Theorem C9_window_labels (window_size : string) :
  window_size <> "day"%string -> window_size <> "week"%string ->
  window_size <> "month"%string ->
  (forall t, Activity.window_key window_size t = strftime_Ymd t)
  /\ (forall filtered_revisions,
         Activity.group_revisions window_size filtered_revisions
         = Activity.group_revisions "day" filtered_revisions)
  /\ (forall t t', Activity.window_key "week" t
                   <> Activity.window_key "day" t')
  /\ (forall t, Activity.window_key "week" t
                <> strftime_Ymd (sub_days t (weekday t))).
Proof.
  intros Hd Hw Hm.
  assert (Hweek : forall t t', Activity.window_key "week" t <> strftime_Ymd t').
  { intros t t' E. apply (f_equal last_char) in E.
    rewrite week_label_last, day_label_last in E.
    inversion E as [E']. symmetry in E'. exact (digit_not_k _ E'). }
  split; [|split; [|split]].
  - intros t. rewrite default_window_key by assumption. reflexivity.
  - intros l. unfold Activity.group_revisions.
    generalize (@nil (string * Activity.window)).
    induction l as [|rev l IH]; intros g; [reflexivity|].
    simpl. unfold Activity.group_step at 1 3.
    destruct (parsed_timestamp rev) as [t|]; [|reflexivity].
    rewrite default_window_key by assumption. simpl. apply IH.
  - intros t t'. apply Hweek.
  - intros t. apply Hweek.
Qed.

Lemma C9_window_labels_witness :
  (forall t, Activity.window_key "hour" t = strftime_Ymd t)
  /\ Activity.window_key "week" (mk_datetime 2024 1 3 14 30 0 0)
     <> Activity.window_key "day" (mk_datetime 2024 1 1 9 0 0 0).
Proof.
  destruct (C9_window_labels "hour") as (H1 & _ & H3 & _);
    try discriminate.
  split; [exact H1 | apply H3].
Defined.

(** ** Authors *)

Lemma set_add_in (x y : string) (s : list string) :
  In y (Activity.set_add x s) <-> y = x \/ In y s.
Proof.
  induction s as [|z s IH]; simpl.
  - intuition.
  - destruct (String.eqb_spec z x) as [->|Hne]; simpl; [intuition|].
    rewrite IH; intuition.
Qed.

Lemma set_add_nodup (x : string) (s : list string) :
  NoDup s -> NoDup (Activity.set_add x s).
Proof.
  induction s as [|z s IH]; simpl; intros Hnd.
  - constructor; [intros []|constructor].
  - inversion Hnd as [|? ? Hnotin Hrest]; subst.
    destruct (String.eqb_spec z x) as [->|Hne]; [exact Hnd|].
    constructor; [|auto].
    rewrite set_add_in; intros [->|Hin]; [congruence | contradiction].
Qed.

Lemma distinct_spec (names : list string) :
  NoDup (distinct names) /\ forall u, In u (distinct names) <-> In u names.
Proof.
  induction names as [|x names [IHnd IHin]] using rev_ind.
  - split; [constructor | reflexivity].
  - rewrite distinct_snoc. split.
    + apply set_add_nodup, IHnd.
    + intros u. rewrite set_add_in, IHin, in_app_iff; simpl. intuition.
Qed.

(** A duplicate-free list whose elements all equal [u] and that holds [u]
    is the list of [u] alone. *)
Lemma nodup_constant (u : string) (s : list string) :
  NoDup s -> In u s -> (forall v, In v s -> v = u) -> s = [u].
Proof.
  intros Hnd Hin Hall.
  destruct s as [|a [|b s]]; [contradiction| |].
  - rewrite (Hall a); simpl; auto.
  - exfalso. inversion Hnd as [|? ? Hnotin _]; subst. apply Hnotin.
    rewrite (Hall a), (Hall b); simpl; auto.
Qed.

Lemma store_lookup_other (k key : string) (v : Z) (d : list (string * Z)) :
  k <> key ->
  Significance.lookup k (Significance.store key v d) = Significance.lookup k d.
Proof.
  intros Hne; induction d as [|[k' v'] d IH]; simpl.
  - destruct (String.eqb_spec key k); [congruence | reflexivity].
  - destruct (String.eqb_spec k' key) as [->|Hk]; simpl.
    + destruct (String.eqb_spec key k); [congruence | reflexivity].
    + rewrite IH; reflexivity.
Qed.

(** The empty name is never a key of [user_edit_counts]. *)
Lemma count_user_edits_no_empty (filtered_revisions : list Revision) :
  Significance.lookup EmptyString
    (Significance.count_user_edits filtered_revisions) = None.
Proof.
  unfold Significance.count_user_edits.
  assert (H : forall l counts,
             Significance.lookup EmptyString counts = None ->
             Significance.lookup EmptyString
               (fold_left Significance.count_user l counts) = None).
  { induction l as [|rev l IH]; intros counts Hc; [exact Hc|].
    simpl. apply IH. unfold Significance.count_user.
    destruct (user rev) as [u|]; [|exact Hc].
    destruct (String.eqb_spec u EmptyString) as [->|Hu]; [exact Hc|].
    rewrite store_lookup_other by congruence. exact Hc. }
  apply H; reflexivity.
Qed.

(** C10. A revision without author is filed under the name "Unknown" by the
    aggregator: the editors of a window are the distinct names of its
    revisions, an absent author read as "Unknown", so that a window of
    authorless revisions only, however many, has the one editor "Unknown" and
    an editor count of 1.  In significance scoring a revision without author
    has the edit count 1 and the author-experience sub-score 1. *)
Theorem C10_authorless_revisions (all_revisions : list Revision)
  (start_datetime end_datetime : bound) (window_size : string)
  (grouped : list (string * Activity.window)) (key : string)
  (w : Activity.window) :
  let filtered :=
    snd (filter_revisions start_datetime end_datetime all_revisions) in
  Activity.group_revisions window_size filtered = Py.Ok grouped ->
  In (key, w) grouped ->
  (NoDup (Activity.editors w)
   /\ forall u, In u (Activity.editors w) <->
                exists rev, In rev (Activity.revisions w)
                            /\ get_or (user rev) "Unknown"%string = u)
  /\ ((forall rev, In rev (Activity.revisions w) -> user rev = None) ->
      Activity.editors w = ["Unknown"%string]
      /\ Activity.editor_count_of w = 1)
  /\ (forall rev, user rev = None ->
      Significance.user_edits_of rev (Significance.count_user_edits filtered)
      = 1
      /\ Significance.experience_factor
           rev (Significance.count_user_edits filtered) = 1%Q).
Proof.
  intros filtered Hrun Hin.
  destruct (group_revisions_ok window_size filtered) as (g & Hrun' & Hok).
  { apply filter_revisions_parsed. }
  rewrite Hrun in Hrun'; inversion Hrun'; subst g; clear Hrun'.
  destruct (ok_windows _ _ _ Hok _ _ Hin) as [_ _ He Hi].
  destruct (distinct_spec (map (author_of) (Activity.revisions w)))
    as [Hnd Hmem].
  rewrite <- He in Hnd, Hmem.
  assert (Hspec : forall u, In u (Activity.editors w) <->
                 exists rev, In rev (Activity.revisions w)
                             /\ get_or (user rev) "Unknown"%string = u).
  { intros u. rewrite Hmem, in_map_iff. unfold author_of.
    split; intros (rev & H1 & H2); exists rev; auto. }
  split; [split; assumption|]. split.
  - intros Hall.
    assert (E : Activity.editors w = ["Unknown"%string]).
    { apply nodup_constant; [exact Hnd | |].
      - apply Hspec. destruct (Activity.revisions w) as [|rev l] eqn:Er;
          [congruence|].
        exists rev. split; [left; reflexivity|].
        rewrite (Hall rev) by (left; reflexivity). reflexivity.
      - intros v Hv. apply Hspec in Hv. destruct Hv as (rev & Hr & <-).
        rewrite (Hall rev Hr). reflexivity. }
    split; [exact E|]. unfold Activity.editor_count_of. rewrite E; reflexivity.
  - intros rev Hnone.
    assert (E : Significance.user_edits_of
                  rev (Significance.count_user_edits filtered) = 1).
    { unfold Significance.user_edits_of. rewrite Hnone; simpl.
      rewrite count_user_edits_no_empty. reflexivity. }
    split; [exact E|].
    unfold Significance.experience_factor. rewrite E. reflexivity.
Qed.

Lemma C10_authorless_revisions_witness :
  Activity.editor_count_of
    (Activity.mk_window 2 ["Unknown"%string]
       [set_parsed_timestamp (authorless 2 10) (mk_datetime 2024 1 2 10 0 0 0);
        set_parsed_timestamp (authorless 2 11) (mk_datetime 2024 1 2 11 0 0 0)])
  = 1.
Proof.
  refine (proj2 (proj1 (proj2
    (C10_authorless_revisions [authorless 2 10; authorless 2 11]
       Unbounded Unbounded "day" _ "2024-01-02" _ eq_refl
       (or_introl eq_refl))) _)).
  simpl. intros rev [<-|[<-|[]]]; reflexivity.
Defined.

(** ** The revision records after a call *)

Lemma filter_revisions_store (s e : bound) (all_revisions : list Revision) :
  fst (filter_revisions s e all_revisions) = map (annotated s e) all_revisions.
Proof.
  induction all_revisions as [|rev rest IH]; [reflexivity|].
  simpl. destruct (filter_revisions s e rest) as [store filtered].
  simpl in IH. unfold annotated.
  destruct (in_range s e rev); simpl; rewrite IH; reflexivity.
Qed.

Lemma in_range_timestamp (s e : bound) (rev : Revision) (t : datetime) :
  in_range s e rev = Some t -> timestamp rev = Some t.
Proof.
  unfold in_range. destruct (timestamp rev) as [rev_time|]; [|discriminate].
  destruct s as [| |start_time]; simpl;
    try destruct (Datetime.ltb rev_time start_time); simpl;
    try discriminate;
    destruct e as [| |end_time];
    try destruct (Datetime.gtb rev_time end_time);
    congruence.
Qed.

Lemma analyze_edit_activity_store all_revisions s e window_size z_threshold :
  snd (Activity.analyze_edit_activity (Page all_revisions) s e window_size
                                      z_threshold)
  = fst (filter_revisions s e all_revisions).
Proof.
  unfold Activity.analyze_edit_activity.
  destruct (filter_revisions s e all_revisions) as [store filtered].
  destruct (Activity.group_revisions window_size filtered); reflexivity.
Qed.

Lemma get_significant_revisions_store all_revisions s e limit min_significance :
  snd (Significance.get_significant_revisions (Page all_revisions) s e limit
                                              min_significance)
  = fst (filter_revisions s e all_revisions).
Proof.
  unfold Significance.get_significant_revisions.
  destruct (filter_revisions s e all_revisions) as [store filtered].
  destruct (Significance.rank_filtered filtered limit min_significance);
    reflexivity.
Qed.

(** C8, as the code has it.  Both operations leave the list of revision
    records with each record put through the filter loop: a record the
    filter keeps has its key [parsed_timestamp] set, in place, to the instant
    parsed from its [timestamp]; a record the filter drops is untouched; and
    no key supplied by the revision source changes in any record.  Scores and
    factor breakdowns go to the entries of [scored_revisions], which are
    copies. *)
Theorem C8_records_annotated_in_place (all_revisions : list Revision)
  (start_datetime end_datetime : bound) (window_size : string)
  (z_threshold : R) (limit : Z) (min_significance : Q) :
  let after := map (annotated start_datetime end_datetime) all_revisions in
  snd (Activity.analyze_edit_activity (Page all_revisions) start_datetime
         end_datetime window_size z_threshold) = after
  /\ snd (Significance.get_significant_revisions (Page all_revisions)
            start_datetime end_datetime limit min_significance) = after
  /\ Forall2 same_source_fields all_revisions after
  /\ Forall2 (fun before rev =>
                match in_range start_datetime end_datetime before with
                | Some rev_time =>
                    timestamp before = Some rev_time
                    /\ parsed_timestamp rev = Some rev_time
                | None => rev = before
                end) all_revisions after.
Proof.
  intros after. split; [|split; [|split]].
  - rewrite analyze_edit_activity_store. apply filter_revisions_store.
  - rewrite get_significant_revisions_store. apply filter_revisions_store.
  - subst after. induction all_revisions as [|rev rest IH]; simpl;
      constructor; [|exact IH].
    unfold annotated, same_source_fields.
    destruct (in_range start_datetime end_datetime rev); simpl; repeat split.
  - subst after. induction all_revisions as [|rev rest IH]; simpl;
      constructor; [|exact IH].
    unfold annotated.
    destruct (in_range start_datetime end_datetime rev) as [t|] eqn:E;
      [|reflexivity].
    split; [eapply in_range_timestamp; eauto | reflexivity].
Qed.

(** C8, as stated, fails: after either operation the one record of this
    page carries the key [parsed_timestamp] it did not have before. *)
Lemma C8_counterexample :
  snd (Activity.analyze_edit_activity (Page [fresh_revision]) Unbounded
         Unbounded "day" 2%R) <> [fresh_revision]
  /\ snd (Significance.get_significant_revisions (Page [fresh_revision])
            Unbounded Unbounded 50 (1 # 2)) <> [fresh_revision].
Proof.
  rewrite analyze_edit_activity_store, get_significant_revisions_store.
  split; discriminate.
Qed.

(** ** Revert proximity *)

Section RevertProximity.
Import Significance.
Local Open Scope Q_scope.

Lemma revert_candidate_spec revision next_rev :
  revert_candidate revision next_rev
  = if qualifies revision next_rev
    then Some (proximity revision next_rev) else None.
Proof.
  unfold revert_candidate, qualifies, proximity, time_gap, size_gap.
  destruct (parsed_timestamp next_rev), (parsed_timestamp revision);
    reflexivity.
Qed.

Lemma revert_scan_find revision all_revisions indices :
  revert_scan revision all_revisions indices
  = match List.find (qualifies revision)
                    (flat_map (pick all_revisions) indices) with
    | Some next_rev => proximity revision next_rev
    | None => 0
    end.
Proof.
  induction indices as [|i rest IH]; [reflexivity|].
  simpl. unfold pick at 1.
  destruct (orb (i <? 0)%Z (Py.len all_revisions <=? i)%Z); [exact IH|].
  destruct (Py.get all_revisions i) as [next_rev|]; [|exact IH].
  simpl. rewrite revert_candidate_spec.
  destruct (qualifies revision next_rev); [reflexivity | exact IH].
Qed.

Lemma skipn_nth_error {A} (l : list A) (n : nat) (x : A) :
  nth_error l n = Some x -> skipn n l = x :: skipn (S n) l.
Proof.
  revert l; induction n as [|n IH]; intros [|y l] H; try discriminate.
  - inversion H; reflexivity.
  - simpl in H. rewrite skipn_cons, (IH _ H). reflexivity.
Qed.

Lemma pick_range all_revisions (n : nat) (lo : Z) :
  flat_map (pick all_revisions) (Py.range_from lo n)
  = firstn (Z.to_nat (lo + Z.of_nat n) - Z.to_nat lo)
           (skipn (Z.to_nat lo) all_revisions).
Proof.
  revert lo; induction n as [|n IH]; intros lo.
  - simpl. replace (lo + 0)%Z with lo by lia.
    rewrite Nat.sub_diag. reflexivity.
  - cbn [Py.range_from flat_map]. rewrite IH.
    replace (lo + 1 + Z.of_nat n)%Z with (lo + Z.of_nat (S n))%Z by lia.
    remember (Z.to_nat (lo + Z.of_nat (S n))) as hi eqn:Hhi.
    unfold pick, Py.len, Py.get.
    destruct (Z.ltb_spec lo 0) as [Hneg|Hpos]; cbn [orb].
    + replace (Z.to_nat (lo + 1)) with O by lia.
      replace (Z.to_nat lo) with O by lia. reflexivity.
    + destruct (Z.leb_spec (Z.of_nat (List.length all_revisions)) lo)
        as [Hout|Hin].
      * rewrite !skipn_all2 by lia. rewrite !firstn_nil. reflexivity.
      * destruct (nth_error all_revisions (Z.to_nat lo)) as [x|] eqn:E.
        -- rewrite (skipn_nth_error _ _ _ E).
           replace (Z.to_nat (lo + 1)) with (S (Z.to_nat lo)) by lia.
           replace (hi - Z.to_nat lo)%nat
             with (S (hi - S (Z.to_nat lo))) by lia.
           reflexivity.
        -- apply nth_error_None in E. lia.
Qed.

Lemma pick_candidates all_revisions index :
  flat_map (pick all_revisions) (Py.range (index - 5) index)
  = candidates all_revisions index.
Proof.
  unfold Py.range, candidates. rewrite pick_range.
  replace (index - (index - 5))%Z with 5%Z by lia.
  replace (index - 5 + Z.of_nat (Z.to_nat 5))%Z with index by lia.
  replace (Z.to_nat (Z.max 0 (index - 5))) with (Z.to_nat (index - 5))
    by lia.
  f_equal. lia.
Qed.

(** The scan is the search for the first candidate that passes the strict
    test. *)
Lemma calculate_revert_score_first_match revision all_revisions index :
  _calculate_revert_score revision all_revisions index
  = first_match_score qualifies revision all_revisions index.
Proof.
  unfold _calculate_revert_score, first_match_score.
  rewrite revert_scan_find, pick_candidates. reflexivity.
Qed.

Lemma Qltb_lt (a b : Q) : Qltb a b = true <-> a < b.
Proof.
  unfold Qltb. rewrite negb_true_iff.
  destruct (Qle_bool b a) eqn:E.
  - apply Qle_bool_iff in E. split; [discriminate | intros H; lra].
  - split; [intros _ | reflexivity].
    destruct (Qlt_le_dec a b) as [H|H]; [exact H|].
    apply Qle_bool_iff in H. congruence.
Qed.

Lemma time_gap_nonneg revision next_rev gap :
  time_gap revision next_rev = Some gap -> 0 <= gap.
Proof.
  unfold time_gap.
  destruct (parsed_timestamp next_rev), (parsed_timestamp revision);
    try discriminate.
  match goal with
  | |- Some (Qabs ?x) = _ -> _ =>
      generalize (Qabs_nonneg x); generalize (Qabs x)
  end.
  intros q Hq [= <-]. exact Hq.
Qed.

Lemma proximity_bounds revision next_rev :
  0 <= proximity revision next_rev <= 1.
Proof.
  unfold proximity. destruct (time_gap revision next_rev) as [gap|] eqn:E.
  - apply time_gap_nonneg in E. split.
    + apply Q.le_max_l.
    + apply Q.max_lub; [lra|].
      assert (0 <= gap / 3600) by (apply Qle_shift_div_l; lra). lra.
  - lra.
Qed.

End RevertProximity.

(** C3, as the code has it.  The revert-proximity sub-score scans the
    candidates at the indices [index-5 .. index-1] that exist, in that order;
    a candidate qualifies exactly when its time gap to the target is below
    3600 seconds and its size difference is below 50 bytes, both strictly;
    the sub-score is [max(0, 1 - gap/3600)], which is then [1 - gap/3600]
    and positive, for the first qualifying candidate, and 0 when there is
    none. *)
Theorem C3_revert_score_strict (revision : Revision)
  (all_revisions : list Revision) (index : Z) :
  Significance._calculate_revert_score revision all_revisions index
  = first_match_score qualifies revision all_revisions index
  /\ (forall next_rev,
         qualifies revision next_rev = true <->
         exists gap, time_gap revision next_rev = Some gap
                     /\ (gap < 3600)%Q
                     /\ size_gap revision next_rev < 50)
  /\ (forall next_rev gap,
         time_gap revision next_rev = Some gap ->
         qualifies revision next_rev = true ->
         (proximity revision next_rev == 1 - gap / 3600)%Q
         /\ (0 < 1 - gap / 3600)%Q).
Proof.
  split; [apply calculate_revert_score_first_match|]. split.
  - intros next_rev. unfold qualifies.
    destruct (time_gap revision next_rev) as [gap|].
    + rewrite andb_true_iff, Qltb_lt, Z.ltb_lt. split.
      * intros [H1 H2]; exists gap; auto.
      * intros (g & [= <-] & H1 & H2); auto.
    + split; [discriminate | intros (g & H & _); discriminate].
  - intros next_rev gap Hgap Hq. unfold qualifies, proximity in *.
    rewrite Hgap in *. apply andb_true_iff in Hq; destruct Hq as [Hq _].
    apply Qltb_lt in Hq.
    assert (Hpos : (0 < 1 - gap / 3600)%Q).
    { assert (gap / 3600 < 1)%Q by (apply Qlt_shift_div_r; lra). lra. }
    split; [|exact Hpos].
    apply Q.max_r. lra.
Qed.

(** C3, as stated, fails in both bounds.  With a candidate 600 seconds away
    whose size differs by exactly 50 bytes the code returns 0 where the large
    test gives 5/6; and with a candidate exactly 3600 seconds away followed by
    one 1800 seconds away, both of the same size, the code returns 1/2 where
    the large test stops at the first one and gives 0. *)
Lemma C3_counterexample :
  let size_case := [sized 10 10 0 1050; sized 10 0 0 1000] in
  let time_case := [sized 11 0 0 1000; sized 10 30 0 1000; sized 10 0 0 1000] in
  (Significance._calculate_revert_score (sized 10 0 0 1000) size_case 1 == 0
   /\ first_match_score qualifies_as_specified (sized 10 0 0 1000) size_case 1
      == 5 # 6)%Q
  /\ (Significance._calculate_revert_score (sized 10 0 0 1000) time_case 2
      == 1 # 2
      /\ first_match_score qualifies_as_specified (sized 10 0 0 1000)
                           time_case 2 == 0)%Q.
Proof. vm_compute. repeat split. Qed.

(** ** Edit-war density *)

Section EditWar.
Import Significance.
Local Open Scope Q_scope.

Lemma time_diff_within_day (other_time rev_time : datetime) :
  Qle_bool (Qabs (total_seconds_between other_time rev_time)) 86400
  = (Z.abs (to_micros other_time - to_micros rev_time)
     <=? 86400 * 1000000)%Z.
Proof.
  unfold total_seconds_between.
  generalize (to_micros other_time - to_micros rev_time)%Z; intros d.
  apply eq_iff_eq_true. rewrite Qle_bool_iff, Z.leb_le.
  unfold Qle, Qabs, Qdiv, Qmult, Qinv, inject_Z; simpl. lia.
Qed.

Lemma rapid_edits_count (rev_time : datetime) (l : list Revision) (n : Z) :
  fold_left (rapid_edit rev_time) l n
  = (n + Py.len (List.filter (within_24h rev_time) l))%Z.
Proof.
  revert n; induction l as [|other_rev l IH]; intros n.
  - unfold Py.len; simpl; lia.
  - simpl. rewrite IH. unfold rapid_edit, within_24h.
    destruct (parsed_timestamp other_rev) as [other_time|]; [|reflexivity].
    rewrite time_diff_within_day.
    destruct (Z.abs (to_micros other_time - to_micros rev_time)
              <=? 86400 * 1000000)%Z; [|reflexivity].
    unfold Py.len; simpl List.length. lia.
Qed.

Lemma edit_war_score_count revision all_revisions index rev_time :
  parsed_timestamp revision = Some rev_time ->
  _calculate_edit_war_score revision all_revisions index
  = Qmin (inject_Z (Py.len (List.filter (within_24h rev_time) all_revisions))
          / 20) 1.
Proof.
  intros Ht. unfold _calculate_edit_war_score. rewrite Ht.
  rewrite rapid_edits_count. reflexivity.
Qed.

End EditWar.

(** C7. For a revision of the filtered set, the edit-war sub-score is
    [min(count / 20, 1)], [count] being the number of revisions of the whole
    filtered set stamped within 86400 seconds of it, before or after; the
    revision itself is one of them. *)
Theorem C7_edit_war_score (all_revisions : list Revision)
  (start_datetime end_datetime : bound) (revision : Revision) (index : Z) :
  let filtered :=
    snd (filter_revisions start_datetime end_datetime all_revisions) in
  In revision filtered ->
  exists rev_time,
    parsed_timestamp revision = Some rev_time
    /\ In revision (List.filter (within_24h rev_time) filtered)
    /\ Significance._calculate_edit_war_score revision filtered index
       = Qmin (inject_Z (Py.len (List.filter (within_24h rev_time) filtered))
               / 20) 1.
Proof.
  intros filtered Hin.
  pose proof (filter_revisions_parsed start_datetime end_datetime
                all_revisions) as Hall.
  rewrite Forall_forall in Hall. destruct (Hall _ Hin) as [rev_time Ht].
  exists rev_time. split; [exact Ht|]. split.
  - apply filter_In. split; [exact Hin|].
    unfold within_24h. rewrite Ht. apply Z.leb_le.
    rewrite Z.sub_diag. simpl. lia.
  - apply edit_war_score_count, Ht.
Qed.

Lemma C7_edit_war_score_witness :
  exists rev_time,
    parsed_timestamp
      (set_parsed_timestamp (plain 2 10) (mk_datetime 2024 1 2 10 0 0 0))
    = Some rev_time
    /\ Significance._calculate_edit_war_score
         (set_parsed_timestamp (plain 2 10) (mk_datetime 2024 1 2 10 0 0 0))
         (snd (filter_revisions Unbounded Unbounded
                 [plain 4 9; plain 3 9; plain 2 10])) 2
       = Qmin (inject_Z 2 / 20) 1.
Proof.
  destruct (C7_edit_war_score [plain 4 9; plain 3 9; plain 2 10]
              Unbounded Unbounded
              (set_parsed_timestamp (plain 2 10)
                                    (mk_datetime 2024 1 2 10 0 0 0)) 2)
    as (rev_time & Ht & _ & Hscore).
  - simpl. right; right; left; reflexivity.
  - exists rev_time. split; [exact Ht|].
    rewrite Hscore. injection Ht as <-. reflexivity.
Defined.

(** ** The composite score *)

Section ScoreBounds.
Import Significance.
Local Open Scope Q_scope.

Lemma normalized_size_change_bounds (size_change article_size : Z) :
  (0 <= size_change)%Z ->
  0 <= normalized_size_change size_change article_size <= 1.
Proof.
  intros Hsc. unfold normalized_size_change.
  set (floor := Qmax (inject_Z article_size * (1 # 10)) 100).
  assert (Hfloor : 100 <= floor) by apply Q.le_max_r.
  assert (Hnum : 0 <= inject_Z size_change).
  { change 0 with (inject_Z 0). rewrite <- Zle_Qle. exact Hsc. }
  split; [|apply Q.le_min_r].
  apply Q.min_glb; [|lra].
  apply Qle_shift_div_l; lra.
Qed.

Lemma revert_score_bounds revision all_revisions index :
  0 <= _calculate_revert_score revision all_revisions index <= 1.
Proof.
  rewrite calculate_revert_score_first_match. unfold first_match_score.
  destruct (find (qualifies revision) (candidates all_revisions index)).
  - apply proximity_bounds.
  - lra.
Qed.

Lemma experience_factor_bounds revision user_edit_counts :
  0 <= experience_factor revision user_edit_counts <= 1.
Proof.
  unfold experience_factor.
  set (n := Z.max (user_edits_of revision user_edit_counts) 1).
  assert (Hn : 1 <= inject_Z n).
  { change 1 with (inject_Z 1). rewrite <- Zle_Qle. subst n. lia. }
  split; [|apply Q.le_min_l].
  apply Q.min_glb; [lra|].
  apply Qle_shift_div_l; lra.
Qed.

Lemma discussion_score_bounds revision :
  0 <= discussion_score revision <= 1.
Proof.
  unfold discussion_score.
  match goal with |- context [Py.len ?l] => pose proof (len_nonneg l) as H end.
  rewrite Zle_Qle in H. change (inject_Z 0) with 0 in H.
  split; [|apply Q.le_min_r].
  apply Q.min_glb; [|lra].
  apply Qmult_le_0_compat; lra.
Qed.

Lemma edit_war_score_bounds revision all_revisions index :
  0 <= _calculate_edit_war_score revision all_revisions index <= 1.
Proof.
  destruct (parsed_timestamp revision) as [rev_time|] eqn:Ht.
  - rewrite (edit_war_score_count _ _ _ _ Ht).
    match goal with |- context [Py.len ?l] => pose proof (len_nonneg l) as H end.
    rewrite Zle_Qle in H. change (inject_Z 0) with 0 in H.
    split; [|apply Q.le_min_r].
    apply Q.min_glb; [|lra].
    apply Qle_shift_div_l; lra.
  - unfold _calculate_edit_war_score. rewrite Ht. lra.
Qed.

Lemma weighted_sum_bounds (a b c d e : Q) :
  0 <= a <= 1 -> 0 <= b <= 1 -> 0 <= c <= 1 -> 0 <= d <= 1 -> 0 <= e <= 1 ->
  0 <= weighted_sum a b c d e <= 1.
Proof. unfold weighted_sum. intros. lra. Qed.

(** On a revision whose size delta is not null the scorer returns, and
    its score lies in the unit interval, as does the weighted sum before
    the final cap. *)
Lemma significance_score_bounds revision all_revisions index article_size
  user_edit_counts :
  sizediff revision <> Null ->
  exists size_change,
    size_change_of revision = Py.Ok size_change
    /\ let sum :=
         weighted_sum
           (normalized_size_change size_change article_size)
           (_calculate_revert_score revision all_revisions index)
           (experience_factor revision user_edit_counts)
           (discussion_score revision)
           (_calculate_edit_war_score revision all_revisions index) in
       _calculate_significance_score revision all_revisions index
                                     article_size user_edit_counts
       = Py.Ok (Qmin sum 1)
       /\ 0 <= sum <= 1 /\ 0 <= Qmin sum 1 <= 1.
Proof.
  intros Hnull. unfold _calculate_significance_score.
  assert (Hsc : exists size_change,
             size_change_of revision = Py.Ok size_change
             /\ (0 <= size_change)%Z).
  { unfold size_change_of. destruct (sizediff revision) as [| |z].
    - exists 0%Z; split; [reflexivity | lia].
    - congruence.
    - exists (Z.abs z); split; [reflexivity | lia]. }
  destruct Hsc as (size_change & Hsc & Hpos).
  exists size_change. split; [exact Hsc|]. rewrite Hsc. simpl.
  split; [reflexivity|].
  pose proof (weighted_sum_bounds _ _ _ _ _
                (normalized_size_change_bounds size_change article_size Hpos)
                (revert_score_bounds revision all_revisions index)
                (experience_factor_bounds revision user_edit_counts)
                (discussion_score_bounds revision)
                (edit_war_score_bounds revision all_revisions index)) as Hsum.
  split; [exact Hsum|].
  split; [apply Q.min_glb; lra | apply Q.le_min_r].
Qed.

End ScoreBounds.

(** C2 at the oldest revision of a batch: the scorer raises [TypeError]
    rather than return a score, and the ranking of the batch ends in the
    error result of the outermost [except]. *)
Theorem C2_null_sizediff_raises :
  Significance._calculate_significance_score
    batch_oldest [batch_newer; batch_oldest] 1 25000
    (Significance.count_user_edits [batch_newer; batch_oldest])
  = Py.Raise (Py.TypeError "bad operand type for abs(): 'NoneType'")
  /\ fst (Significance.get_significant_revisions
            (Page [batch_newer; batch_oldest]) Unbounded Unbounded 50 (1 # 2))
     = Significance.RankingError "bad operand type for abs(): 'NoneType'".
Proof. split; reflexivity. Qed.

(** ** Ranking *)

Section Ranking.
Import Significance.
Local Open Scope Q_scope.

Variable filtered_revisions : list Revision.
Variable current_size : Z.
Variable user_edit_counts : list (string * Z).
Variable min_significance : Q.

Lemma score_loop (entries : list (Z * Revision)) (acc : list scored) :
  Forall (fun entry => sizediff (snd entry) <> Null) entries ->
  exists scored_revisions,
    Py.for_each (score_step filtered_revisions current_size user_edit_counts
                            min_significance) entries acc
    = Py.Ok (acc ++ scored_revisions)
    /\ Forall2 (scores filtered_revisions current_size user_edit_counts
                     min_significance)
              (List.filter (passing filtered_revisions current_size
                                    user_edit_counts min_significance)
                           entries)
              scored_revisions.
Proof.
  revert acc; induction entries as [|[i rev] entries IH]; intros acc Hall.
  - exists []. rewrite app_nil_r. split; [reflexivity | constructor].
  - inversion Hall as [|? ? Hrev Hrest]; subst. simpl in Hrev.
    destruct (significance_score_bounds rev filtered_revisions i
                current_size user_edit_counts Hrev)
      as (size_change & Hsc & Hscore & _).
    cbn [Py.for_each]. unfold score_step at 1.
    unfold passing at 1. cbn [fst snd List.filter].
    rewrite Hscore. cbn [Py.bind].
    match goal with |- context [Qle_bool min_significance ?v] =>
      set (score := v) in *; destruct (Qle_bool min_significance score) eqn:Hpass
    end.
    + unfold _get_significance_factors at 1. rewrite Hsc. cbn [Py.bind].
      match goal with |- context [mk_scored rev _ ?f] => set (fac := f) end.
      destruct (IH (acc ++ [mk_scored rev (Py.round score 3) fac]) Hrest)
        as (rest & Hrun & Hrel).
      exists (mk_scored rev (Py.round score 3) fac :: rest).
      split.
      * rewrite Hrun, <- app_assoc. reflexivity.
      * constructor; [|exact Hrel].
        split; [reflexivity|]. exists score. cbn [fst snd].
        split; [exact Hscore|]. split; [apply Qle_bool_iff; exact Hpass|].
        split; [reflexivity|].
        unfold _get_significance_factors. rewrite Hsc. reflexivity.
    + destruct (IH acc Hrest) as (rest & Hrun & Hrel).
      exists rest. split; [exact Hrun | exact Hrel].
Qed.

End Ranking.

Lemma score_geb_total (a b : Significance.scored) :
  Significance.score_geb a b = true \/ Significance.score_geb b a = true.
Proof.
  unfold Significance.score_geb.
  destruct (Qlt_le_dec (Significance.significance_score a)
                       (Significance.significance_score b)) as [H|H].
  - right. apply Qle_bool_iff. apply Qlt_le_weak. exact H.
  - left. apply Qle_bool_iff. exact H.
Qed.

Lemma score_geb_trans (a b c : Significance.scored) :
  Significance.score_geb a b = true -> Significance.score_geb b c = true ->
  Significance.score_geb a c = true.
Proof.
  unfold Significance.score_geb. rewrite !Qle_bool_iff.
  intros H1 H2. eapply Qle_trans; eauto.
Qed.

Lemma snd_enumerate {A} (l : list A) : map snd (Significance.enumerate l) = l.
Proof.
  unfold Significance.enumerate, Py.range, Py.len.
  rewrite Z.sub_0_r, Nat2Z.id. generalize 0%Z.
  induction l as [|x l IH]; intros lo; [reflexivity|].
  simpl. rewrite IH. reflexivity.
Qed.

Lemma slice_to_nonneg {A} (l : list A) (k : Z) :
  0 <= k ->
  Py.slice_to l k = firstn (Z.to_nat k) l /\ Py.len (Py.slice_to l k) <= k.
Proof.
  intros Hk. unfold Py.slice_to.
  destruct (Z.ltb_spec k 0) as [H|_]; [lia|].
  split; [reflexivity|].
  unfold Py.len. pose proof (firstn_le_length (Z.to_nat k) l). lia.
Qed.

Lemma StronglySorted_weaken {A} (R R' : A -> A -> Prop) (l : list A) :
  (forall a b, R a b -> R' a b) -> StronglySorted R l -> StronglySorted R' l.
Proof.
  intros Himp; induction 1 as [|x l Hl IH Hx]; constructor; [exact IH|].
  eapply Forall_impl; [|exact Hx]. intros b; apply Himp.
Qed.

Lemma sorted_scored (scored_revisions : list Significance.scored) :
  let sorted := sort_desc Significance.score_geb scored_revisions in
  Permutation scored_revisions sorted
  /\ by_reported_score sorted
  /\ forall k, List.filter (ties k) sorted
               = List.filter (ties k) scored_revisions.
Proof.
  intros sorted. split; [apply sort_desc_perm|]. split.
  - eapply StronglySorted_weaken;
      [|apply (sort_desc_descending _ score_geb_total score_geb_trans)].
    intros a b H. apply Qle_bool_iff. exact H.
  - intros k. apply sort_desc_stable.
    intros x y Hx Hy. unfold ties in *.
    apply Qeq_bool_iff in Hx, Hy.
    apply Qle_bool_iff. rewrite Hx, Hy. apply Qle_refl.
Qed.

(** C1, as the code has it.  With fewer than 2 filtered revisions the
    ranking returns the insufficient-data result.  With 2 or more, none of
    them with a null size delta, and a limit that is not negative, it scores
    every filtered revision, keeps exactly those whose score is at least the
    threshold, in their order, each with its score rounded to 3 decimals;
    sorts the kept entries into descending order of the rounded score, the
    entries with equal rounded scores staying in their newest-first order;
    returns the first [limit] of them, so at most [limit]; and reports the
    number of filtered revisions and the number kept before the cut. *)
Theorem C1_significance_ranking (all_revisions : list Revision)
  (start_datetime end_datetime : bound) (limit : Z) (min_significance : Q) :
  let filtered :=
    snd (filter_revisions start_datetime end_datetime all_revisions) in
  let current_size :=
    match filtered with
    | first :: _ => get_or (size first) 1000
    | [] => 1000
    end in
  let user_edit_counts := Significance.count_user_edits filtered in
  let result :=
    fst (Significance.get_significant_revisions (Page all_revisions)
           start_datetime end_datetime limit min_significance) in
  (Py.len filtered < 2 -> result = Significance.RankingInsufficient)
  /\ (2 <= Py.len filtered ->
      Forall (fun rev => sizediff rev <> Null) filtered ->
      0 <= limit ->
      exists scored_revisions sorted,
        result = Significance.RankingReport
                   (Py.len filtered) (Py.len scored_revisions)
                   min_significance (firstn (Z.to_nat limit) sorted)
        /\ (forall entry,
               In entry (Significance.enumerate filtered) ->
               exists score,
                 Significance._calculate_significance_score
                   (snd entry) filtered (fst entry) current_size
                   user_edit_counts = Py.Ok score
                 /\ (passing filtered current_size user_edit_counts
                             min_significance entry = true
                     <-> (min_significance <= score)%Q))
        /\ Forall2 (scores filtered current_size user_edit_counts
                           min_significance)
                   (List.filter (passing filtered current_size
                                         user_edit_counts min_significance)
                                (Significance.enumerate filtered))
                   scored_revisions
        /\ Permutation scored_revisions sorted
        /\ by_reported_score sorted
        /\ (forall k, List.filter (ties k) sorted
                      = List.filter (ties k) scored_revisions)
        /\ Py.len (firstn (Z.to_nat limit) sorted) <= limit).
Proof.
  intros filtered current_size user_edit_counts result.
  subst result. unfold Significance.get_significant_revisions.
  subst current_size user_edit_counts filtered.
  destruct (filter_revisions start_datetime end_datetime all_revisions)
    as [store filtered]. cbn [snd].
  unfold Significance.rank_filtered.
  destruct (Z.ltb_spec (Py.len filtered) 2) as [Hfew|Hmany].
  - split; [reflexivity | lia].
  - split; [lia|]. intros _ Hnull Hlimit.
    destruct (score_loop filtered
                (match filtered with
                 | first :: _ => get_or (size first) 1000
                 | [] => 1000
                 end)
                (Significance.count_user_edits filtered) min_significance
                (Significance.enumerate filtered) [])
      as (scored_revisions & Hrun & Hrel).
    { rewrite <- (snd_enumerate filtered) in Hnull.
      rewrite Forall_map in Hnull. exact Hnull. }
    assert (Hall : forall entry,
               In entry (Significance.enumerate filtered) ->
               exists score,
                 Significance._calculate_significance_score
                   (snd entry) filtered (fst entry)
                   (match filtered with
                    | first :: _ => get_or (size first) 1000
                    | [] => 1000
                    end)
                   (Significance.count_user_edits filtered) = Py.Ok score
                 /\ (passing filtered
                             (match filtered with
                              | first :: _ => get_or (size first) 1000
                              | [] => 1000
                              end)
                             (Significance.count_user_edits filtered)
                             min_significance entry = true
                     <-> (min_significance <= score)%Q)).
    { intros entry Hin.
      assert (Hentry : sizediff (snd entry) <> Null).
      { rewrite <- (snd_enumerate filtered), Forall_map, Forall_forall
          in Hnull. apply Hnull, Hin. }
      destruct (significance_score_bounds (snd entry) filtered (fst entry)
                  (match filtered with
                   | first :: _ => get_or (size first) 1000
                   | [] => 1000
                   end)
                  (Significance.count_user_edits filtered) Hentry)
        as (size_change & _ & Hscore & _).
      eexists. split; [exact Hscore|].
      unfold passing. rewrite Hscore. apply Qle_bool_iff. }
    rewrite Hrun. cbn [Py.bind app fst].
    destruct (sorted_scored scored_revisions) as (Hperm & Hsorted & Hstable).
    destruct (slice_to_nonneg
                (sort_desc Significance.score_geb scored_revisions) limit
                Hlimit) as [Hslice Hlen].
    exists scored_revisions,
      (sort_desc Significance.score_geb scored_revisions).
    rewrite Hslice in *.
    repeat split; assumption.
Qed.

Lemma C1_significance_ranking_witness :
  exists scored_revisions sorted,
    fst (Significance.get_significant_revisions
           (Page ranking_test) (At (mk_datetime 2024 1 1 0 0 0 0))
           (At (mk_datetime 2024 1 5 0 0 0 0)) 10 (3 # 10))
    = Significance.RankingReport 4 (Py.len scored_revisions) (3 # 10)
                                 (firstn 10 sorted)
    /\ Permutation scored_revisions sorted
    /\ by_reported_score sorted.
Proof.
  destruct (C1_significance_ranking ranking_test
              (At (mk_datetime 2024 1 1 0 0 0 0))
              (At (mk_datetime 2024 1 5 0 0 0 0)) 10 (3 # 10))
    as [_ Hreport].
  destruct Hreport as (scored_revisions & sorted & Hres & _ & _ & Hperm
                       & Hsorted & _).
  - vm_compute. discriminate.
  - repeat constructor; discriminate.
  - lia.
  - exists scored_revisions, sorted.
    split; [exact Hres|]. split; [exact Hperm | exact Hsorted].
Defined.

(** C1, as stated, fails in three ways.  (1) Revision 2 scores 0.21003 and
    revision 1 scores 0.21006; both are reported as 0.210 and stay in their
    newest-first order, so the list is not in descending order of the score.
    (2) With the limit -1 the same two revisions give a list of one entry,
    which is more than the limit.  (3) With a null size delta among two
    filtered revisions the result is an error. *)
Lemma C1_counterexample :
  let newer := ranked 2 12 "A" 100000 (Int 1) in
  let older := ranked 1 10 "B" 99999 (Int 2) in
  let filtered := snd (filter_revisions Unbounded Unbounded [newer; older]) in
  let counts := Significance.count_user_edits filtered in
  (exists s_newer s_older,
      Significance._calculate_significance_score
        (set_parsed_timestamp newer (mk_datetime 2024 1 1 12 0 0 0))
        filtered 0 100000 counts = Py.Ok s_newer
      /\ Significance._calculate_significance_score
           (set_parsed_timestamp older (mk_datetime 2024 1 1 10 0 0 0))
           filtered 1 100000 counts = Py.Ok s_older
      /\ (s_newer == 21003 # 100000)%Q /\ (s_older == 21006 # 100000)%Q
      /\ (s_newer < s_older)%Q
      /\ (Py.round s_newer 3 == 210 # 1000)%Q
      /\ (Py.round s_older 3 == 210 # 1000)%Q
      /\ map fst (reported (fst (Significance.get_significant_revisions
                                   (Page [newer; older]) Unbounded Unbounded
                                   50 (1 # 10))))
         = [Some 2; Some 1])
  /\ (Py.len (reported (fst (Significance.get_significant_revisions
                               (Page [newer; older]) Unbounded Unbounded
                               (-1) (1 # 10)))) = 1
      /\ ~ (1 <= -1))
  /\ (Py.len (snd (filter_revisions Unbounded Unbounded
                     [newer; ranked 1 10 "B" 99999 Null])) = 2
      /\ fst (Significance.get_significant_revisions
                (Page [newer; ranked 1 10 "B" 99999 Null]) Unbounded Unbounded
                50 (1 # 10))
         = Significance.RankingError "bad operand type for abs(): 'NoneType'").
Proof.
  cbv zeta. split; [|split].
  - eexists; eexists. split; [vm_compute; reflexivity|].
    split; [vm_compute; reflexivity|].
    repeat split; vm_compute; reflexivity.
  - split; [vm_compute; reflexivity | lia].
  - split; vm_compute; reflexivity.
Qed.

(** ** Spike detection *)

Section Spikes.
Import Activity.
Local Open Scope R_scope.

Lemma Rgeb_true (a b : R) : Rgeb a b = true <-> b <= a.
Proof.
  unfold Rgeb. destruct (Rle_dec b a); split; auto; discriminate.
Qed.

Lemma is_spike_spec z_threshold grouped w :
  is_spike z_threshold
           (mean (edit_counts_of grouped))
           (guarded_stdev (edit_counts_of grouped))
           (mean (editor_counts_of grouped))
           (guarded_stdev (editor_counts_of grouped)) w = true
  <-> z_threshold <= edit_z grouped w \/ z_threshold <= editor_z grouped w.
Proof.
  unfold is_spike, edit_z, editor_z.
  rewrite orb_true_iff, !Rgeb_true. reflexivity.
Qed.

(** A window label is in the spike list exactly when a window of that
    label passes the test of the loop. *)
Lemma spike_windows z_threshold grouped key :
  In key (map spike_window (spikes_of z_threshold grouped))
  <-> exists w, In (key, w) grouped
                /\ (z_threshold <= edit_z grouped w
                    \/ z_threshold <= editor_z grouped w).
Proof.
  unfold spikes_of, detect_spikes. rewrite in_map_iff. split.
  - intros (sp & Hkey & Hin).
    apply sort_desc_in in Hin. apply in_map_iff in Hin.
    destruct Hin as ([k w] & Hsp & Hin).
    apply filter_In in Hin. destruct Hin as [Hin Hflag].
    subst sp. simpl in Hkey. subst k.
    exists w. split; [exact Hin|]. apply is_spike_spec. exact Hflag.
  - intros (w & Hin & Hflag).
    eexists. split; [|apply sort_desc_in, in_map_iff].
    2:{ exists (key, w). split; [reflexivity|].
        apply filter_In. split; [exact Hin|].
        apply is_spike_spec. exact Hflag. }
    reflexivity.
Qed.

Lemma squared_deviations_nonneg (m : R) (data : list Z) :
  0 <= squared_deviations m data.
Proof.
  induction data as [|x data IH]; simpl; [lra|].
  pose proof (Rle_0_sqr (IZR x - m)) as H. unfold Rsqr in H. lra.
Qed.

Lemma squared_deviations_member (m : R) (data : list Z) (c : Z) :
  In c data -> (IZR c - m) * (IZR c - m) <= squared_deviations m data.
Proof.
  induction data as [|x data IH]; simpl; [contradiction|].
  intros [->|Hin].
  - pose proof (squared_deviations_nonneg m data). lra.
  - pose proof (IH Hin).
    pose proof (Rle_0_sqr (IZR x - m)) as H0. unfold Rsqr in H0. lra.
Qed.

(** A count below the mean of its series has a negative z-score: the
    series then has a positive standard deviation. *)
Lemma below_mean_negative (data : list Z) (c : Z) :
  (1 < Py.len data)%Z -> In c data -> IZR c < mean data ->
  z_score c (mean data) (guarded_stdev data) < 0.
Proof.
  intros Hlen Hin Hbelow.
  unfold guarded_stdev. destruct (Z.ltb_spec 1 (Py.len data)); [|lia].
  assert (Hsd : 0 < stdev data).
  { unfold stdev. apply sqrt_lt_R0.
    assert (Hn : 0 < IZR (Py.len data) - 1).
    { apply IZR_lt in Hlen. lra. }
    pose proof (squared_deviations_member (mean data) data c Hin) as Hsq.
    assert (Hpos : 0 < (IZR c - mean data) * (IZR c - mean data)) by nra.
    apply Rdiv_lt_0_compat; lra. }
  unfold z_score. destruct (Rlt_dec 0 (stdev data)) as [_|Hn]; [|lra].
  assert (Hinv : 0 < / stdev data) by (apply Rinv_0_lt_compat; exact Hsd).
  unfold Rdiv. nra.
Qed.

Lemma analyze_edit_activity_grouped all_revisions s e window_size
  z_threshold :
  let filtered := snd (filter_revisions s e all_revisions) in
  exists grouped,
    group_revisions window_size filtered = Py.Ok grouped
    /\ grouped_ok window_size filtered grouped
    /\ fst (analyze_edit_activity (Page all_revisions) s e window_size
                                  z_threshold)
       = analyze_grouped filtered grouped z_threshold.
Proof.
  intros filtered.
  destruct (group_revisions_ok window_size filtered) as (grouped & Hrun & Hok).
  { apply filter_revisions_parsed. }
  exists grouped. split; [exact Hrun|]. split; [exact Hok|].
  unfold analyze_edit_activity. subst filtered.
  destruct (filter_revisions s e all_revisions) as [store filtered].
  cbn [snd] in Hrun. rewrite Hrun. reflexivity.
Qed.

Lemma analyze_grouped_cases filtered grouped z_threshold :
  ((Py.len grouped < 3)%Z
   /\ analyze_grouped filtered grouped z_threshold
      = AnalysisInsufficient (Py.len grouped))
  \/ ((3 <= Py.len grouped)%Z
      /\ analyze_grouped filtered grouped z_threshold
         = AnalysisReport
             (Py.len grouped) (Py.len filtered)
             (describe (edit_counts_of grouped)
                       (mean (edit_counts_of grouped))
                       (guarded_stdev (edit_counts_of grouped)))
             (describe (editor_counts_of grouped)
                       (mean (editor_counts_of grouped))
                       (guarded_stdev (editor_counts_of grouped)))
             (spikes_of z_threshold grouped)).
Proof.
  unfold analyze_grouped.
  assert (Hlen : Py.len (map (fun entry : string * window =>
                                edit_count (snd entry)) grouped)
                 = Py.len grouped)
    by (unfold Py.len; rewrite length_map; reflexivity).
  rewrite Hlen.
  destruct (Z.ltb_spec (Py.len grouped) 3); [left | right];
    (split; [assumption | reflexivity]).
Qed.

End Spikes.

(** C5. The analysis of an existing page never raises; it returns the
    insufficient-data result exactly when aggregation leaves fewer than 3
    windows, which have distinct labels, and with 3 windows or more it
    returns the report with the statistics and the spike list. *)
Theorem C5_insufficient_windows (all_revisions : list Revision)
  (start_datetime end_datetime : bound) (window_size : string)
  (z_threshold : R) :
  let filtered :=
    snd (filter_revisions start_datetime end_datetime all_revisions) in
  let result :=
    fst (Activity.analyze_edit_activity (Page all_revisions) start_datetime
           end_datetime window_size z_threshold) in
  exists grouped,
    Activity.group_revisions window_size filtered = Py.Ok grouped
    /\ NoDup (map fst grouped)
    /\ (Py.len grouped < 3 ->
        result = Activity.AnalysisInsufficient (Py.len grouped))
    /\ (3 <= Py.len grouped ->
        result = Activity.AnalysisReport
                   (Py.len grouped) (Py.len filtered)
                   (Activity.describe
                      (edit_counts_of grouped)
                      (Activity.mean (edit_counts_of grouped))
                      (Activity.guarded_stdev (edit_counts_of grouped)))
                   (Activity.describe
                      (editor_counts_of grouped)
                      (Activity.mean (editor_counts_of grouped))
                      (Activity.guarded_stdev (editor_counts_of grouped)))
                   (spikes_of z_threshold grouped))
    /\ ((exists n, result = Activity.AnalysisInsufficient n)
        <-> Py.len grouped < 3).
Proof.
  intros filtered result.
  destruct (analyze_edit_activity_grouped all_revisions start_datetime
              end_datetime window_size z_threshold)
    as (grouped & Hrun & Hok & Hres).
  fold filtered in Hrun, Hok, Hres. fold result in Hres.
  exists grouped. split; [exact Hrun|]. split; [apply Hok|].
  destruct (analyze_grouped_cases filtered grouped z_threshold)
    as [[Hlen Hcase]|[Hlen Hcase]]; rewrite Hcase in Hres.
  - split; [intros _; exact Hres|]. split; [lia|].
    split; [intros _; exact Hlen | intros _; eexists; exact Hres].
  - split; [lia|]. split; [intros _; exact Hres|].
    split; [|lia]. intros [n Hn]. rewrite Hres in Hn. discriminate.
Qed.

(** C4, as the code has it.  When the analysis runs, a window is in the
    spike list exactly when its edit z-score or its editor z-score is at
    least the threshold; and with a threshold that is not negative, a window
    whose edit count and editor count both lie below their means is not in
    the list. *)
Theorem C4_spike_upper_tail (all_revisions : list Revision)
  (start_datetime end_datetime : bound) (window_size : string)
  (z_threshold : R) (grouped : list (string * Activity.window)) :
  let filtered :=
    snd (filter_revisions start_datetime end_datetime all_revisions) in
  Activity.group_revisions window_size filtered = Py.Ok grouped ->
  3 <= Py.len grouped ->
  exists total_windows total_revisions edit_statistics editor_statistics
         spikes,
    fst (Activity.analyze_edit_activity (Page all_revisions) start_datetime
           end_datetime window_size z_threshold)
    = Activity.AnalysisReport total_windows total_revisions edit_statistics
                              editor_statistics spikes
    /\ (forall key,
           In key (map Activity.spike_window spikes) <->
           exists w, In (key, w) grouped
                     /\ (z_threshold <= edit_z grouped w
                         \/ z_threshold <= editor_z grouped w)%R)
    /\ ((0 <= z_threshold)%R ->
        forall key w,
          In (key, w) grouped ->
          (IZR (Activity.edit_count w)
           < Activity.mean (edit_counts_of grouped))%R ->
          (IZR (Activity.editor_count_of w)
           < Activity.mean (editor_counts_of grouped))%R ->
          ~ In key (map Activity.spike_window spikes)).
Proof.
  intros filtered Hrun Hlen.
  destruct (analyze_edit_activity_grouped all_revisions start_datetime
              end_datetime window_size z_threshold)
    as (g & Hrun' & Hok & Hres).
  fold filtered in Hrun', Hok, Hres.
  rewrite Hrun in Hrun'. injection Hrun' as <-.
  destruct (analyze_grouped_cases filtered grouped z_threshold)
    as [[Hfew _]|[_ Hcase]]; [lia|].
  rewrite Hcase in Hres.
  do 5 eexists. split; [exact Hres|]. split; [apply spike_windows|].
  intros Hthr key w Hin Hedit Heditor Hspike.
  apply spike_windows in Hspike. destruct Hspike as (w' & Hin' & Hflag).
  assert (w' = w) by (eapply keys_functional; eauto; apply Hok). subst w'.
  assert (Hcount : 1 < Py.len (edit_counts_of grouped)
                   /\ 1 < Py.len (editor_counts_of grouped)).
  { unfold edit_counts_of, editor_counts_of, Py.len in *.
    rewrite !length_map. lia. }
  assert (Hez : (edit_z grouped w < 0)%R).
  { apply below_mean_negative; [apply Hcount | | exact Hedit].
    unfold edit_counts_of.
    apply (in_map (fun entry => Activity.edit_count (snd entry))) in Hin.
    exact Hin. }
  assert (Hrz : (editor_z grouped w < 0)%R).
  { apply below_mean_negative; [apply Hcount | | exact Heditor].
    unfold editor_counts_of.
    apply (in_map (fun entry => Activity.editor_count_of (snd entry))) in Hin.
    exact Hin. }
  destruct Hflag; lra.
Qed.

Lemma three_days_mean : Activity.mean [3; 2; 1] = 2%R.
Proof. unfold Activity.mean, Activity.total, Py.len. simpl. lra. Qed.

Lemma three_days_stdev : Activity.guarded_stdev [3; 2; 1] = 1%R.
Proof.
  unfold Activity.guarded_stdev, Activity.stdev. simpl.
  rewrite three_days_mean. unfold Py.len. simpl.
  replace ((3 - 2) * (3 - 2) + ((2 - 2) * (2 - 2) + ((1 - 2) * (1 - 2) + 0)))%R
    with 2%R by lra.
  replace (2 / (3 - 1))%R with 1%R by lra.
  apply sqrt_1.
Qed.

Lemma C4_spike_upper_tail_witness :
  exists total_windows total_revisions edit_statistics editor_statistics
         spikes,
    fst (Activity.analyze_edit_activity (Page three_days) Unbounded Unbounded
                                        "day" 2%R)
    = Activity.AnalysisReport total_windows total_revisions edit_statistics
                              editor_statistics spikes
    /\ ~ In "2024-01-01"%string (map Activity.spike_window spikes).
Proof.
  destruct (C4_spike_upper_tail three_days Unbounded Unbounded "day" 2%R
              three_days_grouped eq_refl)
    as (tw & tr & es & eds & spikes & Hres & _ & Hbelow).
  - vm_compute. discriminate.
  - exists tw, tr, es, eds, spikes. split; [exact Hres|].
    eapply Hbelow.
    + lra.
    + right; right; left; reflexivity.
    + change (edit_counts_of three_days_grouped) with [3; 2; 1].
      rewrite three_days_mean. simpl. lra.
    + change (editor_counts_of three_days_grouped) with [3; 2; 1].
      rewrite three_days_mean.
      unfold Activity.editor_count_of, Py.len. simpl. lra.
Defined.

(** C4, as stated, fails for a negative threshold: with the threshold -1 the
    window of 2024-01-01, whose edit count 1 and editor count 1 both lie
    below the means 2, is in the spike list. *)
Lemma C4_counterexample :
  exists w,
    In ("2024-01-01"%string, w) three_days_grouped
    /\ Activity.group_revisions
         "day" (snd (filter_revisions Unbounded Unbounded three_days))
       = Py.Ok three_days_grouped
    /\ (IZR (Activity.edit_count w)
        < Activity.mean (edit_counts_of three_days_grouped))%R
    /\ (IZR (Activity.editor_count_of w)
        < Activity.mean (editor_counts_of three_days_grouped))%R
    /\ exists total_windows total_revisions edit_statistics editor_statistics
              spikes,
        fst (Activity.analyze_edit_activity (Page three_days) Unbounded
               Unbounded "day" (-1)%R)
        = Activity.AnalysisReport total_windows total_revisions
                                  edit_statistics editor_statistics spikes
        /\ In "2024-01-01"%string (map Activity.spike_window spikes).
Proof.
  eexists. split; [right; right; left; reflexivity|].
  split; [reflexivity|].
  change (edit_counts_of three_days_grouped) with [3; 2; 1].
  change (editor_counts_of three_days_grouped) with [3; 2; 1].
  rewrite three_days_mean.
  split; [simpl; lra|].
  split; [unfold Activity.editor_count_of, Py.len; simpl; lra|].
  destruct (analyze_edit_activity_grouped three_days Unbounded Unbounded
              "day" (-1)%R) as (g & Hrun & _ & Hres).
  change (Activity.group_revisions
            "day" (snd (filter_revisions Unbounded Unbounded three_days)))
    with (Py.Ok three_days_grouped) in Hrun.
  injection Hrun as <-.
  destruct (analyze_grouped_cases
              (snd (filter_revisions Unbounded Unbounded three_days))
              three_days_grouped (-1)%R) as [[Hfew _]|[_ Hcase]].
  { vm_compute in Hfew. discriminate. }
  rewrite Hcase in Hres.
  do 5 eexists. split; [exact Hres|].
  apply spike_windows. eexists.
  split; [right; right; left; reflexivity|].
  left. unfold edit_z.
  change (edit_counts_of three_days_grouped) with [3; 2; 1].
  rewrite three_days_mean, three_days_stdev.
  unfold Activity.z_score. destruct (Rlt_dec 0 1) as [_|H]; [|lra].
  simpl. lra.
Qed.

(** * Further properties *)

(** ** The size changes of a batch *)

Lemma add_sizediff_cons (rev next : Revision) (rest : list Revision) :
  Source.add_sizediff (rev :: next :: rest)
  = (s <- Source.size_of rev ;;
     s' <- Source.size_of next ;;
     rest' <- Source.add_sizediff (next :: rest) ;;
     Py.Ok (Source.set_sizediff rev (Int (s - s')) :: rest')).
Proof. reflexivity. Qed.

(** A processed batch, taken apart: its revisions but the last have a
    number as size change, the last has [None]. *)
Lemma add_sizediff_shape (revisions processed : list Revision) :
  Source.add_sizediff revisions = Py.Ok processed ->
  Forall2 same_but_sizediff revisions processed
  /\ (processed = []
      \/ exists init oldest,
          processed = init ++ [oldest]
          /\ Forall (fun rev => exists d, sizediff rev = Int d) init
          /\ sizediff oldest = Null).
Proof.
  revert processed.
  induction revisions as [|rev rest IH]; intros processed Hrun.
  - injection Hrun as <-. split; [constructor | left; reflexivity].
  - destruct rest as [|next rest].
    + injection Hrun as <-. split.
      * constructor; [repeat split | constructor].
      * right. exists [], (Source.set_sizediff rev Null).
        repeat split. constructor.
    + rewrite add_sizediff_cons in Hrun. unfold Source.size_of in Hrun.
      destruct (size rev) as [s|]; [|discriminate].
      destruct (size next) as [s'|]; [|discriminate].
      cbn [Py.bind] in Hrun.
      destruct (Source.add_sizediff (next :: rest)) as [rest'|e] eqn:Hrest;
        [|discriminate].
      injection Hrun as <-.
      destruct (IH rest' eq_refl) as [Hsame Hshape]. split.
      * constructor; [repeat split | exact Hsame].
      * right. destruct Hshape as [->|(init & oldest & -> & Hinit & Hnull)].
        { inversion Hsame. }
        exists (Source.set_sizediff rev (Int (s - s')) :: init), oldest.
        repeat split; [|exact Hnull].
        constructor; [eexists; reflexivity | exact Hinit].
Qed.

(** X1. When the size-change loop of [get_page_revisions] completes, the
    batch keeps its length and every key but [sizediff]; a revision followed
    by another gets the difference of their two sizes, and the last revision
    gets [None]. *)
Theorem X1_sizediff_of_batch (revisions processed : list Revision) :
  Source.add_sizediff revisions = Py.Ok processed ->
  Forall2 same_but_sizediff revisions processed
  /\ (forall i rev next,
         nth_error processed i = Some rev ->
         nth_error processed (S i) = Some next ->
         exists s s', size rev = Some s /\ size next = Some s'
                      /\ sizediff rev = Int (s - s'))
  /\ (forall i rev,
         nth_error processed i = Some rev ->
         nth_error processed (S i) = None ->
         sizediff rev = Null).
Proof.
  revert processed.
  induction revisions as [|rev rest IH]; intros processed Hrun.
  - injection Hrun as <-. split; [constructor|].
    split; intros [|i] ? ; discriminate.
  - destruct rest as [|next rest].
    + injection Hrun as <-. split; [|split].
      * constructor; [repeat split | constructor].
      * intros [|i] r n H1 H2; [discriminate H2|].
        destruct i; discriminate H1.
      * intros [|i] r H1 _; [injection H1 as <-; reflexivity|].
        destruct i; discriminate H1.
    + rewrite add_sizediff_cons in Hrun. unfold Source.size_of in Hrun.
      destruct (size rev) as [s|] eqn:Hs; [|discriminate].
      destruct (size next) as [s'|] eqn:Hs'; [|discriminate].
      cbn [Py.bind] in Hrun.
      destruct (Source.add_sizediff (next :: rest)) as [rest'|e] eqn:Hrest;
        [|discriminate].
      injection Hrun as <-.
      destruct (IH rest' eq_refl) as (Hsame & Hdiff & Hlast).
      split; [|split].
      * constructor; [repeat split | exact Hsame].
      * intros [|i] r n H1 H2.
        -- injection H1 as <-. simpl in H2.
           inversion Hsame as [|? n' ? ? Hn _]; subst. simpl in H2.
           injection H2 as <-.
           exists s, s'. split; [exact Hs|]. split; [|reflexivity].
           destruct Hn as (_ & _ & _ & _ & Hsz & _). congruence.
        -- simpl in H1, H2. eapply Hdiff; eauto.
      * intros [|i] r H1 H2.
        -- inversion Hsame; subst. discriminate H2.
        -- simpl in H1, H2. eapply Hlast; eauto.
Qed.

Lemma X1_sizediff_of_batch_witness :
  Forall2 same_but_sizediff
    [raw 3 25000 12; raw 2 24950 11; raw 1 25000 10]
    [Source.set_sizediff (raw 3 25000 12) (Int 50);
     Source.set_sizediff (raw 2 24950 11) (Int (-50));
     Source.set_sizediff (raw 1 25000 10) Null].
Proof.
  exact (proj1 (X1_sizediff_of_batch
                  [raw 3 25000 12; raw 2 24950 11; raw 1 25000 10]
                  _ eq_refl)).
Defined.

Lemma last_cons_default {A} (x : A) (l : list A) (d d' : A) :
  last (x :: l) d = last (x :: l) d'.
Proof.
  revert x; induction l as [|y l IH]; intros x; [reflexivity|].
  change (last (x :: y :: l) d) with (last (y :: l) d).
  change (last (x :: y :: l) d') with (last (y :: l) d').
  apply IH.
Qed.

Lemma total_sizediff_app (l1 l2 : list Revision) :
  total_sizediff (l1 ++ l2) = total_sizediff l1 + total_sizediff l2.
Proof.
  induction l1 as [|rev l1 IH]; simpl; [reflexivity|].
  destruct (sizediff rev); lia.
Qed.

(** X2. The size changes of a processed batch telescope: they add up to
    the size of the newest revision minus the size of the oldest. *)
Theorem X2_sizediff_telescopes (revisions processed : list Revision)
  (newest : Revision) (rest : list Revision) (a b : Z) :
  Source.add_sizediff revisions = Py.Ok processed ->
  processed = newest :: rest ->
  size newest = Some a ->
  size (last processed newest) = Some b ->
  total_sizediff processed = a - b.
Proof.
  revert processed newest rest a b.
  induction revisions as [|rev others IH];
    intros processed newest rest a b Hrun Hshape Ha Hb.
  - injection Hrun as <-. discriminate.
  - destruct others as [|next others].
    + injection Hrun as <-. injection Hshape as <- <-.
      simpl in *. rewrite Ha in Hb. injection Hb as <-. lia.
    + rewrite add_sizediff_cons in Hrun. unfold Source.size_of in Hrun.
      destruct (size rev) as [s|] eqn:Hs; [|discriminate].
      destruct (size next) as [s'|] eqn:Hs'; [|discriminate].
      cbn [Py.bind] in Hrun.
      destruct (Source.add_sizediff (next :: others)) as [rest'|e] eqn:Hrest;
        [|discriminate].
      injection Hrun as <-. injection Hshape as <- <-.
      simpl in Ha. rewrite Hs in Ha. injection Ha as <-.
      destruct (add_sizediff_shape _ _ Hrest) as [Hsame _].
      inversion Hsame as [|? next' ? rest'' Hn Hrest2]; subst.
      assert (Hsn : size next' = Some s').
      { destruct Hn as (_ & _ & _ & _ & Hsz & _). congruence. }
      change (total_sizediff
                (Source.set_sizediff rev (Int (s - s')) :: next' :: rest''))
        with (s - s' + total_sizediff (next' :: rest'')).
      rewrite (IH (next' :: rest'') next' rest'' s' b eq_refl eq_refl Hsn).
      * lia.
      * rewrite <- Hb.
        change (last (Source.set_sizediff rev (Int (s - s')) :: next' :: rest'')
                     (Source.set_sizediff rev (Int (s - s'))))
          with (last (next' :: rest'')
                     (Source.set_sizediff rev (Int (s - s')))).
        f_equal. apply last_cons_default.
Qed.

Lemma X2_sizediff_telescopes_witness :
  total_sizediff [Source.set_sizediff (raw 3 25000 12) (Int 50);
                  Source.set_sizediff (raw 2 24950 11) (Int (-50));
                  Source.set_sizediff (raw 1 25000 10) Null]
  = 25000 - 25000.
Proof.
  exact (X2_sizediff_telescopes
           [raw 3 25000 12; raw 2 24950 11; raw 1 25000 10] _ _ _ 25000 25000
           eq_refl eq_refl eq_refl eq_refl).
Defined.

Lemma add_sizediff_cases (revisions : list Revision) :
  (exists processed,
      Source.add_sizediff revisions = Py.Ok processed
      /\ ((List.length revisions <= 1)%nat
          \/ Forall (fun rev => size rev <> None) revisions))
  \/ (Source.add_sizediff revisions = Py.Raise (Py.KeyError "size")
      /\ (2 <= List.length revisions)%nat
      /\ Exists (fun rev => size rev = None) revisions).
Proof.
  induction revisions as [|rev rest IH].
  - left. exists []. split; [reflexivity | left; simpl; lia].
  - destruct rest as [|next rest].
    + left. eexists. split; [reflexivity | left; simpl; lia].
    + rewrite add_sizediff_cons. unfold Source.size_of.
      destruct (size rev) as [s|] eqn:Hs.
      2:{ right. split; [reflexivity|]. split; [simpl; lia|].
          apply Exists_cons_hd. exact Hs. }
      destruct (size next) as [s'|] eqn:Hs'.
      2:{ right. split; [reflexivity|]. split; [simpl; lia|].
          apply Exists_cons_tl, Exists_cons_hd. exact Hs'. }
      cbn [Py.bind].
      destruct IH as [(rest' & Hrest & Hall)|(Hrest & _ & Hex)];
        rewrite Hrest; cbn [Py.bind].
      * left. eexists. split; [reflexivity|]. right.
        constructor; [congruence|].
        destruct Hall as [Hone|Hall]; [|exact Hall].
        destruct rest; [|simpl in Hone; lia].
        constructor; [congruence | constructor].
      * right. split; [reflexivity|]. split; [simpl; lia|].
        apply Exists_cons_tl. exact Hex.
Qed.

(** X3. For a page that exists, [get_page_revisions] returns the revisions
    unless the batch has 2 revisions or more and one of them lacks the key
    [size]; it then returns the error result with the text of the
    [KeyError]. *)
Theorem X3_batch_needs_sizes (title page_id : string)
  (page : Source.page_data) (others : list (string * Source.page_data)) :
  page_id <> EmptyString -> page_id <> "-1"%string ->
  let batch := get_or (Source.page_revisions page) [] in
  let result := Source.get_page_revisions title ((page_id, page) :: others) in
  ((2 <= List.length batch)%nat /\ Exists (fun rev => size rev = None) batch ->
   result = Source.RevisionsError title "'size'")
  /\ ((List.length batch <= 1)%nat
      \/ Forall (fun rev => size rev <> None) batch ->
      exists processed,
        Source.add_sizediff batch = Py.Ok processed
        /\ result = Source.RevisionsFound
                      (get_or (Source.page_title page) title)
                      (Source.page_pageid page) processed).
Proof.
  intros Hid1 Hid2 batch result. subst result.
  unfold Source.get_page_revisions.
  destruct (String.eqb_spec page_id EmptyString); [contradiction|].
  destruct (String.eqb_spec page_id "-1"); [contradiction|].
  cbn [orb]. fold batch.
  destruct (add_sizediff_cases batch)
    as [(processed & Hrun & Hall)|(Hrun & Hlen & Hex)]; rewrite Hrun.
  - split.
    + intros [Hlen Hex]. exfalso.
      destruct Hall as [Hone|Hall]; [lia|].
      rewrite Exists_exists in Hex. destruct Hex as (rev & Hin & Hnone).
      rewrite Forall_forall in Hall. exact (Hall rev Hin Hnone).
    + intros _. exists processed. split; reflexivity.
  - split; [intros _; reflexivity|].
    intros [Hone|Hall]; [lia|]. exfalso.
    rewrite Exists_exists in Hex. destruct Hex as (rev & Hin & Hnone).
    rewrite Forall_forall in Hall. exact (Hall rev Hin Hnone).
Qed.

Lemma X3_batch_needs_sizes_witness :
  Source.get_page_revisions
    "Test" [("4242"%string,
             Source.mk_page_data (Some "Test"%string) (Some 4242)
               (Some [raw 2 1000 11; sizeless 1 10]))]
  = Source.RevisionsError "Test" "'size'".
Proof.
  apply (X3_batch_needs_sizes "Test" "4242"
           (Source.mk_page_data (Some "Test"%string) (Some 4242)
              (Some [raw 2 1000 11; sizeless 1 10])) []);
    try discriminate.
  split; [simpl; lia|].
  apply Exists_cons_tl, Exists_cons_hd. reflexivity.
Defined.

(** ** The date-range filter, continued *)


Lemma filter_revisions_filtered (s e : bound) (all_revisions : list Revision) :
  snd (filter_revisions s e all_revisions)
  = map (annotated s e) (List.filter (kept s e) all_revisions).
Proof.
  induction all_revisions as [|rev rest IH]; [reflexivity|].
  simpl. destruct (filter_revisions s e rest) as [store filtered].
  simpl in IH. unfold kept at 1, annotated at 1.
  destruct (in_range s e rev) eqn:E; simpl; rewrite IH; [|reflexivity].
  unfold annotated. rewrite E. reflexivity.
Qed.


Lemma in_range_unparseable (s e : bound) (rev : Revision) :
  in_range Unparseable e rev = None /\ in_range s Unparseable rev = None.
Proof.
  unfold in_range. destruct (timestamp rev) as [t|]; [|split; reflexivity].
  split; [reflexivity|].
  destruct s as [| |start_time]; simpl; try reflexivity.
  destruct (Datetime.ltb t start_time); reflexivity.
Qed.

Lemma filter_revisions_drops_all (s e : bound) (all_revisions : list Revision) :
  (forall rev, in_range s e rev = None) ->
  filter_revisions s e all_revisions = (all_revisions, []).
Proof.
  intros Hnone. induction all_revisions as [|rev rest IH]; [reflexivity|].
  simpl. rewrite IH, Hnone. reflexivity.
Qed.

(** X6. A start or end bound that does not parse is not reported as such:
    every revision is dropped, untouched, so that the activity analysis
    returns the insufficient-data result with 0 windows and the ranking
    returns its insufficient-data result. *)
Theorem X6_unparseable_bound (all_revisions : list Revision)
  (start_datetime end_datetime : bound) (window_size : string)
  (z_threshold : R) (limit : Z) (min_significance : Q) :
  Activity.analyze_edit_activity (Page all_revisions) Unparseable
    end_datetime window_size z_threshold
  = (Activity.AnalysisInsufficient 0, all_revisions)
  /\ Activity.analyze_edit_activity (Page all_revisions) start_datetime
       Unparseable window_size z_threshold
     = (Activity.AnalysisInsufficient 0, all_revisions)
  /\ Significance.get_significant_revisions (Page all_revisions) Unparseable
       end_datetime limit min_significance
     = (Significance.RankingInsufficient, all_revisions)
  /\ Significance.get_significant_revisions (Page all_revisions)
       start_datetime Unparseable limit min_significance
     = (Significance.RankingInsufficient, all_revisions).
Proof.
  unfold Activity.analyze_edit_activity,
    Significance.get_significant_revisions.
  rewrite (filter_revisions_drops_all Unparseable end_datetime)
    by (intros rev;
        exact (proj1 (in_range_unparseable Unbounded end_datetime rev))).
  rewrite (filter_revisions_drops_all start_datetime Unparseable)
    by (intros rev;
        exact (proj2 (in_range_unparseable start_datetime Unbounded rev))).
  repeat split.
Qed.

Lemma in_range_annotated (s e s' e' : bound) (rev : Revision) :
  in_range s e (annotated s' e' rev) = in_range s e rev.
Proof.
  unfold annotated. destruct (in_range s' e' rev); reflexivity.
Qed.

Lemma annotated_twice (s e : bound) (rev : Revision) :
  annotated s e (annotated s e rev) = annotated s e rev.
Proof.
  unfold annotated at 1. rewrite in_range_annotated.
  unfold annotated. destruct (in_range s e rev); reflexivity.
Qed.

Lemma filter_revisions_annotated (s e : bound) (all_revisions : list Revision) :
  filter_revisions s e (map (annotated s e) all_revisions)
  = filter_revisions s e all_revisions.
Proof.
  induction all_revisions as [|rev rest IH]; [reflexivity|].
  cbn [map filter_revisions]. rewrite IH, in_range_annotated.
  destruct (filter_revisions s e rest) as [store filtered].
  unfold annotated.
  destruct (in_range s e rev) as [t|] eqn:E; reflexivity.
Qed.

(** X7. The annotation in place is harmless on a second run: either
    operation, run again with the same arguments on the records as the first
    run left them, returns the same result and leaves the records as they
    are. *)
Theorem X7_second_run_agrees (all_revisions : list Revision)
  (start_datetime end_datetime : bound) (window_size : string)
  (z_threshold : R) (limit : Z) (min_significance : Q) :
  let analysis :=
    Activity.analyze_edit_activity (Page all_revisions) start_datetime
      end_datetime window_size z_threshold in
  let ranking :=
    Significance.get_significant_revisions (Page all_revisions)
      start_datetime end_datetime limit min_significance in
  Activity.analyze_edit_activity (Page (snd analysis)) start_datetime
    end_datetime window_size z_threshold = analysis
  /\ Significance.get_significant_revisions (Page (snd ranking))
       start_datetime end_datetime limit min_significance = ranking
  /\ Significance.get_significant_revisions (Page (snd analysis))
       start_datetime end_datetime limit min_significance = ranking.
Proof.
  intros analysis ranking. subst analysis ranking.
  rewrite analyze_edit_activity_store, get_significant_revisions_store,
    filter_revisions_store.
  unfold Activity.analyze_edit_activity,
    Significance.get_significant_revisions.
  rewrite filter_revisions_annotated. repeat split.
Qed.

(** ** Ranking the batch of the revision source *)

Lemma range_from_snoc (lo : Z) (n : nat) :
  Py.range_from lo (S n) = Py.range_from lo n ++ [lo + Z.of_nat n].
Proof.
  revert lo; induction n as [|n IH]; intros lo.
  - simpl. f_equal. lia.
  - change (Py.range_from lo (S (S n)))
      with (lo :: Py.range_from (lo + 1) (S n)).
    rewrite IH. simpl. do 3 f_equal. lia.
Qed.

Lemma range_from_length (lo : Z) (n : nat) :
  List.length (Py.range_from lo n) = n.
Proof. revert lo; induction n; intros lo; simpl; auto. Qed.

Lemma combine_snoc {A B} (l : list A) (l' : list B) (x : A) (y : B) :
  List.length l = List.length l' ->
  combine (l ++ [x]) (l' ++ [y]) = combine l l' ++ [(x, y)].
Proof.
  revert l'; induction l as [|a l IH]; intros [|b l'] Hlen;
    try discriminate; [reflexivity|].
  simpl. rewrite IH by (simpl in Hlen; lia). reflexivity.
Qed.

Lemma enumerate_snoc {A} (l : list A) (x : A) :
  Significance.enumerate (l ++ [x])
  = Significance.enumerate l ++ [(Py.len l, x)].
Proof.
  unfold Significance.enumerate, Py.range, Py.len.
  rewrite !Z.sub_0_r, !Nat2Z.id, length_app. simpl List.length.
  rewrite Nat.add_1_r, range_from_snoc, combine_snoc.
  - reflexivity.
  - apply range_from_length.
Qed.

Lemma annotated_sizediff (s e : bound) (rev : Revision) :
  sizediff (annotated s e rev) = sizediff rev.
Proof. unfold annotated. destruct (in_range s e rev); reflexivity. Qed.

(** The ranking of filtered revisions that end in one with a null size
    change, the only one, raises. *)
Lemma rank_filtered_null_last (init : list Revision) (oldest : Revision)
  (limit : Z) (min_significance : Q) :
  Forall (fun rev => sizediff rev <> Null) init ->
  sizediff oldest = Null ->
  2 <= Py.len (init ++ [oldest]) ->
  Significance.rank_filtered (init ++ [oldest]) limit min_significance
  = Py.Raise (Py.TypeError "bad operand type for abs(): 'NoneType'").
Proof.
  intros Hinit Hnull Hlen. unfold Significance.rank_filtered.
  destruct (Z.ltb_spec (Py.len (init ++ [oldest])) 2); [lia|].
  rewrite enumerate_snoc, for_each_app.
  match goal with
  | |- context [Py.for_each (Significance.score_step ?f ?c ?u ?m) _ []] =>
      destruct (score_loop f c u m (Significance.enumerate init) [])
        as (scored & Hrun & _)
  end.
  { rewrite <- (snd_enumerate init), Forall_map in Hinit. exact Hinit. }
  rewrite Hrun. cbn [Py.bind Py.for_each].
  unfold Significance.score_step,
    Significance._calculate_significance_score,
    Significance.size_change_of.
  rewrite Hnull. reflexivity.
Qed.

(** X4. The two functions do not compose on the oldest revision of a
    batch: when [get_page_revisions] returns revisions, the date filter keeps
    the last of them and at least 2 revisions in all, the ranking of that
    result is the error result of the [TypeError], whatever the limit and the
    threshold. *)
Theorem X4_ranking_of_batch_fails (title : string)
  (pages : list (string * Source.page_data)) (found_title : string)
  (pageid : option Z) (init : list Revision) (oldest : Revision)
  (start_datetime end_datetime : bound) (limit : Z) (min_significance : Q) :
  Source.get_page_revisions title pages
  = Source.RevisionsFound found_title pageid (init ++ [oldest]) ->
  kept start_datetime end_datetime oldest = true ->
  2 <= Py.len (snd (filter_revisions start_datetime end_datetime
                      (init ++ [oldest]))) ->
  fst (Significance.get_significant_revisions
         (Source.as_source (Source.get_page_revisions title pages))
         start_datetime end_datetime limit min_significance)
  = Significance.RankingError "bad operand type for abs(): 'NoneType'".
Proof.
  intros Hfound Hkept Hlen. rewrite Hfound. cbn [Source.as_source].
  assert (Hshape : Forall (fun rev => exists d, sizediff rev = Int d) init
                   /\ sizediff oldest = Null).
  { unfold Source.get_page_revisions in Hfound.
    destruct pages as [|[page_id page] others]; [discriminate|].
    destruct (orb _ _); [discriminate|].
    destruct (Source.add_sizediff (get_or (Source.page_revisions page) []))
      as [processed|e] eqn:Hrun; [|discriminate].
    injection Hfound as _ _ ->.
    destruct (add_sizediff_shape _ _ Hrun) as [_ [Hnil|Hsnoc]].
    - destruct init; discriminate.
    - destruct Hsnoc as (init' & oldest' & Heq & Hinit & Hnull).
      apply app_inj_tail in Heq. destruct Heq as [-> ->]. auto. }
  destruct Hshape as [Hinit Hnull].
  unfold Significance.get_significant_revisions.
  pose proof (filter_revisions_filtered start_datetime end_datetime
                (init ++ [oldest])) as Hf.
  destruct (filter_revisions start_datetime end_datetime (init ++ [oldest]))
    as [store filtered]. cbn [snd] in Hf, Hlen. subst filtered.
  rewrite filter_app, map_app in *. cbn [List.filter] in *.
  rewrite Hkept in *. cbn [map] in *.
  rewrite rank_filtered_null_last; [reflexivity | | | exact Hlen].
  - apply Forall_forall. intros rev Hin. apply in_map_iff in Hin.
    destruct Hin as (rev0 & <- & Hin0). apply filter_In in Hin0.
    rewrite annotated_sizediff. rewrite Forall_forall in Hinit.
    destruct (Hinit rev0 (proj1 Hin0)) as [d Hd]. congruence.
  - rewrite annotated_sizediff. exact Hnull.
Qed.

Lemma X4_ranking_of_batch_fails_witness :
  fst (Significance.get_significant_revisions
         (Source.as_source
            (Source.get_page_revisions
               "Test" [("4242"%string,
                        Source.mk_page_data (Some "Test"%string) (Some 4242)
                          (Some [raw 3 25000 12; raw 2 24950 11;
                                 raw 1 25000 10]))]))
         Unbounded Unbounded 50 (1 # 2))
  = Significance.RankingError "bad operand type for abs(): 'NoneType'".
Proof.
  apply (X4_ranking_of_batch_fails
           "Test" _ "Test" (Some 4242)
           [Source.set_sizediff (raw 3 25000 12) (Int 50);
            Source.set_sizediff (raw 2 24950 11) (Int (-50))]
           (Source.set_sizediff (raw 1 25000 10) Null)).
  - reflexivity.
  - reflexivity.
  - vm_compute. discriminate.
Defined.

(** ** Windows and their editors *)

Lemma set_add_length (x : string) (s : list string) :
  (List.length s <= List.length (Activity.set_add x s) <= S (List.length s))%nat.
Proof.
  induction s as [|y s IH]; simpl; [lia|].
  destruct (String.eqb y x); simpl; lia.
Qed.

Lemma distinct_length (names : list string) :
  (List.length (distinct names) <= List.length names)%nat
  /\ (names <> [] -> distinct names <> []).
Proof.
  induction names as [|x names [IHlen IHne]] using rev_ind.
  - split; [simpl; lia | congruence].
  - rewrite distinct_snoc, length_app. cbn [List.length].
    pose proof (set_add_length x (distinct names)) as H.
    split; [lia|]. intros _.
    destruct (distinct names) as [|y s]; simpl; [discriminate|].
    destruct (String.eqb y x); discriminate.
Qed.

Lemma total_at_least (counts : list Z) :
  Forall (fun c => 1 <= c) counts -> Py.len counts <= Activity.total counts.
Proof.
  unfold Py.len. induction 1 as [|c counts Hc _ IH]; simpl; [lia|].
  simpl in IH. lia.
Qed.

Lemma editors_within_edits (window_size : string)
  (processed : list Revision) (grouped : list (string * Activity.window)) :
  grouped_ok window_size processed grouped ->
  forall key w,
    In (key, w) grouped ->
    1 <= Activity.editor_count_of w <= Activity.edit_count w.
Proof.
  intros Hok key w Hin.
  destruct (ok_windows _ _ _ Hok _ _ Hin) as [_ Hc He Hi].
  unfold Activity.editor_count_of. rewrite Hc, He. unfold Py.len.
  destruct (distinct_length (map author_of (Activity.revisions w)))
    as [Hlen Hne].
  rewrite length_map in Hlen.
  assert (distinct (map author_of (Activity.revisions w)) <> []).
  { apply Hne. destruct (Activity.revisions w); [congruence | discriminate]. }
  destruct (distinct (map author_of (Activity.revisions w)));
    [congruence | simpl in *; lia].
Qed.

(** X8. In every window the editor count is at least 1 and at most the
    edit count, and there are at most as many windows as filtered
    revisions. *)
Theorem X8_editors_at_most_edits (all_revisions : list Revision)
  (start_datetime end_datetime : bound) (window_size : string) :
  let filtered :=
    snd (filter_revisions start_datetime end_datetime all_revisions) in
  exists grouped,
    Activity.group_revisions window_size filtered = Py.Ok grouped
    /\ (forall key w,
           In (key, w) grouped ->
           1 <= Activity.editor_count_of w <= Activity.edit_count w)
    /\ Py.len grouped <= Py.len filtered.
Proof.
  intros filtered.
  destruct (group_revisions_ok window_size filtered) as (grouped & Hrun & Hok).
  { apply filter_revisions_parsed. }
  exists grouped. split; [exact Hrun|].
  pose proof (editors_within_edits _ _ _ Hok) as Hwin.
  split; [exact Hwin|].
  rewrite <- (total_edit_counts window_size filtered grouped Hok).
  replace (Py.len grouped)
    with (Py.len (map (fun entry : string * Activity.window =>
                         Activity.edit_count (snd entry)) grouped))
    by (unfold Py.len; rewrite length_map; reflexivity).
  apply total_at_least. apply Forall_forall. intros c Hc.
  apply in_map_iff in Hc. destruct Hc as ([key w] & <- & Hin).
  specialize (Hwin key w Hin). simpl. lia.
Qed.

(** ** Series without variance *)

Section NoVariance.
Import Activity.
Local Open Scope R_scope.

Lemma total_constant (c : Z) (data : list Z) :
  Forall (fun x => x = c) data -> total data = (c * Py.len data)%Z.
Proof.
  unfold Py.len. induction 1 as [|x data Hx _ IH]; [simpl; lia|].
  subst x. simpl total. rewrite IH. simpl List.length. lia.
Qed.

Lemma mean_constant (c : Z) (data : list Z) :
  Forall (fun x => x = c) data -> data <> [] -> mean data = IZR c.
Proof.
  intros Hall Hne. unfold mean. rewrite (total_constant c data Hall).
  rewrite mult_IZR.
  assert (Hn : IZR (Py.len data) <> 0).
  { apply not_0_IZR. unfold Py.len. destruct data; [congruence|simpl; lia]. }
  field. exact Hn.
Qed.

Lemma squared_deviations_constant (c : Z) (data : list Z) :
  Forall (fun x => x = c) data -> squared_deviations (IZR c) data = 0.
Proof.
  induction 1 as [|x data Hx _ IH]; [reflexivity|].
  subst x. simpl. rewrite IH. lra.
Qed.

Lemma guarded_stdev_constant (c : Z) (data : list Z) :
  Forall (fun x => x = c) data -> guarded_stdev data = 0.
Proof.
  intros Hall. unfold guarded_stdev.
  destruct (Z.ltb_spec 1 (Py.len data)); [|reflexivity].
  unfold stdev. rewrite (mean_constant c data Hall).
  - rewrite (squared_deviations_constant c data Hall).
    unfold Rdiv. rewrite Rmult_0_l. apply sqrt_0.
  - intros ->. unfold Py.len in *. simpl in *. lia.
Qed.

Lemma z_score_no_deviation (count : Z) (m : R) : z_score count m 0 = 0.
Proof. unfold z_score. destruct (Rlt_dec 0 0); [lra | reflexivity]. Qed.

End NoVariance.

(** X9. When all windows have the same edit count and the same editor
    count, both z-scores of every window are 0: with a positive threshold the
    spike list is empty, and with a threshold of 0 or less every window is in
    it. *)
Theorem X9_no_variance_no_spike (all_revisions : list Revision)
  (start_datetime end_datetime : bound) (window_size : string)
  (z_threshold : R) (grouped : list (string * Activity.window))
  (edits editors : Z) :
  let filtered :=
    snd (filter_revisions start_datetime end_datetime all_revisions) in
  Activity.group_revisions window_size filtered = Py.Ok grouped ->
  3 <= Py.len grouped ->
  (forall key w, In (key, w) grouped ->
                 Activity.edit_count w = edits
                 /\ Activity.editor_count_of w = editors) ->
  exists total_windows total_revisions edit_statistics editor_statistics
         spikes,
    fst (Activity.analyze_edit_activity (Page all_revisions) start_datetime
           end_datetime window_size z_threshold)
    = Activity.AnalysisReport total_windows total_revisions edit_statistics
                              editor_statistics spikes
    /\ ((0 < z_threshold)%R -> spikes = [])
    /\ ((z_threshold <= 0)%R ->
        forall key, In key (map fst grouped) ->
                    In key (map Activity.spike_window spikes)).
Proof.
  intros filtered Hrun Hlen Hsame.
  destruct (analyze_edit_activity_grouped all_revisions start_datetime
              end_datetime window_size z_threshold)
    as (g & Hrun' & Hok & Hres).
  fold filtered in Hrun', Hok, Hres.
  rewrite Hrun in Hrun'. injection Hrun' as <-.
  destruct (analyze_grouped_cases filtered grouped z_threshold)
    as [[Hfew _]|[_ Hcase]]; [lia|].
  rewrite Hcase in Hres.
  assert (He : Forall (fun x => x = edits) (edit_counts_of grouped)).
  { apply Forall_forall. intros x Hx. apply in_map_iff in Hx.
    destruct Hx as ([key w] & <- & Hin). apply (Hsame key w Hin). }
  assert (Hr : Forall (fun x => x = editors) (editor_counts_of grouped)).
  { apply Forall_forall. intros x Hx. apply in_map_iff in Hx.
    destruct Hx as ([key w] & <- & Hin). apply (Hsame key w Hin). }
  assert (Hz : forall w, edit_z grouped w = 0%R /\ editor_z grouped w = 0%R).
  { intros w. unfold edit_z, editor_z.
    rewrite (guarded_stdev_constant edits _ He),
      (guarded_stdev_constant editors _ Hr).
    split; apply z_score_no_deviation. }
  do 5 eexists. split; [exact Hres|]. split.
  - intros Hpos.
    destruct (spikes_of z_threshold grouped) as [|sp rest] eqn:Hsp;
      [reflexivity|]. exfalso.
    assert (Hin : In (Activity.spike_window sp)
                     (map Activity.spike_window
                          (spikes_of z_threshold grouped)))
      by (rewrite Hsp; left; reflexivity).
    apply spike_windows in Hin. destruct Hin as (w & _ & Hflag).
    destruct (Hz w) as [H1 H2]. rewrite H1, H2 in Hflag.
    destruct Hflag; lra.
  - intros Hneg key Hkey. apply spike_windows.
    apply in_map_iff in Hkey. destruct Hkey as ([k w] & <- & Hin).
    exists w. split; [exact Hin|]. left.
    destruct (Hz w) as [H1 _]. rewrite H1. exact Hneg.
Qed.

Lemma X9_no_variance_no_spike_witness :
  exists total_windows total_revisions edit_statistics editor_statistics,
    fst (Activity.analyze_edit_activity (Page quiet_days) Unbounded Unbounded
                                        "day" 2%R)
    = Activity.AnalysisReport total_windows total_revisions edit_statistics
                              editor_statistics [].
Proof.
  destruct (X9_no_variance_no_spike quiet_days Unbounded Unbounded "day" 2%R
              quiet_days_grouped 1 1 eq_refl)
    as (tw & tr & es & eds & spikes & Hres & Hpos & _).
  - vm_compute. discriminate.
  - intros key w [H|[H|[H|[]]]]; injection H as <- <-; split; reflexivity.
  - exists tw, tr, es, eds. rewrite Hres, Hpos by lra. reflexivity.
Defined.

(** ** The spike list *)

Section SpikeList.
Import Activity.
Local Open Scope R_scope.

Lemma spike_geb_total (a b : spike) :
  spike_geb a b = true \/ spike_geb b a = true.
Proof.
  unfold spike_geb. rewrite !Rgeb_true.
  destruct (Rle_dec (Rmax (edit_z_score b) (editor_z_score b))
                    (Rmax (edit_z_score a) (editor_z_score a)));
    [left; assumption | right; lra].
Qed.

Lemma spike_geb_trans (a b c : spike) :
  spike_geb a b = true -> spike_geb b c = true -> spike_geb a c = true.
Proof. unfold spike_geb. rewrite !Rgeb_true. lra. Qed.

Lemma filter_keys_nodup {V} (f : string * V -> bool)
  (grouped : list (string * V)) :
  NoDup (map fst grouped) -> NoDup (map fst (List.filter f grouped)).
Proof.
  induction grouped as [|[k v] rest IH]; simpl; intros Hnd; [constructor|].
  inversion Hnd as [|? ? Hnotin Hrest]; subst.
  destruct (f (k, v)); simpl; [|auto].
  constructor; [|auto].
  intros Hin. apply Hnotin. apply in_map_iff in Hin.
  destruct Hin as ([k' v'] & Hk & Hin). simpl in Hk. subst k'.
  apply filter_In in Hin. destruct Hin as [Hin _].
  apply (in_map fst) in Hin. exact Hin.
Qed.

Lemma spike_window_make_spike em es dm ds (entries : list (string * window)) :
  map spike_window (map (make_spike em es dm ds) entries) = map fst entries.
Proof.
  rewrite map_map. apply map_ext. intros [k w]. reflexivity.
Qed.

End SpikeList.

(** X10. In a report, every entry of the spike list describes a window of
    the analysis: its label, edit count, editor count and editors, its first
    5 revisions at most as samples, its two z-scores rounded to 2 decimals,
    and the significance "high" exactly when the larger z-score, unrounded,
    is at least 3.  No window has two entries, and the entries are in
    descending order of the larger rounded z-score. *)
Theorem X10_spike_entries (all_revisions : list Revision)
  (start_datetime end_datetime : bound) (window_size : string)
  (z_threshold : R) (grouped : list (string * Activity.window)) :
  let filtered :=
    snd (filter_revisions start_datetime end_datetime all_revisions) in
  Activity.group_revisions window_size filtered = Py.Ok grouped ->
  3 <= Py.len grouped ->
  exists total_windows total_revisions edit_statistics editor_statistics
         spikes,
    fst (Activity.analyze_edit_activity (Page all_revisions) start_datetime
           end_datetime window_size z_threshold)
    = Activity.AnalysisReport total_windows total_revisions edit_statistics
                              editor_statistics spikes
    /\ (forall sp, In sp spikes ->
                   exists w, In (Activity.spike_window sp, w) grouped
                             /\ spike_of_window grouped
                                  (Activity.spike_window sp) w sp
                             /\ (List.length (Activity.sample_revisions sp)
                                 <= 5)%nat)
    /\ NoDup (map Activity.spike_window spikes)
    /\ StronglySorted
         (fun a b =>
            (Rmax (Activity.edit_z_score b) (Activity.editor_z_score b)
             <= Rmax (Activity.edit_z_score a) (Activity.editor_z_score a))%R)
         spikes
    /\ Py.len spikes <= Py.len grouped.
Proof.
  intros filtered Hrun Hlen.
  destruct (analyze_edit_activity_grouped all_revisions start_datetime
              end_datetime window_size z_threshold)
    as (g & Hrun' & Hok & Hres).
  fold filtered in Hrun', Hok, Hres.
  rewrite Hrun in Hrun'. injection Hrun' as <-.
  destruct (analyze_grouped_cases filtered grouped z_threshold)
    as [[Hfew _]|[_ Hcase]]; [lia|].
  rewrite Hcase in Hres.
  do 5 eexists. split; [exact Hres|].
  unfold spikes_of, Activity.detect_spikes.
  match goal with
  | |- context [sort_desc Activity.spike_geb (map ?mk (List.filter ?f grouped))] =>
      set (make := mk); set (flagged := List.filter f grouped)
  end.
  pose proof (sort_desc_perm Activity.spike_geb (map make flagged)) as Hperm.
  split; [|split; [|split]].
  - intros sp Hin. apply sort_desc_in in Hin. apply in_map_iff in Hin.
    destruct Hin as ([key w] & <- & Hin).
    apply filter_In in Hin. destruct Hin as [Hin _].
    exists w. split; [exact Hin|]. split.
    + unfold spike_of_window, make, Activity.make_spike, edit_z, editor_z.
      cbn. repeat split; try reflexivity.
      * destruct (Activity.Rgeb _ 3) eqn:E; [intros _|discriminate].
        apply Rgeb_true in E. exact E.
      * intros H. apply Rgeb_true in H. rewrite H. reflexivity.
    + change (Activity.sample_revisions (make (key, w)))
        with (firstn 5 (Activity.revisions w)).
      apply firstn_le_length.
  - eapply Permutation_NoDup; [apply Permutation_map, Hperm|].
    subst make. rewrite spike_window_make_spike.
    apply filter_keys_nodup, Hok.
  - eapply StronglySorted_weaken;
      [|apply (sort_desc_descending _ spike_geb_total spike_geb_trans)].
    intros a b H. apply Rgeb_true in H. exact H.
  - unfold Py.len. rewrite sort_desc_length, length_map.
    pose proof (filter_length_le
                  (fun entry : string * Activity.window =>
                     Activity.is_spike z_threshold
                       (Activity.mean (edit_counts_of grouped))
                       (Activity.guarded_stdev (edit_counts_of grouped))
                       (Activity.mean (editor_counts_of grouped))
                       (Activity.guarded_stdev (editor_counts_of grouped))
                       (snd entry)) grouped).
    subst flagged. lia.
Qed.

Lemma X10_spike_entries_witness :
  exists total_windows total_revisions edit_statistics editor_statistics
         spikes,
    fst (Activity.analyze_edit_activity (Page three_days) Unbounded Unbounded
                                        "day" 1%R)
    = Activity.AnalysisReport total_windows total_revisions edit_statistics
                              editor_statistics spikes
    /\ NoDup (map Activity.spike_window spikes)
    /\ Py.len spikes <= 3.
Proof.
  destruct (X10_spike_entries three_days Unbounded Unbounded "day" 1%R
              three_days_grouped eq_refl)
    as (tw & tr & es & eds & spikes & Hres & _ & Hnd & _ & Hlen).
  - vm_compute. discriminate.
  - exists tw, tr, es, eds, spikes. repeat split; assumption.
Defined.

(** ** The composite score, continued *)

Section ScoreFacts.
Import Significance.
Local Open Scope Q_scope.

Lemma revert_scan_sizediff revision d all_revisions indices :
  revert_scan (Source.set_sizediff revision d) all_revisions indices
  = revert_scan revision all_revisions indices.
Proof.
  induction indices as [|i rest IH]; [reflexivity|].
  simpl. rewrite IH. reflexivity.
Qed.

Lemma normalized_size_change_monotone (a b article_size : Z) :
  (a <= b)%Z ->
  normalized_size_change a article_size
  <= normalized_size_change b article_size.
Proof.
  intros Hab. unfold normalized_size_change.
  set (floor := Qmax (inject_Z article_size * (1 # 10)) 100).
  assert (Hfloor : 100 <= floor) by apply Q.le_max_r.
  apply Q.min_le_compat_r. unfold Qdiv.
  apply Qmult_le_compat_r.
  - rewrite <- Zle_Qle. exact Hab.
  - apply Qlt_le_weak, Qinv_lt_0_compat. lra.
Qed.

Lemma round_half_even_near (x : Q) :
  - (1 # 2) <= inject_Z (Py.round_half_even x) - x <= 1 # 2.
Proof.
  unfold Py.round_half_even.
  pose proof (Qfloor_le x) as Hlo. pose proof (Qlt_floor x) as Hhi.
  rewrite inject_Z_plus in Hhi. change (inject_Z 1) with 1 in Hhi.
  destruct (Qcompare_spec (x - inject_Z (Qfloor x)) (1 # 2)) as [E|E|E].
  - destruct (Z.even (Qfloor x)).
    + lra.
    + rewrite inject_Z_plus. change (inject_Z 1) with 1. lra.
  - lra.
  - rewrite inject_Z_plus. change (inject_Z 1) with 1. lra.
Qed.

Lemma round_half_even_bounds (x : Q) (lo hi : Z) :
  inject_Z lo <= x -> x <= inject_Z hi ->
  (lo <= Py.round_half_even x <= hi)%Z.
Proof.
  intros Hlo Hhi.
  assert (Hf : (lo <= Qfloor x <= hi)%Z).
  { split.
    - rewrite <- (Qfloor_Z lo). apply Qfloor_resp_le. exact Hlo.
    - rewrite <- (Qfloor_Z hi). apply Qfloor_resp_le. exact Hhi. }
  unfold Py.round_half_even.
  pose proof (Qfloor_le x) as Hle.
  assert (Hup : (Qfloor x = hi -> x - inject_Z (Qfloor x) < 1 # 2)).
  { intros E. rewrite E in *. lra. }
  destruct (Qcompare_spec (x - inject_Z (Qfloor x)) (1 # 2)) as [E|E|E].
  - destruct (Z.even (Qfloor x)); [lia|].
    destruct (Z.eq_dec (Qfloor x) hi) as [Heq|Hne]; [|lia].
    specialize (Hup Heq). lra.
  - lia.
  - destruct (Z.eq_dec (Qfloor x) hi) as [Heq|Hne]; [|lia].
    specialize (Hup Heq). lra.
Qed.

(** Rounding to 3 decimals moves a score by 0.0005 at most and keeps it in
    the unit interval. *)
Lemma round3_near (x : Q) :
  - (1 # 2000) <= Py.round x 3 - x <= 1 # 2000.
Proof.
  unfold Py.round.
  change (inject_Z (10 ^ Z.of_nat 3)) with 1000.
  pose proof (round_half_even_near (x * 1000)) as H.
  set (r := inject_Z (Py.round_half_even (x * 1000))) in *.
  assert (E : r / 1000 - x == (r - x * 1000) / 1000) by field.
  rewrite E. split.
  - apply Qle_shift_div_l; lra.
  - apply Qle_shift_div_r; lra.
Qed.

Lemma round3_unit (x : Q) : 0 <= x <= 1 -> 0 <= Py.round x 3 <= 1.
Proof.
  intros [Hlo Hhi]. unfold Py.round.
  change (inject_Z (10 ^ Z.of_nat 3)) with 1000.
  destruct (round_half_even_bounds (x * 1000) 0 1000) as [H0 H1].
  - change (inject_Z 0) with 0. lra.
  - change (inject_Z 1000) with 1000. lra.
  - rewrite Zle_Qle in H0, H1.
    change (inject_Z 0) with 0 in H0. change (inject_Z 1000) with 1000 in H1.
    split.
    + apply Qle_shift_div_l; lra.
    + apply Qle_shift_div_r; lra.
Qed.

End ScoreFacts.

(** X12. The score grows with the size of the change: of two revisions
    that differ in their size change only, the one with the larger absolute
    change has the larger or equal score, everything else being the same. *)
Theorem X12_score_monotone_in_size_change (revision : Revision)
  (all_revisions : list Revision) (index article_size : Z)
  (user_edit_counts : list (string * Z)) (d1 d2 : Z) :
  Z.abs d1 <= Z.abs d2 ->
  exists s1 s2,
    Significance._calculate_significance_score
      (Source.set_sizediff revision (Int d1)) all_revisions index
      article_size user_edit_counts = Py.Ok s1
    /\ Significance._calculate_significance_score
         (Source.set_sizediff revision (Int d2)) all_revisions index
         article_size user_edit_counts = Py.Ok s2
    /\ (s1 <= s2)%Q.
Proof.
  intros Hd.
  unfold Significance._calculate_significance_score,
    Significance.size_change_of.
  cbn [sizediff Source.set_sizediff Py.bind].
  do 2 eexists. split; [reflexivity|]. split; [reflexivity|].
  unfold Significance._calculate_revert_score.
  rewrite !revert_scan_sizediff.
  change (Significance.experience_factor
            (Source.set_sizediff revision (Int d1)) user_edit_counts)
    with (Significance.experience_factor revision user_edit_counts).
  change (Significance.experience_factor
            (Source.set_sizediff revision (Int d2)) user_edit_counts)
    with (Significance.experience_factor revision user_edit_counts).
  change (Significance.discussion_score
            (Source.set_sizediff revision (Int d1)))
    with (Significance.discussion_score revision).
  change (Significance.discussion_score
            (Source.set_sizediff revision (Int d2)))
    with (Significance.discussion_score revision).
  change (Significance._calculate_edit_war_score
            (Source.set_sizediff revision (Int d1)) all_revisions index)
    with (Significance._calculate_edit_war_score revision all_revisions index).
  change (Significance._calculate_edit_war_score
            (Source.set_sizediff revision (Int d2)) all_revisions index)
    with (Significance._calculate_edit_war_score revision all_revisions index).
  pose proof (normalized_size_change_monotone _ _ article_size Hd) as Hmono.
  apply Q.min_le_compat_r. unfold Significance.weighted_sum.
  set (n1 := Significance.normalized_size_change (Z.abs d1) article_size) in *.
  set (n2 := Significance.normalized_size_change (Z.abs d2) article_size) in *.
  lra.
Qed.

Lemma X12_score_monotone_in_size_change_witness :
  exists s1 s2,
    Significance._calculate_significance_score
      (Source.set_sizediff (raw 2 5000 11) (Int 50))
      [raw 3 5000 12; raw 2 5000 11] 1 5000 [] = Py.Ok s1
    /\ Significance._calculate_significance_score
         (Source.set_sizediff (raw 2 5000 11) (Int (-400)))
         [raw 3 5000 12; raw 2 5000 11] 1 5000 [] = Py.Ok s2
    /\ (s1 <= s2)%Q.
Proof.
  apply (X12_score_monotone_in_size_change (raw 2 5000 11)
           [raw 3 5000 12; raw 2 5000 11] 1 5000 [] 50 (-400)).
  simpl. lia.
Defined.

(** ** The edit counts of the authors *)

Lemma store_lookup_same (key : string) (v : Z) (d : list (string * Z)) :
  Significance.lookup key (Significance.store key v d) = Some v.
Proof.
  induction d as [|[k v'] d IH]; simpl.
  - rewrite String.eqb_refl. reflexivity.
  - destruct (String.eqb_spec k key) as [->|Hk]; simpl.
    + rewrite String.eqb_refl. reflexivity.
    + destruct (String.eqb_spec k key); [contradiction | exact IH].
Qed.

Lemma edits_by_cons (u : string) (rev : Revision) (l : list Revision) :
  edits_by u (rev :: l)
  = (if made_by u rev then 1 else 0) + edits_by u l.
Proof.
  unfold edits_by, Py.len. simpl.
  destruct (made_by u rev); simpl List.length; lia.
Qed.

Lemma count_user_fold (u : string) (l : list Revision)
  (counts : list (string * Z)) :
  u <> EmptyString ->
  Significance.lookup u (fold_left Significance.count_user l counts)
  = if edits_by u l =? 0 then Significance.lookup u counts
    else Some (get_or (Significance.lookup u counts) 0 + edits_by u l).
Proof.
  intros Hu. revert counts.
  induction l as [|rev l IH]; intros counts; [reflexivity|].
  cbn [fold_left]. rewrite IH, edits_by_cons.
  assert (Hpos : 0 <= edits_by u l) by apply len_nonneg.
  unfold Significance.count_user, made_by.
  destruct (user rev) as [v|].
  2:{ replace (0 + edits_by u l) with (edits_by u l) by lia. reflexivity. }
  destruct (String.eqb_spec v EmptyString) as [->|Hv].
  { destruct (String.eqb_spec EmptyString u); [congruence|].
    replace (0 + edits_by u l) with (edits_by u l) by lia. reflexivity. }
  destruct (String.eqb_spec v u) as [->|Hvu].
  - rewrite store_lookup_same. cbn [get_or].
    destruct (Z.eqb_spec (1 + edits_by u l) 0); [lia|].
    destruct (Z.eqb_spec (edits_by u l) 0) as [E|E];
      try rewrite E; f_equal; lia.
  - rewrite store_lookup_other by congruence.
    replace (0 + edits_by u l) with (edits_by u l) by lia. reflexivity.
Qed.

(** X13. [user_edit_counts] holds, for each author name that is not
    empty, the number of filtered revisions by that author, and no entry for
    a name without revisions; a revision of the set by such an author is
    scored with that number, which is at least 1. *)
Theorem X13_user_edit_counts (filtered_revisions : list Revision)
  (u : string) :
  u <> EmptyString ->
  Significance.lookup u (Significance.count_user_edits filtered_revisions)
  = (if edits_by u filtered_revisions =? 0 then None
     else Some (edits_by u filtered_revisions))
  /\ (forall rev,
         In rev filtered_revisions -> user rev = Some u ->
         Significance.user_edits_of
           rev (Significance.count_user_edits filtered_revisions)
         = edits_by u filtered_revisions
         /\ 1 <= edits_by u filtered_revisions).
Proof.
  intros Hu.
  assert (Hlookup :
            Significance.lookup
              u (Significance.count_user_edits filtered_revisions)
            = (if edits_by u filtered_revisions =? 0 then None
               else Some (edits_by u filtered_revisions))).
  { unfold Significance.count_user_edits. rewrite count_user_fold by exact Hu.
    reflexivity. }
  split; [exact Hlookup|].
  intros rev Hin Huser.
  assert (Hone : 1 <= edits_by u filtered_revisions).
  { unfold edits_by, Py.len.
    assert (Hf : In rev (List.filter (made_by u) filtered_revisions)).
    { apply filter_In. split; [exact Hin|].
      unfold made_by. rewrite Huser. apply String.eqb_refl. }
    destruct (List.filter (made_by u) filtered_revisions);
      [contradiction | simpl; lia]. }
  split; [|exact Hone].
  unfold Significance.user_edits_of. rewrite Huser. cbn [get_or].
  rewrite Hlookup.
  destruct (Z.eqb_spec (edits_by u filtered_revisions) 0); [lia|reflexivity].
Qed.

Lemma X13_user_edit_counts_witness :
  Significance.lookup "B" (Significance.count_user_edits three_days)
  = Some 2.
Proof.
  exact (proj1 (X13_user_edit_counts three_days "B" ltac:(discriminate))).
Defined.

(** ** Revert proximity, continued *)

Lemma candidates_newest (all_revisions : list Revision) (index : Z) :
  index <= 0 -> candidates all_revisions index = [].
Proof.
  intros Hi. unfold candidates.
  replace (Z.to_nat (index - Z.max 0 (index - 5))) with O by lia.
  reflexivity.
Qed.

Lemma candidates_older (newer older : list Revision) (index : Z) :
  index <= Py.len newer ->
  candidates (newer ++ older) index = candidates newer index.
Proof.
  intros Hi. unfold candidates, Py.len in *.
  set (lo := Z.to_nat (Z.max 0 (index - 5))).
  set (n := Z.to_nat (index - Z.max 0 (index - 5))).
  destruct (Nat.le_gt_cases lo (List.length newer)) as [Hlo|Hlo].
  - rewrite skipn_app.
    replace (lo - List.length newer)%nat with O by lia.
    rewrite skipn_O, firstn_app.
    rewrite length_skipn.
    replace (n - (List.length newer - lo))%nat with O by lia.
    rewrite firstn_O, app_nil_r. reflexivity.
  - replace n with O by lia. reflexivity.
Qed.

(** X14. The revert-proximity sub-score looks at newer revisions only:
    it is 0 for the revision at index 0, and revisions older than the target
    do not change it. *)
Theorem X14_revert_score_looks_back (revision : Revision)
  (newer older : list Revision) (index : Z) :
  index <= Py.len newer ->
  Significance._calculate_revert_score revision (newer ++ older) index
  = Significance._calculate_revert_score revision newer index
  /\ Significance._calculate_revert_score revision (newer ++ older) 0 = 0%Q.
Proof.
  intros Hi. rewrite !calculate_revert_score_first_match.
  unfold first_match_score.
  rewrite candidates_older by exact Hi.
  rewrite (candidates_newest (newer ++ older) 0) by lia.
  split; reflexivity.
Qed.

Lemma X14_revert_score_looks_back_witness :
  Significance._calculate_revert_score
    (sized 10 0 0 1000)
    ([sized 10 10 0 1010; sized 10 0 0 1000] ++ [sized 9 50 0 1000]) 1
  = Significance._calculate_revert_score
      (sized 10 0 0 1000) [sized 10 10 0 1010; sized 10 0 0 1000] 1.
Proof.
  apply (X14_revert_score_looks_back (sized 10 0 0 1000)
           [sized 10 10 0 1010; sized 10 0 0 1000] [sized 9 50 0 1000] 1).
  vm_compute. discriminate.
Defined.

(** ** The ranking report *)

Section Report.
Import Significance.
Local Open Scope Q_scope.

Variable filtered_revisions : list Revision.
Variable current_size : Z.
Variable user_edit_counts : list (string * Z).
Variable min_significance : Q.

(** Whenever the scoring loop completes, it has made one entry, in order,
    for each revision that passes the threshold. *)
Lemma score_loop_completed (entries : list (Z * Revision))
  (acc out : list scored) :
  Py.for_each (score_step filtered_revisions current_size user_edit_counts
                          min_significance) entries acc = Py.Ok out ->
  exists scored_revisions,
    out = acc ++ scored_revisions
    /\ Forall2 (scores filtered_revisions current_size user_edit_counts
                       min_significance)
               (List.filter (passing filtered_revisions current_size
                                     user_edit_counts min_significance)
                            entries)
               scored_revisions.
Proof.
  revert acc; induction entries as [|[i rev] entries IH]; intros acc Hrun.
  - injection Hrun as <-. exists []. rewrite app_nil_r.
    split; [reflexivity | constructor].
  - cbn [Py.for_each] in Hrun. unfold score_step at 1 in Hrun.
    cbn [List.filter]. unfold passing at 1. cbn [fst snd].
    destruct (_calculate_significance_score rev filtered_revisions i
                current_size user_edit_counts) as [score|e] eqn:Hscore;
      [|discriminate].
    cbn [Py.bind] in Hrun.
    destruct (Qle_bool min_significance score) eqn:Hpass.
    + destruct (_get_significance_factors rev filtered_revisions i
                  current_size user_edit_counts) as [fac|e] eqn:Hfac;
        [|discriminate].
      cbn [Py.bind] in Hrun.
      destruct (IH _ Hrun) as (rest & -> & Hrel).
      exists (mk_scored rev (Py.round score 3) fac :: rest).
      split; [rewrite <- app_assoc; reflexivity|].
      constructor; [|exact Hrel].
      split; [reflexivity|]. exists score. cbn [fst snd].
      split; [exact Hscore|]. split; [apply Qle_bool_iff; exact Hpass|].
      split; [reflexivity | exact Hfac].
    + destruct (IH _ Hrun) as (rest & -> & Hrel).
      exists rest. split; [reflexivity | exact Hrel].
Qed.

End Report.

Lemma Forall2_in_r {A B} (R : A -> B -> Prop) (l : list A) (l' : list B)
  (y : B) :
  Forall2 R l l' -> In y l' -> exists x, In x l /\ R x y.
Proof.
  induction 1 as [|x y' l l' Hxy _ IH]; [contradiction|].
  intros [<-|Hin].
  - exists x. split; [left; reflexivity | exact Hxy].
  - destruct (IH Hin) as (x' & Hx' & Hr). exists x'. split; [right|]; auto.
Qed.

Lemma slice_to_facts {A} (l : list A) (k : Z) :
  (forall x, In x (Py.slice_to l k) -> In x l)
  /\ Py.len (Py.slice_to l k) <= Py.len l.
Proof.
  unfold Py.slice_to, Py.len.
  destruct (k <? 0).
  - split.
    + intros x Hx.
      rewrite <- (firstn_skipn (Z.to_nat (Z.of_nat (List.length l) + k)) l).
      apply in_or_app. left. exact Hx.
    + rewrite length_firstn. lia.
  - split.
    + intros x Hx. rewrite <- (firstn_skipn (Z.to_nat k) l).
      apply in_or_app. left. exact Hx.
    + rewrite length_firstn. lia.
Qed.

Lemma filter_length_bound {A} (f : A -> bool) (l : list A) :
  Py.len (List.filter f l) <= Py.len l.
Proof. unfold Py.len. pose proof (filter_length_le f l). lia. Qed.

Lemma enumerate_length {A} (l : list A) :
  Py.len (Significance.enumerate l) = Py.len l.
Proof.
  unfold Py.len. rewrite <- (snd_enumerate l) at 2.
  rewrite length_map. reflexivity.
Qed.

(** X16. Whenever the ranking returns a report, its counters agree: the
    number analyzed is the number of filtered revisions, the number found is
    at most that, and the list returned is at most as long as the number
    found.  Every entry of the list carries a score in the unit interval that
    is the score of its revision, which is at least the threshold, moved by
    0.0005 at most. *)
Theorem X16_report_is_consistent (all_revisions : list Revision)
  (start_datetime end_datetime : bound) (limit : Z) (min_significance : Q)
  (total found : Z) (threshold : Q) (top : list Significance.scored) :
  let filtered :=
    snd (filter_revisions start_datetime end_datetime all_revisions) in
  fst (Significance.get_significant_revisions (Page all_revisions)
         start_datetime end_datetime limit min_significance)
  = Significance.RankingReport total found threshold top ->
  total = Py.len filtered
  /\ threshold = min_significance
  /\ Py.len top <= found <= total
  /\ 2 <= total
  /\ forall sc,
      In sc top ->
      (0 <= Significance.significance_score sc <= 1)%Q
      /\ exists i rev score,
          In (i, rev) (Significance.enumerate filtered)
          /\ Significance.revision_of sc = rev
          /\ Significance._calculate_significance_score
               rev filtered i
               (match filtered with
                | first :: _ => get_or (size first) 1000
                | [] => 1000
                end)
               (Significance.count_user_edits filtered) = Py.Ok score
          /\ (min_significance <= score)%Q
          /\ (- (1 # 2000) <= Significance.significance_score sc - score
              <= 1 # 2000)%Q.
Proof.
  intros filtered Hres. subst filtered.
  unfold Significance.get_significant_revisions in Hres.
  destruct (filter_revisions start_datetime end_datetime all_revisions)
    as [store filtered]. cbn [snd].
  destruct (Significance.rank_filtered filtered limit min_significance)
    as [result|e] eqn:Hrank; cbn [fst] in Hres; [|discriminate].
  subst result. unfold Significance.rank_filtered in Hrank.
  destruct (Z.ltb_spec (Py.len filtered) 2) as [Hfew|Hmany]; [discriminate|].
  match type of Hrank with
  | context [Py.for_each ?step ?entries []] =>
      destruct (Py.for_each step entries []) as [scored|e] eqn:Hloop;
        [|discriminate]
  end.
  cbn [Py.bind] in Hrank. injection Hrank as <- <- <- <-.
  apply score_loop_completed in Hloop.
  destruct Hloop as (scored' & Heq & Hrel). cbn [app] in Heq. subst scored'.
  destruct (slice_to_facts (sort_desc Significance.score_geb scored) limit)
    as [Hincl Hlen].
  split; [reflexivity|]. split; [reflexivity|].
  assert (Hfound : Py.len scored <= Py.len filtered).
  { rewrite <- (enumerate_length filtered).
    unfold Py.len at 1. rewrite <- (Forall2_length Hrel).
    apply filter_length_bound. }
  split.
  { split; [|exact Hfound].
    unfold Py.len in *. rewrite sort_desc_length in Hlen. exact Hlen. }
  split; [exact Hmany|].
  intros sc Hin. apply Hincl in Hin. apply sort_desc_in in Hin.
  destruct (Forall2_in_r _ _ _ _ Hrel Hin) as ([i rev] & Hentry & Hs).
  apply filter_In in Hentry. destruct Hentry as [Hentry _].
  destruct Hs as (Hrev & score & Hscore & Hpass & Hround & _).
  cbn [fst snd] in *.
  assert (Hunit : (0 <= score <= 1)%Q).
  { assert (Hnull : sizediff rev <> Null).
    { intros E. unfold Significance._calculate_significance_score,
        Significance.size_change_of in Hscore.
      rewrite E in Hscore. discriminate. }
    destruct (significance_score_bounds rev filtered i
                (match filtered with
                 | first :: _ => get_or (size first) 1000
                 | [] => 1000
                 end)
                (Significance.count_user_edits filtered) Hnull)
      as (sc0 & _ & Hs0 & _ & Hb).
    rewrite Hscore in Hs0. injection Hs0 as ->. exact Hb. }
  rewrite Hround. split; [apply round3_unit; exact Hunit|].
  exists i, rev, score. repeat split; try assumption; apply round3_near.
Qed.

Lemma X16_report_is_consistent_witness :
  exists total found threshold top,
    fst (Significance.get_significant_revisions
           (Page ranking_test) (At (mk_datetime 2024 1 1 0 0 0 0))
           (At (mk_datetime 2024 1 5 0 0 0 0)) 10 (3 # 10))
    = Significance.RankingReport total found threshold top
    /\ Py.len top <= found <= total.
Proof.
  do 4 eexists.
  match goal with
  | |- ?A /\ _ => assert (Hres : A) by (vm_compute; reflexivity)
  end.
  split; [exact Hres|].
  exact (proj1 (proj2 (proj2
           (X16_report_is_consistent ranking_test
              (At (mk_datetime 2024 1 1 0 0 0 0))
              (At (mk_datetime 2024 1 5 0 0 0 0)) 10 (3 # 10)
              _ _ _ _ Hres)))).
Defined.

Lemma filter_all {A} (f : A -> bool) (l : list A) :
  (forall x, In x l -> f x = true) -> List.filter f l = l.
Proof.
  induction l as [|x l IH]; intros Hall; [reflexivity|].
  simpl. rewrite (Hall x (or_introl eq_refl)), IH; [reflexivity|].
  intros y Hy. apply Hall. right. exact Hy.
Qed.

(** X15. With a threshold of 0 or less nothing is filtered out: when the
    ranking runs on revisions none of which has a null size change, the
    number found is the number analyzed. *)
Theorem X15_threshold_zero_keeps_all (all_revisions : list Revision)
  (start_datetime end_datetime : bound) (limit : Z) (min_significance : Q) :
  let filtered :=
    snd (filter_revisions start_datetime end_datetime all_revisions) in
  (min_significance <= 0)%Q ->
  2 <= Py.len filtered ->
  Forall (fun rev => sizediff rev <> Null) filtered ->
  exists top,
    fst (Significance.get_significant_revisions (Page all_revisions)
           start_datetime end_datetime limit min_significance)
    = Significance.RankingReport (Py.len filtered) (Py.len filtered)
                                 min_significance top.
Proof.
  intros filtered Hthr Hlen Hnull. subst filtered.
  unfold Significance.get_significant_revisions.
  destruct (filter_revisions start_datetime end_datetime all_revisions)
    as [store filtered]. cbn [snd] in *.
  unfold Significance.rank_filtered.
  destruct (Z.ltb_spec (Py.len filtered) 2); [lia|].
  match goal with
  | |- context [Py.for_each (Significance.score_step ?f ?c ?u ?m) ?en []] =>
      destruct (score_loop f c u m en []) as (scored & Hrun & Hrel);
        [|assert (Hall : List.filter (passing f c u m) en = en)]
  end.
  - rewrite <- (snd_enumerate filtered), Forall_map in Hnull. exact Hnull.
  - apply filter_all. intros [i rev] Hin. unfold passing. cbn [fst snd].
    assert (Hrev : sizediff rev <> Null).
    { rewrite <- (snd_enumerate filtered), Forall_map, Forall_forall
        in Hnull. apply (Hnull (i, rev) Hin). }
    match goal with
    | |- context [Significance._calculate_significance_score
                    rev ?f i ?c ?u] =>
        destruct (significance_score_bounds rev f i c u Hrev)
          as (sc0 & _ & Hs0 & _ & Hb)
    end.
    rewrite Hs0. apply Qle_bool_iff. lra.
  - rewrite Hall in Hrel. rewrite Hrun. cbn [Py.bind app fst].
    eexists. f_equal.
    unfold Py.len. rewrite <- (Forall2_length Hrel).
    fold (Py.len (Significance.enumerate filtered)).
    apply enumerate_length.
Qed.

Lemma X15_threshold_zero_keeps_all_witness :
  exists top,
    fst (Significance.get_significant_revisions
           (Page ranking_test) Unbounded Unbounded 10 0)
    = Significance.RankingReport 4 4 0 top.
Proof.
  apply (X15_threshold_zero_keeps_all ranking_test Unbounded Unbounded 10 0).
  - apply Qle_refl.
  - vm_compute. discriminate.
  - repeat constructor; discriminate.
Defined.

(** ** The statistics of the report *)

Lemma fold_min_bounds (data : list Z) (x : Z) :
  fold_left Z.min data x <= x
  /\ (forall y, In y data -> fold_left Z.min data x <= y)
  /\ In (fold_left Z.min data x) (x :: data).
Proof.
  revert x; induction data as [|z data IH]; intros x.
  - simpl. repeat split; [lia | intros y [] | left; reflexivity].
  - cbn [fold_left]. destruct (IH (Z.min x z)) as (H1 & H2 & H3).
    split; [lia|]. split.
    + intros y [<-|Hy]; [lia | auto].
    + destruct H3 as [H3|H3]; [|right; right; exact H3].
      rewrite <- H3. destruct (Z.min_spec x z) as [[_ ->]|[_ ->]];
        [left | right; left]; reflexivity.
Qed.

Lemma fold_max_bounds (data : list Z) (x : Z) :
  x <= fold_left Z.max data x
  /\ (forall y, In y data -> y <= fold_left Z.max data x)
  /\ In (fold_left Z.max data x) (x :: data).
Proof.
  revert x; induction data as [|z data IH]; intros x.
  - simpl. repeat split; [lia | intros y [] | left; reflexivity].
  - cbn [fold_left]. destruct (IH (Z.max x z)) as (H1 & H2 & H3).
    split; [lia|]. split.
    + intros y [<-|Hy]; [lia | auto].
    + destruct H3 as [H3|H3]; [|right; right; exact H3].
      rewrite <- H3. destruct (Z.max_spec x z) as [[_ ->]|[_ ->]];
        [right; left | left]; reflexivity.
Qed.

Lemma minimum_maximum_bounds (data : list Z) (c : Z) :
  In c data ->
  Activity.minimum data <= c <= Activity.maximum data
  /\ In (Activity.minimum data) data /\ In (Activity.maximum data) data.
Proof.
  destruct data as [|x rest]; [contradiction|]. intros Hin.
  unfold Activity.minimum, Activity.maximum.
  destruct (fold_min_bounds rest x) as (Hm1 & Hm2 & Hm3).
  destruct (fold_max_bounds rest x) as (HM1 & HM2 & HM3).
  split; [|split; assumption].
  destruct Hin as [<-|Hin]; [lia|].
  split; [apply Hm2 | apply HM2]; exact Hin.
Qed.

(** X11. In a report, the minimum and the maximum of the edit statistics
    are edit counts of windows and bound the edit count of every window, the
    minimum being at least 1; the same holds of the editor statistics and
    the editor counts. *)
Theorem X11_statistics_bound_windows (all_revisions : list Revision)
  (start_datetime end_datetime : bound) (window_size : string)
  (z_threshold : R) (grouped : list (string * Activity.window)) :
  let filtered :=
    snd (filter_revisions start_datetime end_datetime all_revisions) in
  Activity.group_revisions window_size filtered = Py.Ok grouped ->
  3 <= Py.len grouped ->
  exists total_windows total_revisions edit_statistics editor_statistics
         spikes,
    fst (Activity.analyze_edit_activity (Page all_revisions) start_datetime
           end_datetime window_size z_threshold)
    = Activity.AnalysisReport total_windows total_revisions edit_statistics
                              editor_statistics spikes
    /\ total_windows = Py.len grouped
    /\ total_revisions = Py.len filtered
    /\ 1 <= Activity.stat_min edit_statistics
    /\ 1 <= Activity.stat_min editor_statistics
    /\ In (Activity.stat_min edit_statistics) (edit_counts_of grouped)
    /\ In (Activity.stat_max edit_statistics) (edit_counts_of grouped)
    /\ In (Activity.stat_min editor_statistics) (editor_counts_of grouped)
    /\ In (Activity.stat_max editor_statistics) (editor_counts_of grouped)
    /\ forall key w,
        In (key, w) grouped ->
        Activity.stat_min edit_statistics <= Activity.edit_count w
          <= Activity.stat_max edit_statistics
        /\ Activity.stat_min editor_statistics <= Activity.editor_count_of w
           <= Activity.stat_max editor_statistics.
Proof.
  intros filtered Hrun Hlen.
  destruct (analyze_edit_activity_grouped all_revisions start_datetime
              end_datetime window_size z_threshold)
    as (g & Hrun' & Hok & Hres).
  fold filtered in Hrun', Hok, Hres.
  rewrite Hrun in Hrun'. injection Hrun' as <-.
  destruct (analyze_grouped_cases filtered grouped z_threshold)
    as [[Hfew _]|[_ Hcase]]; [lia|].
  rewrite Hcase in Hres.
  pose proof (editors_within_edits _ _ _ Hok) as Hwin.
  assert (Hentry : exists key w, In (key, w) grouped).
  { destruct grouped as [|[key w] rest];
      [unfold Py.len in Hlen; simpl in Hlen; lia|].
    exists key, w. left. reflexivity. }
  destruct Hentry as (key0 & w0 & Hin0).
  assert (Hin_e : forall key w, In (key, w) grouped ->
                                In (Activity.edit_count w)
                                   (edit_counts_of grouped)).
  { intros key w Hin.
    apply (in_map (fun entry => Activity.edit_count (snd entry))) in Hin.
    exact Hin. }
  assert (Hin_r : forall key w, In (key, w) grouped ->
                                In (Activity.editor_count_of w)
                                   (editor_counts_of grouped)).
  { intros key w Hin.
    apply (in_map (fun entry => Activity.editor_count_of (snd entry))) in Hin.
    exact Hin. }
  destruct (minimum_maximum_bounds _ _ (Hin_e _ _ Hin0)) as (_ & He1 & He2).
  destruct (minimum_maximum_bounds _ _ (Hin_r _ _ Hin0)) as (_ & Hr1 & Hr2).
  do 5 eexists. split; [exact Hres|]. cbn [Activity.describe
    Activity.stat_min Activity.stat_max].
  split; [reflexivity|]. split; [reflexivity|].
  split.
  { pose proof He1 as H. apply in_map_iff in H.
    destruct H as ([k w] & <- & Hin). specialize (Hwin k w Hin).
    simpl. lia. }
  split.
  { pose proof Hr1 as H. apply in_map_iff in H.
    destruct H as ([k w] & <- & Hin). specialize (Hwin k w Hin).
    simpl. lia. }
  do 4 (split; [assumption|]).
  intros key w Hin. split.
  - apply minimum_maximum_bounds, (Hin_e _ _ Hin).
  - apply minimum_maximum_bounds, (Hin_r _ _ Hin).
Qed.

Lemma X11_statistics_bound_windows_witness :
  exists total_windows total_revisions edit_statistics editor_statistics
         spikes,
    fst (Activity.analyze_edit_activity (Page three_days) Unbounded Unbounded
                                        "day" 2%R)
    = Activity.AnalysisReport total_windows total_revisions edit_statistics
                              editor_statistics spikes
    /\ total_windows = 3
    /\ 1 <= Activity.stat_min edit_statistics.
Proof.
  destruct (X11_statistics_bound_windows three_days Unbounded Unbounded "day"
              2%R three_days_grouped eq_refl)
    as (tw & tr & es & eds & spikes & Hres & Htw & _ & Hmin & _).
  - vm_compute. discriminate.
  - exists tw, tr, es, eds, spikes. repeat split; assumption.
Defined.

(** ** Day and month labels *)

Lemma digit_mod (a b : Z) : digit a = digit b -> a mod 10 = b mod 10.
Proof.
  unfold digit. intros H. apply (f_equal nat_of_ascii) in H.
  pose proof (Z.mod_pos_bound a 10 eq_refl).
  pose proof (Z.mod_pos_bound b 10 eq_refl).
  rewrite !nat_ascii_embedding in H by lia. lia.
Qed.

Lemma pad2_inj (a b : Z) :
  0 <= a < 100 -> 0 <= b < 100 -> pad2 a = pad2 b -> a = b.
Proof.
  intros Ha Hb H. unfold pad2 in H. injection H as H1 H0.
  apply digit_mod in H1, H0.
  pose proof (Z.div_mod a 10 ltac:(lia)).
  pose proof (Z.div_mod b 10 ltac:(lia)).
  assert (0 <= a / 10 < 10) by (split; [apply Z.div_pos | apply Z.div_lt_upper_bound]; lia).
  assert (0 <= b / 10 < 10) by (split; [apply Z.div_pos | apply Z.div_lt_upper_bound]; lia).
  rewrite !Z.mod_small in H1 by lia. lia.
Qed.

Lemma pad4_inj (a b : Z) :
  0 <= a < 10000 -> 0 <= b < 10000 -> pad4 a = pad4 b -> a = b.
Proof.
  intros Ha Hb H. unfold pad4, pad2 in H. injection H as H3 H2 H1 H0.
  apply digit_mod in H3, H2, H1, H0.
  pose proof (Z.div_mod a 10 ltac:(lia)).
  pose proof (Z.div_mod b 10 ltac:(lia)).
  pose proof (Z.div_mod (a / 10) 10 ltac:(lia)) as Ha1.
  pose proof (Z.div_mod (b / 10) 10 ltac:(lia)) as Hb1.
  pose proof (Z.div_mod (a / 100) 10 ltac:(lia)) as Ha2.
  pose proof (Z.div_mod (b / 100) 10 ltac:(lia)) as Hb2.
  rewrite Z.div_div in Ha1, Hb1, Ha2, Hb2 by lia.
  change (10 * 10) with 100 in *. change (100 * 10) with 1000 in *.
  assert (0 <= a / 1000 < 10) by (split; [apply Z.div_pos | apply Z.div_lt_upper_bound]; lia).
  assert (0 <= b / 1000 < 10) by (split; [apply Z.div_pos | apply Z.div_lt_upper_bound]; lia).
  rewrite !(Z.mod_small (_ / 1000)) in H3 by lia. lia.
Qed.

(** X17. Day windows follow the calendar date and month windows the
    calendar month: two instants have the same day label exactly when they
    have the same year, month and day, and the same month label exactly when
    they have the same year and month. *)
Theorem X17_day_and_month_labels (t t' : datetime) :
  calendar_date t -> calendar_date t' ->
  (Activity.window_key "day" t = Activity.window_key "day" t'
   <-> year t = year t' /\ month t = month t' /\ day t = day t')
  /\ (Activity.window_key "month" t = Activity.window_key "month" t'
      <-> year t = year t' /\ month t = month t').
Proof.
  intros (Hy & Hm & Hd) (Hy' & Hm' & Hd').
  change (Activity.window_key "day" t) with (strftime_Ymd t).
  change (Activity.window_key "day" t') with (strftime_Ymd t').
  change (Activity.window_key "month" t) with (strftime_Ym t).
  change (Activity.window_key "month" t') with (strftime_Ym t').
  unfold strftime_Ymd, strftime_Ym.
  split; split.
  - intros H.
    assert (E : pad4 (year t) = pad4 (year t')
                /\ pad2 (month t) = pad2 (month t')
                /\ pad2 (day t) = pad2 (day t')).
    { unfold pad4, pad2 in *. cbn [String.append] in H.
      inversion H. repeat split; congruence. }
    destruct E as (Ey & Em & Ed).
    repeat split; [apply pad4_inj | apply pad2_inj | apply pad2_inj];
      (lia || assumption).
  - intros (-> & -> & ->). reflexivity.
  - intros H.
    assert (E : pad4 (year t) = pad4 (year t')
                /\ pad2 (month t) = pad2 (month t')).
    { unfold pad4, pad2 in *. cbn [String.append] in H.
      inversion H. repeat split; congruence. }
    destruct E as (Ey & Em).
    split; [apply pad4_inj | apply pad2_inj]; (lia || assumption).
  - intros (-> & ->). reflexivity.
Qed.

Lemma X17_day_and_month_labels_witness :
  Activity.window_key "month" (mk_datetime 2024 1 3 14 30 0 0)
  = Activity.window_key "month" (mk_datetime 2024 1 17 9 0 0 0)
  <-> 2024 = 2024 /\ 1 = 1.
Proof.
  apply (X17_day_and_month_labels (mk_datetime 2024 1 3 14 30 0 0)
           (mk_datetime 2024 1 17 9 0 0 0));
    unfold calendar_date; simpl; lia.
Defined.

(** ** Countries and language variants *)

Section LocaleFacts.
Import Locale.

Lemma dict_get_in (key value : string) (d : list (string * string)) :
  dict_get key d = Some value -> In (key, value) d.
Proof.
  induction d as [|[k v] d IH]; simpl; [discriminate|].
  destruct (String.eqb_spec k key) as [->|Hne].
  - intros [= ->]. left. reflexivity.
  - intros H. right. exact (IH H).
Qed.

Lemma upper_ascii_facts (c : ascii) :
  orb (is_lower (upper_ascii c)) (is_upper (upper_ascii c))
  = orb (is_lower c) (is_upper c)
  /\ Py.lower_ascii (upper_ascii c) = Py.lower_ascii c
  /\ upper_ascii (upper_ascii c) = upper_ascii c.
Proof.
  destruct c as [[] [] [] [] [] [] [] []]; vm_compute; repeat split.
Qed.

(** Title case does not depend on the case of the letters it is given. *)
Lemma title_from_upper (previous_is_cased : bool) (s : string) :
  title_from previous_is_cased (upper s) = title_from previous_is_cased s.
Proof.
  revert previous_is_cased; induction s as [|c s IH]; intros b;
    [reflexivity|].
  cbn [upper title_from].
  destruct (upper_ascii_facts c) as (Hcased & Hlow & Hup).
  rewrite Hcased, Hlow, Hup, !IH.
  destruct (is_lower c) eqn:El; cbn [orb]; [reflexivity|].
  destruct (is_upper c); [reflexivity|].
  unfold upper_ascii. rewrite El. reflexivity.
Qed.

Lemma table_found_by_case :
  forallb (fun entry =>
             orb (String.eqb (fst entry) "Bosnia and Herzegovina")
                 (found_by_case entry))
          COUNTRY_TO_LANGUAGE = true.
Proof. vm_compute. reflexivity. Qed.

Lemma table_found_as_written :
  forallb found_as_written COUNTRY_TO_LANGUAGE = true.
Proof. vm_compute. reflexivity. Qed.

Lemma variants_have_plain_bases :
  forallb (fun entry : string * string =>
             match dict_get (snd entry) LANGUAGE_VARIANTS with
             | Some _ => false
             | None => true
             end)
          LANGUAGE_VARIANTS = true.
Proof. vm_compute. reflexivity. Qed.

End LocaleFacts.

(** X18. Every country code and country name of the table resolves, as
    written, to its language.  Apart from "Bosnia and Herzegovina", it also
    resolves in any other letter case; that one name is accepted as written
    only, since title case makes its "and" an "And". *)
Theorem X18_countries_resolve :
  (forall k v,
      In (k, v) Locale.COUNTRY_TO_LANGUAGE ->
      Locale._resolve_country_to_language k = Locale.Resolved v)
  /\ (forall k v s,
         In (k, v) Locale.COUNTRY_TO_LANGUAGE ->
         k <> "Bosnia and Herzegovina"%string ->
         Locale.upper s = Locale.upper k ->
         Locale._resolve_country_to_language s = Locale.Resolved v)
  /\ (exists message,
         Locale._resolve_country_to_language "bosnia and herzegovina"
         = Locale.ValueError message).
Proof.
  split; [|split].
  - intros k v Hin.
    pose proof table_found_as_written as H.
    rewrite forallb_forall in H. specialize (H (k, v) Hin).
    unfold found_as_written in H.
    destruct (Locale._resolve_country_to_language k) as [language|];
      [|discriminate].
    apply String.eqb_eq in H. congruence.
  - intros k v s Hin Hk Hs.
    pose proof table_found_by_case as H.
    rewrite forallb_forall in H. specialize (H (k, v) Hin).
    cbn [fst] in H. apply orb_true_iff in H.
    destruct H as [H|H]; [apply String.eqb_eq in H; contradiction|].
    unfold found_by_case in H.
    unfold Locale._resolve_country_to_language.
    assert (Ht : Locale.title s = Locale.title k).
    { unfold Locale.title.
      rewrite <- (title_from_upper false s), Hs. apply title_from_upper. }
    rewrite Hs, Ht.
    destruct (Locale.dict_get (Locale.strip (Locale.upper k))
                              Locale.COUNTRY_TO_LANGUAGE) as [language|].
    + apply String.eqb_eq in H. congruence.
    + destruct (Locale.dict_get (Locale.strip (Locale.title k))
                                Locale.COUNTRY_TO_LANGUAGE) as [language|];
        [|discriminate].
      apply String.eqb_eq in H. congruence.
  - eexists. vm_compute. reflexivity.
Qed.

(** X19. A client is built on a base language that is not itself a
    variant: parsing it again gives the same base and no variant.  Its URL is
    that of the base language, and the variant it records, if any, is the
    resolved language itself, the base then being its entry in the table of
    variants. *)
Theorem X19_client_base_language (language : string)
  (country : option string) (c : Locale.client) :
  Locale.init language country = inl c ->
  Locale._parse_language_variant (Locale.base_language c)
  = (Locale.base_language c, None)
  /\ Locale.api_url c
     = ("https://" ++ Locale.base_language c ++ ".wikipedia.org/w/api.php")%string
  /\ match Locale.language_variant c with
     | Some variant =>
         variant = Locale.resolved_language c
         /\ In (variant, Locale.base_language c) Locale.LANGUAGE_VARIANTS
     | None => Locale.base_language c = Locale.resolved_language c
     end.
Proof.
  assert (Hbuild : forall resolved : string,
             let '(base, variant) := Locale._parse_language_variant resolved in
             Locale._parse_language_variant base = (base, None)
             /\ match variant with
                | Some v => v = resolved
                            /\ In (v, base) Locale.LANGUAGE_VARIANTS
                | None => base = resolved
                end).
  { intros resolved. unfold Locale._parse_language_variant.
    destruct (Locale.dict_get resolved Locale.LANGUAGE_VARIANTS)
      as [base|] eqn:E.
    - apply dict_get_in in E.
      pose proof variants_have_plain_bases as H.
      rewrite forallb_forall in H. specialize (H (resolved, base) E).
      cbn [snd] in H.
      destruct (Locale.dict_get base Locale.LANGUAGE_VARIANTS);
        [discriminate|].
      split; [reflexivity|]. split; [reflexivity | exact E].
    - rewrite E. split; reflexivity. }
  unfold Locale.init. intros Hinit. cbv beta zeta in Hinit.
  assert (Hc : exists original kind resolved : string,
             c = let '(base, variant) :=
                   Locale._parse_language_variant resolved in
                 Locale.mk_client original kind resolved base variant
                   ("https://" ++ base ++ ".wikipedia.org/w/api.php")).
  { destruct country as [co|].
    - destruct (String.eqb co EmptyString).
      + injection Hinit as <-. eauto.
      + destruct (Locale._resolve_country_to_language co);
          [|discriminate].
        injection Hinit as <-. eauto.
    - injection Hinit as <-. eauto. }
  destruct Hc as (original & kind & resolved & ->).
  specialize (Hbuild resolved).
  destruct (Locale._parse_language_variant resolved) as [base variant].
  cbn [Locale.base_language Locale.api_url Locale.language_variant
       Locale.resolved_language].
  destruct Hbuild as [H1 H2]. split; [exact H1|]. split; [reflexivity|].
  exact H2.
Qed.

Lemma X19_client_base_language_witness :
  Locale._parse_language_variant "nb" = ("nb"%string, None).
Proof.
  exact (proj1 (X19_client_base_language
                  "en" (Some "NO"%string) _ eq_refl)).
Defined.

(** ** Article text *)

Lemma wiki_section_nested_ind (P : Text.wiki_section -> Prop) :
  (forall title text sections,
      Forall P sections -> P (Text.WikiSection title text sections)) ->
  forall section, P section.
Proof.
  intros H. fix IH 1. intros [title text sections]. apply H.
  induction sections as [|s rest IHrest]; constructor;
    [apply IH | exact IHrest].
Qed.

Lemma extract_section_ok (section : Text.wiki_section) :
  forall level,
    forget (Text.extract_section level section) = section
    /\ levelled level (Text.extract_section level section) = true.
Proof.
  induction section as [title text sections IH] using wiki_section_nested_ind.
  intros level. cbn [Text.extract_section forget levelled].
  rewrite Z.eqb_refl, map_map. cbn [andb].
  split.
  - f_equal. induction IH as [|s rest Hs _ IHrest]; cbn [map];
      [reflexivity|]. rewrite (proj1 (Hs _)), IHrest. reflexivity.
  - rewrite forallb_forall. intros d Hd. apply in_map_iff in Hd.
    destruct Hd as [s [<- Hs]]. rewrite Forall_forall in IH.
    apply IH, Hs.
Qed.

(** X20. The list [_extract_sections] returns has the shape of the section
    tree it is given, with the titles and texts of the sections, and every
    entry carries its depth in the tree as level, counted from [level]. *)
Theorem X20_section_tree (sections : list Text.wiki_section) (level : Z) :
  map forget (Text._extract_sections sections level) = sections
  /\ forallb (levelled level) (Text._extract_sections sections level) = true.
Proof.
  unfold Text._extract_sections. split.
  - rewrite map_map. induction sections as [|s rest IH]; cbn [map];
      [reflexivity|]. rewrite (proj1 (extract_section_ok s level)), IH.
    reflexivity.
  - rewrite forallb_forall. intros d Hd. apply in_map_iff in Hd.
    destruct Hd as [s [<- Hs]]. apply extract_section_ok.
Qed.











(** X22. For a [count] that is not negative, [extract_facts] returns at
    most [count] strings, or a single one when [count] is 0. *)
Theorem X22_facts_within_count (title : string) (topic : option string)
  (count : Z) (page : Text.wiki_page) :
  0 <= count ->
  Py.len (Text.extract_facts title topic count page) <= Z.max 1 count.
Proof.
  intros Hcount. unfold Text.extract_facts.
  destruct (negb (Text.page_exists page)); [cbn; lia|].
  match goal with |- context [negb (Text.truthy ?t)] => generalize t end.
  intros text. destruct (negb (Text.truthy text)); [cbn; lia|].
  destruct (map _ _) as [|fact facts] eqn:E; [cbn; lia|].
  rewrite <- E. unfold Py.len. rewrite length_map.
  match goal with |- context [Py.slice_to ?l count] => generalize l end.
  intros sentences.
  pose proof (filter_length_le Text.truthy (Py.slice_to sentences count)).
  unfold Py.slice_to in *. destruct (count <? 0) eqn:Ec; [lia|].
  pose proof (firstn_le_length (Z.to_nat count) sentences).
  rewrite length_firstn in *. lia.
Qed.

Lemma X22_facts_within_count_witness :
  Py.len (Text.extract_facts "Python" None 1 python_page) <= Z.max 1 1.
Proof. apply X22_facts_within_count. lia. Defined.

Section StringFacts.

Lemma substring_length_le (s : string) : forall n m : nat,
  (String.length (String.substring n m s) <= m)%nat.
Proof.
  induction s as [|c s IH]; intros [|n] [|m]; cbn; try lia.
  - specialize (IH 0%nat m). lia.
  - apply (IH n 0%nat).
  - apply (IH n (S m)).
Qed.


Lemma append_length (s t : string) :
  String.length (s ++ t) = (String.length s + String.length t)%nat.
Proof. induction s as [|c s IH]; cbn; [reflexivity | rewrite IH; lia]. Qed.








Lemma slice_head (s : string) (k : Z) :
  0 <= k ->
  Text.slice s None (Some k)
  = String.substring 0 (Z.to_nat (Z.min k (Text.len s))) s.
Proof.
  intros Hk. unfold Text.slice, Text.clamp.
  destruct (k <? 0) eqn:E; [lia|].
  cbn [Z.to_nat]. rewrite Z.sub_0_r. reflexivity.
Qed.


Lemma slice_head_length (s : string) (k : Z) :
  0 <= k -> Text.len (Text.slice s None (Some k)) <= k.
Proof.
  intros Hk. rewrite slice_head by exact Hk. unfold Text.len.
  pose proof (substring_length_le s 0 (Z.to_nat (Z.min k (Text.len s)))).
  unfold Text.len in *. lia.
Qed.

Lemma with_ellipsis_length (cut : bool) (s : string) :
  Text.len (Text.with_ellipsis cut s) <= Text.len s + 3.
Proof.
  unfold Text.with_ellipsis, Text.len. destruct cut; [|lia].
  rewrite append_length. cbn. lia.
Qed.

End StringFacts.

(** X23. For a page that exists and a [max_length] that is not negative,
    the text [summarize_for_query] returns has at most [max_length] + 3
    characters: the 3 of the ellipsis. *)
Theorem X23_summary_length (title query : string) (max_length : Z)
  (page : Text.wiki_page) :
  Text.page_exists page = true ->
  0 <= max_length ->
  Text.len (Text.summarize_for_query title query max_length page)
  <= max_length + 3.
Proof.
  intros Hexists Hmax. unfold Text.summarize_for_query.
  rewrite Hexists. cbn [negb]. cbv zeta.
  destruct (Text.find _ _) as [start_index|].
  - etransitivity; [apply with_ellipsis_length|].
    destruct (max_length <? Text.len _) eqn:E.
    + pose proof (slice_head_length
                    (Text.slice (Text.page_text page)
                       (Some (Z.max 0 (start_index - max_length / 2)))
                       (Some (Z.min (Text.len (Text.page_text page))
                                (start_index + Text.len query
                                 + max_length / 2))))
                    max_length Hmax).
      lia.
    + apply Z.ltb_ge in E. lia.
  - etransitivity; [apply with_ellipsis_length|].
    destruct (Text.truthy _).
    + pose proof (slice_head_length (Text.page_summary page) _ Hmax). lia.
    + pose proof (slice_head_length (Text.page_text page) _ Hmax). lia.
Qed.

Lemma X23_summary_length_witness :
  Text.len (Text.summarize_for_query "Python" "guido" 20 python_page)
  <= 20 + 3.
Proof. apply X23_summary_length; [reflexivity | lia]. Defined.



Section RelatedFacts.
Variable wiki : string -> Text.wiki_page.

Lemma add_links_run (limit : Z) (links : list string) :
  forall related,
    Py.len related + Py.len links <= limit ->
    Text.add_links wiki limit links related
    = related
      ++ map (fun link => Text.link_entry link (wiki link))
             (List.filter (fun link => Text.page_exists (wiki link)) links).
Proof.
  unfold Py.len.
  induction links as [|link rest IH]; intros related Hroom;
    cbn [Text.add_links List.filter map].
  - rewrite app_nil_r. reflexivity.
  - cbn [List.length] in Hroom.
    destruct (Text.page_exists (wiki link)) eqn:E.
    + destruct (limit <=? Py.len _) eqn:Efull.
      * apply Z.leb_le in Efull. unfold Py.len in Efull.
        rewrite length_app in Efull. cbn [List.length] in Efull.
        destruct rest; [reflexivity | cbn [List.length] in Hroom; lia].
      * rewrite IH.
        -- rewrite <- app_assoc. reflexivity.
        -- rewrite length_app. cbn [List.length]. lia.
    + destruct (limit <=? Py.len _) eqn:Efull.
      * apply Z.leb_le in Efull. unfold Py.len in Efull. lia.
      * apply IH. lia.
Qed.

Lemma add_links_negative (limit : Z) (links : list string) :
  limit < 0 ->
  Py.len (Text.add_links wiki limit links []) <= 1
  /\ forallb is_link (Text.add_links wiki limit links []) = true.
Proof.
  intros Hlimit. destruct links as [|link rest]; cbn [Text.add_links].
  - split; [cbn; lia | reflexivity].
  - destruct (Text.page_exists (wiki link)).
    + destruct (limit <=? Py.len _) eqn:E.
      * split; [cbn; lia | reflexivity].
      * apply Z.leb_gt in E.
        pose proof (len_nonneg ([] ++ [Text.link_entry link (wiki link)])).
        lia.
    + destruct (limit <=? Py.len _) eqn:E.
      * split; [cbn; lia | reflexivity].
      * apply Z.leb_gt in E. cbn in E. lia.
Qed.

End RelatedFacts.

(** X25. For a page that exists and a [limit] that is not negative,
    [get_related_topics] returns the links among the first [limit] links of
    the page whose page exists, in their order, and then as many of the
    first categories as fill the list up to [limit] entries; a link after
    the first [limit] is never reported.  The list has at most [limit]
    entries. *)
Theorem X25_related_topics (wiki : string -> Text.wiki_page) (limit : Z)
  (page : Text.wiki_page) :
  Text.page_exists page = true ->
  0 <= limit ->
  let live := live_links wiki limit (Text.page_links page) in
  Text.get_related_topics wiki limit page
  = map (fun link => Text.link_entry link (wiki link)) live
    ++ map category_entry
         (firstn (Z.to_nat (limit - Py.len live))
                 (Text.page_categories page))
  /\ Py.len (Text.get_related_topics wiki limit page) <= limit.
Proof.
  intros Hexists Hlimit live.
  assert (Hlive : Py.len live <= limit).
  { unfold live, live_links, Py.len.
    pose proof (filter_length_le
                  (fun link => Text.page_exists (wiki link))
                  (firstn (Z.to_nat limit) (Text.page_links page))).
    rewrite length_firstn in H. lia. }
  assert (Hresult :
            Text.get_related_topics wiki limit page
            = map (fun link => Text.link_entry link (wiki link)) live
              ++ map category_entry
                   (firstn (Z.to_nat (limit - Py.len live))
                           (Text.page_categories page))).
  { unfold Text.get_related_topics. rewrite Hexists. cbn [negb]. cbv zeta.
    assert (Hslice : Py.slice_to (Text.page_links page) limit
                     = firstn (Z.to_nat limit) (Text.page_links page)).
    { unfold Py.slice_to. destruct (limit <? 0) eqn:E; [lia | reflexivity]. }
    rewrite Hslice, add_links_run.
    2:{ unfold Py.len. rewrite length_firstn. cbn [List.length]. lia. }
    cbn [app]. fold (live_links wiki limit (Text.page_links page)).
    fold live.
    assert (Hlen : Py.len (map (fun link => Text.link_entry link (wiki link))
                               live) = Py.len live).
    { unfold Py.len. rewrite length_map. reflexivity. }
    rewrite Hlen.
    destruct (0 <? limit - Py.len live) eqn:E.
    - unfold Py.slice_to. apply Z.ltb_lt in E.
      destruct (limit - Py.len live <? 0) eqn:E'; [lia|]. reflexivity.
    - apply Z.ltb_ge in E.
      replace (Z.to_nat (limit - Py.len live)) with 0%nat by lia.
      cbn [firstn map]. rewrite app_nil_r. reflexivity. }
  split; [exact Hresult|].
  rewrite Hresult. unfold Py.len in *.
  rewrite length_app, !length_map, length_firstn. lia.
Qed.

Lemma X25_related_topics_witness :
  Py.len (Text.get_related_topics small_wiki 2 python_page) <= 2.
Proof.
  exact (proj2 (X25_related_topics small_wiki 2 python_page
                  eq_refl ltac:(lia))).
Defined.

(** X26. With a negative [limit], [get_related_topics] returns at most one
    entry, and no category. *)
Theorem X26_negative_limit (wiki : string -> Text.wiki_page) (limit : Z)
  (page : Text.wiki_page) :
  limit < 0 ->
  Py.len (Text.get_related_topics wiki limit page) <= 1
  /\ forallb is_link (Text.get_related_topics wiki limit page) = true.
Proof.
  intros Hlimit. unfold Text.get_related_topics.
  destruct (negb (Text.page_exists page)); [split; [cbn; lia | reflexivity]|].
  cbv zeta.
  destruct (add_links_negative wiki limit
              (Py.slice_to (Text.page_links page) limit) Hlimit)
    as [Hlen Hlinks].
  destruct (0 <? _) eqn:E.
  - apply Z.ltb_lt in E.
    pose proof (len_nonneg (Text.add_links wiki limit
                  (Py.slice_to (Text.page_links page) limit) [])).
    lia.
  - split; assumption.
Qed.

Lemma X26_negative_limit_witness :
  Py.len (Text.get_related_topics small_wiki (-1) python_page) <= 1.
Proof.
  exact (proj1 (X26_negative_limit small_wiki (-1) python_page ltac:(lia))).
Defined.
